(** * ESP8266 Network Monitor: a shallow embedding of Internet_Monitor.ino

    The sketch keeps its whole state in global variables and talks to the
    outside through the Arduino libraries.  The embedding gathers the
    globals and the hardware the sketch writes to in one record [Machine],
    records every externally visible action in a chronological [trace],
    and obtains every answer of the network from a [World] oracle indexed
    by a logical clock.  Functions of the sketch become computations in a
    small monad [M] whose results distinguish normal return, a call to
    [ESP.restart()] (control never comes back) and exhaustion of loop fuel. *)

From Stdlib Require Import ZArith Lia Bool String Ascii.
From stdpp Require Import base list.

Local Open Scope string_scope.
Local Open Scope Z_scope.

(** ** Data *)

(** Pin Definitions (lines 80-83). *)
Inductive Pin : Type := pinD4 | pinD6 | pinD7 | pinD8.

Inductive Level : Type := LOW | HIGH.

(** EEPROM Setup (lines 87-90). *)
Definition EEPROM_SSID : nat := 0.
Definition EEPROM_PASSWORD : nat := 32.
Definition EEPROM_API_URL : nat := 96.
Definition EEPROM_SIZE : nat := 256.

(** Timing (lines 101-104). *)
Definition checkInterval : Z := 30000.
Definition maxRetries : Z := 3.
Definition retryDelay : Z := 5000.

(** [struct UptimeData] (lines 107-111): three [uint32_t] counters. *)
Record UptimeData : Type := mkUptime {
  bootCount : Z;
  internetUp : Z;
  apiSuccess : Z
}.

(** [x++] on a [uint32_t]. *)
Definition u32_incr (x : Z) : Z := (x + 1) mod 2 ^ 32.

Definition uptime_zero : UptimeData := mkUptime 0 0 0.

(** The actions of the sketch that are visible from outside.  Of the
    serial output only the three lines that the properties refer to are
    kept; delays spent polling inside [pingHost] and
    [connectToSavedWiFi] belong to the answer of the call. *)
Inductive Event : Type :=
| ev_digitalWrite (p : Pin) (v : Level)
| ev_delay (ms : Z)
| ev_pingHost (host : string) (answer : bool)
| ev_httpGET (url : string) (answer : bool)
| ev_sendGet (url : string) (code : option Z)
| ev_rtcWrite (d : UptimeData)
| ev_eepromCommit
| ev_wifiDisconnect
| ev_wifiBegin (name secret : string)
| ev_send (code : Z) (contentType : string)
| ev_restart
| ev_internetAttempt (n : Z)     (* "Internet check attempt %d/%d" *)
| ev_apiAttempt (n : Z)          (* "API check attempt %d/%d" *)
| ev_finalStatus (internet api : bool). (* "Final Status - Internet: %s, API: %s" *)

(** The globals of the sketch, the function-local [static] of
    [checkWiFiHealth], and the hardware the sketch reads and writes. *)
Record Machine : Type := mkMachine {
  ssid : string;                 (* line 92 *)
  password : string;             (* line 92 *)
  apiURL : string;               (* line 92 *)
  internetOK : bool;             (* line 93 *)
  rtcData : UptimeData;          (* line 111 *)
  rssiFailCount : Z;             (* line 178, static *)
  eeprom : list ascii;           (* the EEPROM library's RAM copy *)
  flash : list ascii;            (* the flash sector behind it *)
  rtcMem : option UptimeData;    (* RTC user memory; None when unreadable *)
  levelD4 : Level;
  levelD7 : Level;
  levelD8 : Level;
  clock : nat;                   (* number of questions asked to the world *)
  trace : list Event             (* oldest event first *)
}.

(** What the network answers when asked for the [t]-th time. *)
Record World : Type := mkWorld {
  WiFi_hostByName : nat -> string -> bool;
  client_connect : nat -> string -> bool;
  client_available : nat -> string -> bool; (* data within the 3000 ms wait *)
  WiFi_connected : nat -> bool;             (* WiFi.status() == WL_CONNECTED *)
  http_begin : nat -> string -> bool;
  http_GET : nat -> string -> Z
}.

(** ** The monad of the sketch *)

Inductive Result (A : Type) : Type :=
| Ret (a : A) (m : Machine)
| Reboot (m : Machine)
| OutOfFuel.

Arguments Ret {A} a m.
Arguments Reboot {A} m.
Arguments OutOfFuel {A}.

Definition M (A : Type) : Type := Machine -> Result A.

Definition ret {A : Type} (a : A) : M A := fun m => Ret a m.

Definition bind {A B : Type} (c : M A) (k : A -> M B) : M B :=
  fun m =>
    match c m with
    | Ret a m' => k a m'
    | Reboot m' => Reboot m'
    | OutOfFuel => OutOfFuel
    end.

Notation "x <- c ;; k" := (bind c (fun x => k))
  (at level 100, c at next level, right associativity).
Notation "c ;; k" := (bind c (fun _ => k))
  (at level 100, right associativity).

Definition get {A : Type} (f : Machine -> A) : M A := fun m => Ret (f m) m.

Definition modify (f : Machine -> Machine) : M unit := fun m => Ret tt (f m).

Definition when (b : bool) (c : M unit) : M unit := if b then c else ret tt.

(** Field updates. *)
Definition set_config (s p a : string) (m : Machine) : Machine :=
  mkMachine s p a (internetOK m) (rtcData m) (rssiFailCount m) (eeprom m)
            (flash m) (rtcMem m) (levelD4 m) (levelD7 m) (levelD8 m)
            (clock m) (trace m).

Definition set_internetOK (b : bool) (m : Machine) : Machine :=
  mkMachine (ssid m) (password m) (apiURL m) b (rtcData m) (rssiFailCount m)
            (eeprom m) (flash m) (rtcMem m) (levelD4 m) (levelD7 m)
            (levelD8 m) (clock m) (trace m).

Definition set_rtcData (d : UptimeData) (m : Machine) : Machine :=
  mkMachine (ssid m) (password m) (apiURL m) (internetOK m) d
            (rssiFailCount m) (eeprom m) (flash m) (rtcMem m) (levelD4 m)
            (levelD7 m) (levelD8 m) (clock m) (trace m).

Definition set_rssiFailCount (n : Z) (m : Machine) : Machine :=
  mkMachine (ssid m) (password m) (apiURL m) (internetOK m) (rtcData m) n
            (eeprom m) (flash m) (rtcMem m) (levelD4 m) (levelD7 m)
            (levelD8 m) (clock m) (trace m).

Definition set_eeprom (e : list ascii) (m : Machine) : Machine :=
  mkMachine (ssid m) (password m) (apiURL m) (internetOK m) (rtcData m)
            (rssiFailCount m) e (flash m) (rtcMem m) (levelD4 m) (levelD7 m)
            (levelD8 m) (clock m) (trace m).

Definition set_flash (e : list ascii) (m : Machine) : Machine :=
  mkMachine (ssid m) (password m) (apiURL m) (internetOK m) (rtcData m)
            (rssiFailCount m) (eeprom m) e (rtcMem m) (levelD4 m) (levelD7 m)
            (levelD8 m) (clock m) (trace m).

Definition set_rtcMem (r : option UptimeData) (m : Machine) : Machine :=
  mkMachine (ssid m) (password m) (apiURL m) (internetOK m) (rtcData m)
            (rssiFailCount m) (eeprom m) (flash m) r (levelD4 m) (levelD7 m)
            (levelD8 m) (clock m) (trace m).

Definition set_level (p : Pin) (v : Level) (m : Machine) : Machine :=
  mkMachine (ssid m) (password m) (apiURL m) (internetOK m) (rtcData m)
            (rssiFailCount m) (eeprom m) (flash m) (rtcMem m)
            (match p with pinD4 => v | _ => levelD4 m end)
            (match p with pinD7 => v | _ => levelD7 m end)
            (match p with pinD8 => v | _ => levelD8 m end)
            (clock m) (trace m).

Definition emit (e : Event) (m : Machine) : Machine :=
  mkMachine (ssid m) (password m) (apiURL m) (internetOK m) (rtcData m)
            (rssiFailCount m) (eeprom m) (flash m) (rtcMem m) (levelD4 m)
            (levelD7 m) (levelD8 m) (clock m) (trace m ++ [e]).

Definition advance (m : Machine) : Machine :=
  mkMachine (ssid m) (password m) (apiURL m) (internetOK m) (rtcData m)
            (rssiFailCount m) (eeprom m) (flash m) (rtcMem m) (levelD4 m)
            (levelD7 m) (levelD8 m) (S (clock m)) (trace m).

(** ** Library calls *)

Definition digitalWrite (p : Pin) (v : Level) : M unit :=
  modify (fun m => emit (ev_digitalWrite p v) (set_level p v m)).

(** [delay(ms)], for the value [ms] of its [unsigned long] argument; the
    sketch calls it with non-negative constants and, in [blinkPattern],
    with [int] parameters that every call site gives non-negative. *)
Definition delay (ms : Z) : M unit := modify (emit (ev_delay ms)).

(** [ESP.restart()] does not return to its caller. *)
Definition ESP_restart {A : Type} : M A :=
  fun m => Reboot (emit ev_restart m).

(** [EEPROM.read]: an address outside the buffer reads as 0. *)
Definition EEPROM_read (data : list ascii) (address : nat) : ascii :=
  default zero (data !! address).

(** [EEPROM.write]: an address outside the buffer is ignored. *)
Definition EEPROM_write (data : list ascii) (address : nat) (v : ascii)
  : list ascii :=
  <[address := v]> data.

(** [EEPROM.commit()]: the RAM copy goes to flash. *)
Definition EEPROM_commit : M unit :=
  modify (fun m => emit ev_eepromCommit (set_flash (eeprom m) m)).

(** [EEPROM.begin(size)]: the RAM copy is filled from flash. *)
Definition EEPROM_begin : M unit :=
  modify (fun m => set_eeprom (flash m) m).

(** [ESP.rtcUserMemoryRead(0, &rtcData, sizeof rtcData)]: on success the
    counters are overwritten with the stored block. *)
Definition ESP_rtcUserMemoryRead : M bool :=
  fun m =>
    match rtcMem m with
    | Some d => Ret true (set_rtcData d m)
    | None => Ret false m
    end.

(** [ESP.rtcUserMemoryWrite(0, &rtcData, sizeof rtcData)]. *)
Definition ESP_rtcUserMemoryWrite : M unit :=
  modify (fun m => emit (ev_rtcWrite (rtcData m)) (set_rtcMem (Some (rtcData m)) m)).

(** ** Settings store (lines 120-136) *)

(** [str[i]] of an Arduino String: 0 past the end. *)
Definition String_at (str : string) (i : nat) : ascii :=
  match String.get i str with
  | Some c => c
  | None => zero
  end.

(** The test [c == '\0' || c == 255] of [loadString]; [char] is unsigned
    on this target, so 255 is the value of an erased cell. *)
Definition is_terminator (c : ascii) : bool :=
  Ascii.eqb c zero || Ascii.eqb c (ascii_of_nat 255).

(** The loop of [loadString], [n] iterations left, index [i]. *)
Fixpoint loadString_loop (data : list ascii) (addr i n : nat) : string :=
  match n with
  | O => EmptyString
  | S n' =>
      let c := EEPROM_read data (addr + i) in
      if is_terminator c then EmptyString
      else String c (loadString_loop data addr (S i) n')
  end.

Definition loadString (addr len : nat) (m : Machine) : string :=
  loadString_loop (eeprom m) addr 0 len.

(** The loop of [saveString], [n] iterations left, index [i]. *)
Fixpoint saveString_loop (str : string) (addr i n : nat) (data : list ascii)
  : list ascii :=
  match n with
  | O => data
  | S n' =>
      let c := if (i <? String.length str)%nat then String_at str i else zero in
      saveString_loop str addr (S i) n' (EEPROM_write data (addr + i) c)
  end.

Definition saveString (str : string) (addr len : nat) : M unit :=
  modify (fun m => set_eeprom (saveString_loop str addr 0 len (eeprom m)) m) ;;
  EEPROM_commit.

(** ** Indicator driver (lines 138-151) *)

Definition blinkD4 : M unit :=
  digitalWrite pinD4 HIGH ;;
  delay 100 ;;
  digitalWrite pinD4 LOW.

(** The [for] loop of [blinkPattern], [n] iterations left, index [i]. *)
Fixpoint blinkPattern_loop (count on off i : Z) (n : nat) : M unit :=
  match n with
  | O => ret tt
  | S n' =>
      digitalWrite pinD4 HIGH ;;
      delay on ;;
      digitalWrite pinD4 LOW ;;
      when (i <? count - 1) (delay off) ;;
      blinkPattern_loop count on off (i + 1) n'
  end.

Definition blinkPattern (count on off : Z) : M unit :=
  blinkPattern_loop count on off 0 (Z.to_nat count).

(** ** Factory reset (lines 154-159) *)

Definition handleResetSettings : M unit :=
  saveString "myssid" EEPROM_SSID 32 ;;
  saveString "mypassword" EEPROM_PASSWORD 64 ;;
  saveString "http://login.npu.ac.th/login?123456" EEPROM_API_URL 128.

(** ** Link supervisor (lines 177-193) *)

(** What [WiFi.status()] and [WiFi.RSSI()] answer at one tick. *)
Record Tick : Type := mkTick {
  tick_connected : bool;
  tick_RSSI : Z
}.

Definition checkWiFiHealth (t : Tick) : M unit :=
  when (negb (tick_connected t)) ESP_restart ;;
  let rssi := tick_RSSI t in
  (if rssi <? -90
   then modify (fun m => set_rssiFailCount (rssiFailCount m + 1) m)
   else modify (set_rssiFailCount 0)) ;;
  n <- get rssiFailCount ;;
  when (6 <=? n)
    (modify (emit ev_wifiDisconnect) ;;
     delay 500 ;;
     s <- get ssid ;;
     p <- get password ;;
     modify (emit (ev_wifiBegin s p)) ;;
     modify (set_rssiFailCount 0)).

(** Successive ticks of the supervisor, as [loop] issues them. *)
Fixpoint supervise (ts : list Tick) : M unit :=
  match ts with
  | [] => ret tt
  | t :: ts' => checkWiFiHealth t ;; supervise ts'
  end.

(** ** Connectivity prober (lines 255-286) *)

Definition pingHost (w : World) (host : string) : M bool :=
  fun m =>
    let t := clock m in
    let answer :=
      if negb (WiFi_hostByName w t host) then false
      else if negb (client_connect w t host) then false
      else client_available w t host in
    Ret answer (advance (emit (ev_pingHost host answer) m)).

Definition httpGETRequest (w : World) (url : string) : M bool :=
  fun m =>
    let t := clock m in
    let answer :=
      if negb (WiFi_connected w t) then false
      else if negb (http_begin w t url) then false
      else 0 <? http_GET w t url in
    Ret answer (advance (emit (ev_httpGET url answer) m)).

(** ** Health monitor (lines 195-253) *)

(** Both [while] loops are bounded by [maxRetries]. *)
Definition loop_fuel : nat := Z.to_nat maxRetries.

(** One round of the inner loop (lines 214-223); [continue] is the loop
    taken up again with the updated locals. *)
Definition api_body (w : World) (continue : Z -> bool -> M (Z * bool))
  (apiAttempts : Z) (apiOK : bool) : M (Z * bool) :=
  let apiAttempts := apiAttempts + 1 in
  modify (emit (ev_apiAttempt apiAttempts)) ;;
  url <- get apiURL ;;
  r <- httpGETRequest w url ;;
  if r then continue apiAttempts true
  else
    (when (apiAttempts <? maxRetries) (delay retryDelay) ;;
     continue apiAttempts apiOK).

(** The inner [while (apiAttempts < maxRetries && !apiOK)]. *)
Fixpoint api_loop (w : World) (fuel : nat) (apiAttempts : Z) (apiOK : bool)
  : M (Z * bool) :=
  fun m =>
    if (apiAttempts <? maxRetries) && negb apiOK then
      match fuel with
      | O => OutOfFuel
      | S fuel' => api_body w (api_loop w fuel') apiAttempts apiOK m
      end
    else Ret (apiAttempts, apiOK) m.

(** One round of the outer loop (lines 205-228). *)
Definition internet_body (w : World)
  (continue : Z -> Z -> bool -> M (Z * Z * bool))
  (pingAttempts apiAttempts : Z) (apiOK : bool) : M (Z * Z * bool) :=
  let pingAttempts := pingAttempts + 1 in
  modify (emit (ev_internetAttempt pingAttempts)) ;;
  g <- pingHost w "www.google.com" ;;
  r <- (if g then ret true else pingHost w "www.yahoo.com") ;;
  if r then
    (modify (set_internetOK true) ;;
     res <- api_loop w loop_fuel apiAttempts apiOK ;;
     continue pingAttempts (fst res) (snd res))
  else
    (when (pingAttempts <? maxRetries) (delay retryDelay) ;;
     continue pingAttempts apiAttempts apiOK).

(** The outer [while (pingAttempts < maxRetries && !internetOK)]; the
    flag it tests is the global of line 93. *)
Fixpoint internet_loop (w : World) (fuel : nat) (pingAttempts apiAttempts : Z)
  (apiOK : bool) : M (Z * Z * bool) :=
  fun m =>
    if (pingAttempts <? maxRetries) && negb (internetOK m) then
      match fuel with
      | O => OutOfFuel
      | S fuel' =>
          internet_body w (internet_loop w fuel') pingAttempts apiAttempts
                        apiOK m
      end
    else Ret (pingAttempts, apiAttempts, apiOK) m.

(** Lines 199-229: the locals are declared and the loops run; the value
    is the local [apiOK]. *)
Definition probe_phase (w : World) : M bool :=
  res <- internet_loop w loop_fuel 0 0 false ;;
  ret (snd res).

Definition incr_apiSuccess (m : Machine) : Machine :=
  set_rtcData (mkUptime (bootCount (rtcData m)) (internetUp (rtcData m))
                        (u32_incr (apiSuccess (rtcData m)))) m.

Definition incr_internetUp (m : Machine) : Machine :=
  set_rtcData (mkUptime (bootCount (rtcData m)) (u32_incr (internetUp (rtcData m)))
                        (apiSuccess (rtcData m))) m.

Definition incr_bootCount (m : Machine) : Machine :=
  set_rtcData (mkUptime (u32_incr (bootCount (rtcData m))) (internetUp (rtcData m))
                        (apiSuccess (rtcData m))) m.

(** Lines 231-252: LEDs, blink feedback, statistics, final log line. *)
Definition report_phase (apiOK : bool) : M unit :=
  ok <- get internetOK ;;
  digitalWrite pinD8 (if ok then HIGH else LOW) ;;
  digitalWrite pinD7 (if ok then LOW else HIGH) ;;
  (if ok && apiOK then
     blinkPattern 2 100 100 ;;
     modify incr_apiSuccess
   else if negb ok then
     blinkPattern 3 100 100
   else
     blinkPattern 1 500 0) ;;
  when ok (modify incr_internetUp) ;;
  ESP_rtcUserMemoryWrite ;;
  modify (emit (ev_finalStatus ok apiOK)).

Definition performInternetCheck (w : World) : M unit :=
  blinkD4 ;;
  apiOK <- probe_phase w ;;
  report_phase apiOK.

(** ** Web handlers *)

(** The arguments of the current request, in the order received. *)
Definition Args : Type := list (string * string).

Definition server_hasArg (args : Args) (name : string) : bool :=
  existsb (fun kv => String.eqb (fst kv) name) args.

Definition server_arg (args : Args) (name : string) : string :=
  match List.find (fun kv => String.eqb (fst kv) name) args with
  | Some kv => snd kv
  | None => EmptyString
  end.

Definition server_send (code : Z) (contentType : string) : M unit :=
  modify (emit (ev_send code contentType)).

(** POST /save as registered by [configMode] (lines 894-931). *)
Definition configMode_save (args : Args) : M unit :=
  if server_hasArg args "ssid" then
    modify (set_config (server_arg args "ssid") (server_arg args "password")
                       (server_arg args "api_url")) ;;
    s <- get ssid ;; saveString s EEPROM_SSID 32 ;;
    p <- get password ;; saveString p EEPROM_PASSWORD 64 ;;
    a <- get apiURL ;; saveString a EEPROM_API_URL 128 ;;
    server_send 200 "text/html" ;;
    delay 1000 ;;
    ESP_restart
  else
    server_send 400 "text/plain".

(** POST /save as registered by [normalSetup] (lines 1065-1102). *)
Definition normalSetup_save (args : Args) : M unit :=
  if server_hasArg args "ssid" then
    modify (set_config (server_arg args "ssid") (server_arg args "password")
                       (server_arg args "api_url")) ;;
    s <- get ssid ;; saveString s EEPROM_SSID 32 ;;
    p <- get password ;; saveString p EEPROM_PASSWORD 64 ;;
    a <- get apiURL ;; saveString a EEPROM_API_URL 128 ;;
    server_send 200 "text/html" ;;
    delay 1000 ;;
    ESP_restart
  else
    server_send 400 "text/plain".

(** GET /reset (lines 934-957 and 1105-1128). *)
Definition reset_handler : M unit :=
  server_send 200 "text/html" ;;
  handleResetSettings ;;
  delay 1000 ;;
  ESP_restart.

(** ** Mode controller *)

Inductive OperatingMode : Type := Station | ConfigurationPortal.

(** What the hardware answers once during a boot. *)
Record BootEnv : Type := mkBootEnv {
  button_low_first : bool;    (* digitalRead(pinD6) == LOW, line 1167 *)
  button_low_second : bool;   (* the same after the debounce, line 1169 *)
  station_connects : bool;    (* WL_CONNECTED within the timeout *)
  softAPConfig_ok : bool;
  softAP_ok : bool;
  dns_start_ok : bool
}.

(** Lines 161-175; the polling of [WiFi.status()] is the answer of the
    environment. *)
Definition connectToSavedWiFi (env : BootEnv) : M bool :=
  s <- get ssid ;;
  p <- get password ;;
  modify (emit (ev_wifiBegin s p)) ;;
  ret (station_connects env).

(** Lines 983-1136; registering the host name, mDNS, OTA callbacks and
    routes changes none of the state kept here. *)
Definition normalSetup : M unit :=
  ok <- ESP_rtcUserMemoryRead ;;
  when (negb ok) (modify (set_rtcData (mkUptime 0 0 0))) ;;
  modify incr_bootCount ;;
  ESP_rtcUserMemoryWrite ;;
  digitalWrite pinD4 LOW ;;
  digitalWrite pinD7 LOW ;;
  digitalWrite pinD8 LOW.

(** Lines 834-978 up to the point where the portal starts serving; the
    endless service loop that follows is the mode [ConfigurationPortal]. *)
Definition configMode (env : BootEnv) : M unit :=
  modify (emit ev_wifiDisconnect) ;;
  delay 1000 ;;
  when (negb (softAPConfig_ok env))
    (blinkPattern 5 200 200 ;; delay 1000 ;; ESP_restart) ;;
  when (negb (softAP_ok env))
    (blinkPattern 3 500 500 ;; delay 1000 ;; ESP_restart) ;;
  when (negb (dns_start_ok env))
    (blinkPattern 3 500 500 ;; delay 1000 ;; ESP_restart) ;;
  delay 100.

(** The triple written when the stored network name is empty
    (lines 1152-1154). *)
Definition firstboot_ssid : string := "redmi4xx".
Definition firstboot_password : string := "komkritc".
Definition firstboot_apiURL : string :=
  "http://login.npu.ac.th/login?dst=http://www.msftconnecttest.com/redirect&popup=true&username=3449900299486&password=komkritc1975".

(** Lines 1143-1158: load the saved settings, default them if empty. *)
Definition setup_settings : M unit :=
  EEPROM_begin ;;
  s <- get (loadString EEPROM_SSID 32) ;;
  p <- get (loadString EEPROM_PASSWORD 64) ;;
  a <- get (loadString EEPROM_API_URL 128) ;;
  modify (set_config s p a) ;;
  n <- get (fun m => String.length (ssid m)) ;;
  when (n =? 0)%nat
    (modify (set_config firstboot_ssid firstboot_password firstboot_apiURL) ;;
     s <- get ssid ;; saveString s EEPROM_SSID 32 ;;
     p <- get password ;; saveString p EEPROM_PASSWORD 64 ;;
     a <- get apiURL ;; saveString a EEPROM_API_URL 128).

(** Lines 1138-1182. *)
Definition setup (env : BootEnv) (w : World) : M OperatingMode :=
  setup_settings ;;
  when (button_low_first env)
    (delay 500 ;;
     when (button_low_second env) (handleResetSettings ;; ESP_restart)) ;;
  connected <- connectToSavedWiFi env ;;
  if connected then
    normalSetup ;;
    performInternetCheck w ;;
    ret Station
  else
    configMode env ;;
    ret ConfigurationPortal.

(** Lines 1206-1229: the GET that [loop] sends after a cycle that left
    the flag set; the status code is logged, [None] when [http.begin]
    fails. *)
Definition sendGetRequest (w : World) (url : string) : M unit :=
  fun m =>
    let t := clock m in
    let code :=
      if http_begin w t url then Some (http_GET w t url) else None in
    Ret tt (advance (emit (ev_sendGet url code) m)).

(** What one iteration of [loop] finds: whether the two intervals have
    elapsed ([millis()] against [lastWiFiCheck] and [lastCheckTime]), and
    what the WiFi library answers. *)
Record LoopEnv : Type := mkLoopEnv {
  wifiCheck_due : bool;     (* millis() - lastWiFiCheck >= 10000 *)
  loop_tick : Tick;         (* the answers read by checkWiFiHealth *)
  loop_connected : bool;    (* WiFi.status() == WL_CONNECTED, line 1195 *)
  check_due : bool          (* currentTime - lastCheckTime >= checkInterval *)
}.

(** Lines 1189-1203: what an iteration of [loop] does once
    [ArduinoOTA.handle()] and [server.handleClient()] (lines 1186-1187)
    have returned.  A request served by these two calls runs one of the
    handlers above before this part, and may restart the device. *)
Definition loop (w : World) (env : LoopEnv) : M unit :=
  when (wifiCheck_due env) (checkWiFiHealth (loop_tick env)) ;;
  when (loop_connected env)
    (when (check_due env)
       (performInternetCheck w ;;
        ok <- get internetOK ;;
        when ok (url <- get apiURL ;; sendGetRequest w url))).

(** The machine at power-on or after a restart: globals as the sketch
    initialises them, flash and RTC memory as they were left. *)
Definition boot_machine (fl : list ascii) (rtc : option UptimeData) : Machine :=
  mkMachine EmptyString EmptyString EmptyString false (mkUptime 0 0 0) 0 []
            fl rtc LOW LOW LOW 0%nat [].

(** ** Vocabulary of the properties *)

(** The settings as [loadString] reads them back (lines 1146-1148). *)
Definition stored_settings (m : Machine) : string * string * string :=
  (loadString EEPROM_SSID 32 m, loadString EEPROM_PASSWORD 64 m,
   loadString EEPROM_API_URL 128 m).

(** The three writes of a configuration, in the order of lines 901-903,
    1072-1074 and 1155-1157. *)
Definition save_settings (s p a : string) : M unit :=
  saveString s EEPROM_SSID 32 ;;
  saveString p EEPROM_PASSWORD 64 ;;
  saveString a EEPROM_API_URL 128.

(** A field cut to the width of its slot. *)
Definition truncated (len : nat) (s : string) : string := substring 0 len s.

(** The part of a string before its first 0 or 255 byte. *)
Fixpoint until_terminator (s : string) : string :=
  match s with
  | EmptyString => EmptyString
  | String c s' =>
      if is_terminator c then EmptyString else String c (until_terminator s')
  end.

(** No byte of the string is 0 or 255. *)
Fixpoint plain (s : string) : bool :=
  match s with
  | EmptyString => true
  | String c s' => negb (is_terminator c) && plain s'
  end.

(** The cells [a], [a+1], ..., [a+n-1] of the EEPROM buffer. *)
Fixpoint cells (data : list ascii) (a n : nat) : string :=
  match n with
  | O => EmptyString
  | S n' => String (EEPROM_read data a) (cells data (S a) n')
  end.

(** The characters [str[i]], ..., [str[i+n-1]], 0 past the end. *)
Fixpoint window (str : string) (i n : nat) : string :=
  match n with
  | O => EmptyString
  | S n' => String (String_at str i) (window str (S i) n')
  end.

(** The events of one short and one long blink of the status LED. *)
Definition short_blink : list Event :=
  [ev_digitalWrite pinD4 HIGH; ev_delay 100; ev_digitalWrite pinD4 LOW].

Definition long_blink : list Event :=
  [ev_digitalWrite pinD4 HIGH; ev_delay 500; ev_digitalWrite pinD4 LOW].

Definition two_short_blinks : list Event :=
  short_blink ++ [ev_delay 100] ++ short_blink.

Definition three_short_blinks : list Event :=
  short_blink ++ [ev_delay 100] ++ short_blink ++ [ev_delay 100] ++ short_blink.

(** The blink feedback that goes with a pair of flags. *)
Definition feedback (internet api : bool) : list Event :=
  if internet && api then two_short_blinks
  else if negb internet then three_short_blinks
  else long_blink.

(** The counters after a cycle that ended with the given flags. *)
Definition bump (internet api : bool) (d : UptimeData) : UptimeData :=
  mkUptime (bootCount d)
           (if internet then u32_incr (internetUp d) else internetUp d)
           (if internet && api then u32_incr (apiSuccess d) else apiSuccess d).

(** The events a computation added to the trace. *)
Definition events_since (m m' : Machine) : list Event :=
  drop (length (trace m)) (trace m').

Definition is_internetAttempt (e : Event) : bool :=
  match e with ev_internetAttempt _ => true | _ => false end.

Definition is_pingHost (e : Event) : bool :=
  match e with ev_pingHost _ _ => true | _ => false end.

Definition is_successful_ping (e : Event) : bool :=
  match e with ev_pingHost _ true => true | _ => false end.

Definition is_httpGET (e : Event) : bool :=
  match e with ev_httpGET _ _ => true | _ => false end.

(** How many times the internet sub-loop went round. *)
Definition internet_attempts (evs : list Event) : nat :=
  length (List.filter is_internetAttempt evs).

(** The answer [pingHost] gets from the world at time [t]. *)
Definition ping_answer (w : World) (t : nat) (host : string) : bool :=
  if negb (WiFi_hostByName w t host) then false
  else if negb (client_connect w t host) then false
  else client_available w t host.

(** The events of one disconnect/reconnect (lines 188-190). *)
Definition reconnect_action (name secret : string) : list Event :=
  [ev_wifiDisconnect; ev_delay 500; ev_wifiBegin name secret].

(** A tick of the supervisor that finds the link up and the signal
    below -90 dBm. *)
Definition weak (t : Tick) : Prop :=
  tick_connected t = true /\ tick_RSSI t < -90.

(** The answer [httpGETRequest] gets from the world at time [t]. *)
Definition http_answer (w : World) (t : nat) (url : string) : bool :=
  if negb (WiFi_connected w t) then false
  else if negb (http_begin w t url) then false
  else 0 <? http_GET w t url.

(** How many probes of the internet succeeded. *)
Definition successful_pings (evs : list Event) : nat :=
  length (List.filter is_successful_ping evs).

(** The same two counts over the whole trace of a machine. *)
Definition attempts_made (m : Machine) : nat := internet_attempts (trace m).

Definition pings_ok (m : Machine) : nat := successful_pings (trace m).

(** ** A program logic for the monad

    [hoare P c Q R]: started in a machine satisfying [P], the computation
    [c] does not run out of fuel; it either returns a value and a machine
    related by [Q], or restarts the device in a machine satisfying [R]. *)

Definition hoare {A : Type} (P : Machine -> Prop) (c : M A)
  (Q : A -> Machine -> Prop) (R : Machine -> Prop) : Prop :=
  forall m, P m ->
    match c m with
    | Ret a m' => Q a m'
    | Reboot m' => R m'
    | OutOfFuel => False
    end.

(** [keeps I c]: [I] survives [c], whether it returns or restarts. *)
Definition keeps {A : Type} (I : Machine -> Prop) (c : M A) : Prop :=
  hoare I c (fun _ => I) I.

(** [runs I c]: [c] returns, and [I] survives it. *)
Definition runs {A : Type} (I : Machine -> Prop) (c : M A) : Prop :=
  hoare I c (fun _ => I) (fun _ => False).

(** ** Scenarios *)

(** A flash sector that was never written. *)
Definition erased_flash : list ascii := repeat (ascii_of_nat 255) EEPROM_SIZE.

(** A world in which everything answers until time [n] and nothing
    answers from then on. *)
Definition world_up_until (n : nat) : World :=
  mkWorld (fun t _ => (t <? n)%nat) (fun t _ => (t <? n)%nat)
          (fun t _ => (t <? n)%nat) (fun _ => true)
          (fun t _ => (t <? n)%nat)
          (fun t _ => if (t <? n)%nat then 200 else -1).

(** A world in which everything always answers. *)
Definition world_up : World :=
  mkWorld (fun _ _ => true) (fun _ _ => true) (fun _ _ => true)
          (fun _ => true) (fun _ _ => true) (fun _ _ => 200).

(** Button released, station connection succeeds. *)
Definition env_station : BootEnv := mkBootEnv false false true true true true.

(** Button released, station connection times out. *)
Definition env_portal : BootEnv := mkBootEnv false false false true true true.

(** The machine a computation leaves behind, however it ended. *)
Definition machine_of {A : Type} (r : Result A) : Machine :=
  match r with
  | Ret _ m => m
  | Reboot m => m
  | OutOfFuel => boot_machine [] None
  end.

(** The device after a first boot whose health check found the internet
    and the API, in a world that goes down right afterwards. *)
Definition after_first_cycle : Machine :=
  machine_of (setup env_station (world_up_until 2)
                    (boot_machine erased_flash None)).

(** The same device in a world that stays up. *)
Definition after_first_cycle_up : Machine :=
  machine_of (setup env_station world_up (boot_machine erased_flash None)).

(** ** Further vocabulary *)

(** The time spent in the calls of [delay] that the trace records, in
    milliseconds. *)
Definition total_delay (evs : list Event) : Z :=
  fold_right (fun e acc => match e with ev_delay ms => ms + acc | _ => acc end)
             0 evs.

(** Calls of [pingHost] and of [httpGETRequest]. *)
Definition pings (evs : list Event) : nat :=
  length (List.filter is_pingHost evs).

Definition api_requests (evs : list Event) : nat :=
  length (List.filter is_httpGET evs).

(** Internet probing comes first: while no ping has been answered
    ([reached] false) there is no API request, and once one has been
    answered there is no further internet attempt or ping. *)
Fixpoint probes_in_order (reached : bool) (evs : list Event) : bool :=
  match evs with
  | [] => true
  | ev_internetAttempt _ :: evs' => negb reached && probes_in_order reached evs'
  | ev_pingHost _ answer :: evs' => negb reached && probes_in_order answer evs'
  | ev_apiAttempt _ :: evs' => reached && probes_in_order reached evs'
  | ev_httpGET _ _ :: evs' => reached && probes_in_order reached evs'
  | _ :: evs' => probes_in_order reached evs'
  end.

(** The events of lines 231-252 for a pair of flags and the counters
    that are written back. *)
Definition report_events (internet api : bool) (d : UptimeData) : list Event :=
  [ev_digitalWrite pinD8 (if internet then HIGH else LOW);
   ev_digitalWrite pinD7 (if internet then LOW else HIGH)]
  ++ feedback internet api
  ++ [ev_rtcWrite d; ev_finalStatus internet api].

(** Successive cycles, as [loop] runs them one check interval apart. *)
Fixpoint cycles (w : World) (n : nat) : M unit :=
  match n with
  | O => ret tt
  | S n' => performInternetCheck w ;; cycles w n'
  end.

(** What survives [ESP.restart()]: flash and RTC memory; the globals are
    initialised again. *)
Definition restarted (m : Machine) : Machine :=
  boot_machine (flash m) (rtcMem m).

(** Restarts of the radio by the link supervisor. *)
Definition is_wifiDisconnect (e : Event) : bool :=
  match e with ev_wifiDisconnect => true | _ => false end.

Definition reconnects (evs : list Event) : nat :=
  length (List.filter is_wifiDisconnect evs).

(** The test [rssi < -90] on a tick. *)
Definition is_weak (t : Tick) : bool := tick_RSSI t <? -90.

Definition weak_readings (ts : list Tick) : nat :=
  length (List.filter is_weak ts).

(** The run of consecutive readings below -90 dBm that a sequence of
    ticks ends with, [c] such readings having come just before the
    sequence: a reading at or above -90 dBm ends the run. *)
Fixpoint weak_run (c : nat) (ts : list Tick) : nat :=
  match ts with
  | [] => c
  | t :: ts' => weak_run (if is_weak t then S c else 0%nat) ts'
  end.

(** The readings of a sequence that are the sixth, the twelfth, ... of
    a run of consecutive readings below -90 dBm. *)
Fixpoint sixth_readings (c : nat) (ts : list Tick) : nat :=
  match ts with
  | [] => 0%nat
  | t :: ts' =>
      if is_weak t
      then ((if (S c mod 6 =? 0)%nat then 1 else 0)
            + sixth_readings (S c) ts')%nat
      else sixth_readings 0 ts'
  end.

(** The largest [int] of the ESP8266. *)
Definition INT_MAX : Z := 2147483647.

(** [n] pulses on D4, [on] ms lit, [off] ms between two of them. *)
Fixpoint pulses (n : nat) (on off : Z) : list Event :=
  match n with
  | O => []
  | S O => [ev_digitalWrite pinD4 HIGH; ev_delay on; ev_digitalWrite pinD4 LOW]
  | S n' =>
      [ev_digitalWrite pinD4 HIGH; ev_delay on; ev_digitalWrite pinD4 LOW;
       ev_delay off] ++ pulses n' on off
  end.

(** What differs between two machines is at most the indicator pins,
    the clock and the trace. *)
Definition same_memory (m m' : Machine) : Prop :=
  (ssid m', password m', apiURL m') = (ssid m, password m, apiURL m) /\
  internetOK m' = internetOK m /\ rtcData m' = rtcData m /\
  rssiFailCount m' = rssiFailCount m /\
  eeprom m' = eeprom m /\ flash m' = flash m /\ rtcMem m' = rtcMem m.

(** The start-up step of the portal that fails first, with the blink
    code shown for it (lines 844-878); [None] when the portal starts. *)
Definition portal_failure (env : BootEnv) : option (list Event) :=
  if negb (softAPConfig_ok env) then Some (pulses 5 200 200)
  else if negb (softAP_ok env) then Some (pulses 3 500 500)
  else if negb (dns_start_ok env) then Some (pulses 3 500 500)
  else None.

(** What [sendGetRequest] logs at time [t]. *)
Definition get_code (w : World) (t : nat) (url : string) : option Z :=
  if http_begin w t url then Some (http_GET w t url) else None.

(** * Properties *)

(** ** Settings store *)

Lemma EEPROM_read_write_same (data : list ascii) (j : nat) (v : ascii) :
  (j < length data)%nat -> EEPROM_read (EEPROM_write data j v) j = v.
Proof.
  intros Hj. unfold EEPROM_read, EEPROM_write.
  rewrite list_lookup_insert_eq by exact Hj. reflexivity.
Qed.

Lemma EEPROM_read_write_other (data : list ascii) (i j : nat) (v : ascii) :
  i <> j -> EEPROM_read (EEPROM_write data i v) j = EEPROM_read data j.
Proof.
  intros Hne. unfold EEPROM_read, EEPROM_write.
  rewrite list_lookup_insert_ne by exact Hne. reflexivity.
Qed.

Lemma EEPROM_write_length (data : list ascii) (i : nat) (v : ascii) :
  length (EEPROM_write data i v) = length data.
Proof. unfold EEPROM_write. apply length_insert. Qed.

Lemma String_at_past_end (str : string) (i : nat) :
  (String.length str <= i)%nat -> String_at str i = zero.
Proof.
  revert i. induction str as [|c str IH]; intros i Hi.
  - destruct i; reflexivity.
  - destruct i as [|i]; cbn in Hi; [lia|].
    unfold String_at in *. cbn. apply IH. lia.
Qed.

(** What [saveString] stores at index [i] is [str[i]] in every case. *)
Lemma saved_char (str : string) (i : nat) :
  (if (i <? String.length str)%nat then String_at str i else zero)
  = String_at str i.
Proof.
  destruct (Nat.ltb_spec i (String.length str)) as [H|H]; [reflexivity|].
  symmetry. apply String_at_past_end. exact H.
Qed.

Lemma saveString_loop_length (str : string) (addr n i : nat) (data : list ascii) :
  length (saveString_loop str addr i n data) = length data.
Proof.
  revert i data. induction n as [|n IH]; intros i data; cbn; [reflexivity|].
  rewrite IH. apply EEPROM_write_length.
Qed.

(** Cells outside the slot keep their value. *)
Lemma saveString_loop_outside (str : string) (addr n i j : nat) (data : list ascii) :
  (j < addr + i \/ addr + i + n <= j)%nat ->
  EEPROM_read (saveString_loop str addr i n data) j = EEPROM_read data j.
Proof.
  revert i data. induction n as [|n IH]; intros i data Hj; cbn; [reflexivity|].
  rewrite IH by lia. apply EEPROM_read_write_other. lia.
Qed.

(** Cells of the slot hold the characters of the string, then zeros. *)
Lemma saveString_loop_inside (str : string) (addr n i k : nat) (data : list ascii) :
  (k < n)%nat -> (addr + i + n <= length data)%nat ->
  EEPROM_read (saveString_loop str addr i n data) (addr + i + k)
  = String_at str (i + k).
Proof.
  revert i k data. induction n as [|n IH]; intros i k data Hk Hlen; [lia|].
  cbn [saveString_loop]. rewrite saved_char.
  destruct k as [|k].
  - rewrite saveString_loop_outside by lia.
    rewrite !Nat.add_0_r. apply EEPROM_read_write_same. lia.
  - replace (addr + i + S k)%nat with (addr + S i + k)%nat by lia.
    replace (i + S k)%nat with (S i + k)%nat by lia.
    apply IH; [lia|]. rewrite EEPROM_write_length. lia.
Qed.

Lemma loadString_loop_cells (data : list ascii) (addr n i : nat) :
  loadString_loop data addr i n = until_terminator (cells data (addr + i) n).
Proof.
  revert i. induction n as [|n IH]; intros i; cbn; [reflexivity|].
  destruct (is_terminator (EEPROM_read data (addr + i))); [reflexivity|].
  rewrite IH. replace (addr + S i)%nat with (S (addr + i)) by lia. reflexivity.
Qed.

Lemma cells_ext (data data' : list ascii) (n a : nat) :
  (forall k, (k < n)%nat -> EEPROM_read data (a + k) = EEPROM_read data' (a + k)) ->
  cells data a n = cells data' a n.
Proof.
  revert a. induction n as [|n IH]; intros a H; cbn; [reflexivity|].
  f_equal.
  - specialize (H 0%nat). rewrite Nat.add_0_r in H. apply H. lia.
  - apply IH. intros k Hk. specialize (H (S k)).
    replace (S a + k)%nat with (a + S k)%nat by lia. apply H. lia.
Qed.

Lemma cells_window (str : string) (data : list ascii) (n a i : nat) :
  (forall k, (k < n)%nat -> EEPROM_read data (a + k) = String_at str (i + k)) ->
  cells data a n = window str i n.
Proof.
  revert a i. induction n as [|n IH]; intros a i H; cbn; [reflexivity|].
  f_equal.
  - specialize (H 0%nat). rewrite !Nat.add_0_r in H. apply H. lia.
  - apply IH. intros k Hk. specialize (H (S k)).
    replace (S a + k)%nat with (a + S k)%nat by lia.
    replace (S i + k)%nat with (i + S k)%nat by lia. apply H. lia.
Qed.

Lemma window_shift (c : ascii) (str : string) (n i : nat) :
  window (String c str) (S i) n = window str i n.
Proof.
  revert i. induction n as [|n IH]; intros i; cbn; [reflexivity|].
  rewrite IH. reflexivity.
Qed.

Lemma window_truncated (str : string) (len : nat) :
  until_terminator (window str 0 len) = until_terminator (truncated len str).
Proof.
  unfold truncated. revert len.
  induction str as [|c str IH]; intros [|len]; cbn; try reflexivity.
  rewrite window_shift.
  destruct (is_terminator c); [reflexivity|]. rewrite IH. reflexivity.
Qed.

Lemma until_terminator_plain (s : string) :
  plain s = true -> until_terminator s = s.
Proof.
  induction s as [|c s IH]; cbn; [reflexivity|].
  intros H. apply andb_prop in H as [Hc Hs].
  destruct (is_terminator c); [discriminate|]. rewrite IH by exact Hs.
  reflexivity.
Qed.

Lemma plain_truncated (s : string) (len : nat) :
  plain s = true -> plain (truncated len s) = true.
Proof.
  unfold truncated. revert len.
  induction s as [|c s IH]; intros [|len] H; cbn in *; try reflexivity.
  apply andb_prop in H as [Hc Hs]. rewrite Hc. cbn. apply IH. exact Hs.
Qed.

Lemma truncated_short (s : string) (len : nat) :
  (String.length s <= len)%nat -> truncated len s = s.
Proof.
  unfold truncated. revert len.
  induction s as [|c s IH]; intros [|len] H; cbn in *; try reflexivity; try lia.
  rewrite IH by lia. reflexivity.
Qed.

(** Reading a slot back after [saveString] wrote it. *)
Lemma load_after_save (str : string) (addr len : nat) (data : list ascii) :
  (addr + len <= length data)%nat ->
  loadString_loop (saveString_loop str addr 0 len data) addr 0 len
  = until_terminator (truncated len str).
Proof.
  intros Hlen. rewrite loadString_loop_cells, <- window_truncated.
  f_equal. apply cells_window. intros k Hk.
  apply (saveString_loop_inside str addr len 0 k data); lia.
Qed.

(** Reading another slot after [saveString] wrote next to it. *)
Lemma load_after_save_other (str : string) (addr len addr' len' : nat)
  (data : list ascii) :
  (addr' + len' <= addr \/ addr + len <= addr')%nat ->
  loadString_loop (saveString_loop str addr 0 len data) addr' 0 len'
  = loadString_loop data addr' 0 len'.
Proof.
  intros Hdisj. rewrite !loadString_loop_cells. f_equal.
  apply cells_ext. intros k Hk. apply saveString_loop_outside. lia.
Qed.

(** ** Rules of the program logic *)

Lemma hoare_weaken {A : Type} (P P' : Machine -> Prop) (c : M A)
  (Q Q' : A -> Machine -> Prop) (R R' : Machine -> Prop) :
  hoare P' c Q' R' ->
  (forall m, P m -> P' m) ->
  (forall a m, Q' a m -> Q a m) ->
  (forall m, R' m -> R m) ->
  hoare P c Q R.
Proof.
  intros Hc HP HQ HR m Hm. specialize (Hc m (HP m Hm)).
  destruct (c m); auto.
Qed.

Lemma hoare_ret {A : Type} (P : Machine -> Prop) (a : A)
  (Q : A -> Machine -> Prop) (R : Machine -> Prop) :
  (forall m, P m -> Q a m) -> hoare P (ret a) Q R.
Proof. intros H m Hm. cbn. auto. Qed.

Lemma hoare_bind {A B : Type} (P : Machine -> Prop) (c : M A) (k : A -> M B)
  (Q' : A -> Machine -> Prop) (Q : B -> Machine -> Prop) (R : Machine -> Prop) :
  hoare P c Q' R -> (forall a, hoare (Q' a) (k a) Q R) ->
  hoare P (bind c k) Q R.
Proof.
  intros Hc Hk m Hm. unfold bind. specialize (Hc m Hm).
  destruct (c m) as [a m'| |]; auto. apply Hk. exact Hc.
Qed.

Lemma hoare_modify (P : Machine -> Prop) (f : Machine -> Machine)
  (Q : unit -> Machine -> Prop) (R : Machine -> Prop) :
  (forall m, P m -> Q tt (f m)) -> hoare P (modify f) Q R.
Proof. intros H m Hm. cbn. auto. Qed.

Lemma hoare_get {A : Type} (P : Machine -> Prop) (f : Machine -> A)
  (Q : A -> Machine -> Prop) (R : Machine -> Prop) :
  (forall m, P m -> Q (f m) m) -> hoare P (get f) Q R.
Proof. intros H m Hm. cbn. auto. Qed.

Lemma hoare_restart {A : Type} (P : Machine -> Prop)
  (Q : A -> Machine -> Prop) (R : Machine -> Prop) :
  (forall m, P m -> R (emit ev_restart m)) -> hoare P ESP_restart Q R.
Proof. intros H m Hm. cbn. auto. Qed.

Lemma runs_keeps {A : Type} (I : Machine -> Prop) (c : M A) :
  runs I c -> keeps I c.
Proof.
  intros H. eapply hoare_weaken; [exact H|auto|auto|]. intros m [].
Qed.

Lemma runs_bind {A B : Type} (I : Machine -> Prop) (c : M A) (k : A -> M B) :
  runs I c -> (forall a, runs I (k a)) -> runs I (bind c k).
Proof. intros Hc Hk. eapply hoare_bind; [exact Hc|exact Hk]. Qed.

Lemma keeps_bind {A B : Type} (I : Machine -> Prop) (c : M A) (k : A -> M B) :
  keeps I c -> (forall a, keeps I (k a)) -> keeps I (bind c k).
Proof. intros Hc Hk. eapply hoare_bind; [exact Hc|exact Hk]. Qed.

Lemma runs_ret {A : Type} (I : Machine -> Prop) (a : A) : runs I (ret a).
Proof. apply hoare_ret. auto. Qed.

Lemma runs_get {A : Type} (I : Machine -> Prop) (f : Machine -> A) :
  runs I (get f).
Proof. apply hoare_get. auto. Qed.

Lemma runs_modify (I : Machine -> Prop) (f : Machine -> Machine) :
  (forall m, I m -> I (f m)) -> runs I (modify f).
Proof. intros H. apply hoare_modify. exact H. Qed.

Lemma runs_when (I : Machine -> Prop) (b : bool) (c : M unit) :
  runs I c -> runs I (when b c).
Proof. intros H. destruct b; [exact H|apply runs_ret]. Qed.

Lemma keeps_when (I : Machine -> Prop) (b : bool) (c : M unit) :
  keeps I c -> keeps I (when b c).
Proof. intros H. destruct b; [exact H|apply runs_keeps, runs_ret]. Qed.

(** What [runs] gives at one machine. *)
Lemma runs_result {A : Type} (I : Machine -> Prop) (c : M A) (m : Machine) :
  runs I c -> I m -> exists a m', c m = Ret a m' /\ I m'.
Proof.
  intros H Hm. specialize (H m Hm). destruct (c m) as [a m'| |];
    [eauto|contradiction|contradiction].
Qed.

(** ** Frame lemmas: what each function of the sketch leaves alone *)

Section Frame.

Variable I : Machine -> Prop.

Hypothesis I_emit : forall e m, I m -> I (emit e m).
Hypothesis I_advance : forall m, I m -> I (advance m).
Hypothesis I_level : forall p v m, I m -> I (set_level p v m).
Hypothesis I_internetOK : forall m, I m -> I (set_internetOK true m).
Hypothesis I_apiSuccess : forall m, I m -> I (incr_apiSuccess m).
Hypothesis I_internetUp : forall m, I m -> I (incr_internetUp m).
Hypothesis I_rtcMem : forall d m, I m -> I (set_rtcMem (Some d) m).
Hypothesis I_eeprom : forall e m, I m -> I (set_eeprom e m).
Hypothesis I_flash : forall e m, I m -> I (set_flash e m).
Hypothesis I_config : forall s p a m, I m -> I (set_config s p a m).

Lemma digitalWrite_runs (p : Pin) (v : Level) : runs I (digitalWrite p v).
Proof. apply runs_modify. auto. Qed.

Lemma delay_runs (ms : Z) : runs I (delay ms).
Proof. apply runs_modify. auto. Qed.

Lemma blinkD4_runs : runs I blinkD4.
Proof.
  unfold blinkD4.
  repeat (apply runs_bind; [|intros _]);
    auto using digitalWrite_runs, delay_runs.
Qed.

Lemma blinkPattern_runs (count on off : Z) : runs I (blinkPattern count on off).
Proof.
  unfold blinkPattern. generalize 0 as i.
  induction (Z.to_nat count) as [|n IH]; intros i; cbn [blinkPattern_loop].
  - apply runs_ret.
  - repeat (apply runs_bind; [|intros _]);
      auto using digitalWrite_runs, delay_runs, runs_when.
Qed.

Lemma pingHost_runs (w : World) (host : string) : runs I (pingHost w host).
Proof. intros m Hm. cbn. auto. Qed.

Lemma httpGETRequest_runs (w : World) (url : string) :
  runs I (httpGETRequest w url).
Proof. intros m Hm. cbn. auto. Qed.

Lemma rtcUserMemoryWrite_runs : runs I ESP_rtcUserMemoryWrite.
Proof. apply runs_modify. auto. Qed.

Lemma saveString_runs (str : string) (addr len : nat) :
  runs I (saveString str addr len).
Proof.
  unfold saveString, EEPROM_commit.
  apply runs_bind; [|intros _]; apply runs_modify; auto.
Qed.

Lemma handleResetSettings_runs : runs I handleResetSettings.
Proof.
  unfold handleResetSettings.
  apply runs_bind; [apply saveString_runs|intros _].
  apply runs_bind; [apply saveString_runs|intros _].
  apply saveString_runs.
Qed.

Lemma restart_keeps {A : Type} : keeps I (@ESP_restart A).
Proof. apply hoare_restart. auto. Qed.

(** The inner loop returns whenever its fuel covers the attempts left,
    and never lowers the attempt counter. *)
Lemma api_loop_runs (w : World) (fuel : nat) :
  forall (apiAttempts : Z) (apiOK : bool),
    maxRetries - apiAttempts <= Z.of_nat fuel ->
    hoare I (api_loop w fuel apiAttempts apiOK)
          (fun res m' => I m' /\ apiAttempts <= fst res)
          (fun _ => False).
Proof.
  induction fuel as [|fuel IH]; intros a ok Hfuel m Hm.
  - cbn. destruct (Z.ltb_spec a maxRetries); [lia|]. cbn. split; [auto|lia].
  - cbn [api_loop].
    destruct ((a <? maxRetries) && negb ok); [|cbn; split; [auto|lia]].
    revert m Hm. fold (hoare I (api_body w (api_loop w fuel) a ok)
      (fun res m' => I m' /\ a <= fst res) (fun _ => False)).
    unfold api_body.
    apply hoare_bind with (Q' := fun _ => I); [apply runs_modify; auto|].
    intros _. apply hoare_bind with (Q' := fun _ => I); [apply runs_get|].
    intros url. apply hoare_bind with (Q' := fun _ => I);
      [apply httpGETRequest_runs|].
    intros [|].
    + eapply hoare_weaken; [apply (IH (a + 1) true); lia|auto| |auto].
      cbn. intros res m' [? ?]. split; [auto|lia].
    + apply hoare_bind with (Q' := fun _ => I);
        [apply runs_when, delay_runs|].
      intros _.
      eapply hoare_weaken; [apply (IH (a + 1) ok); lia|auto| |auto].
      cbn. intros res m' [? ?]. split; [auto|lia].
Qed.

(** The outer loop returns as well. *)
Lemma internet_loop_runs (w : World) (fuel : nat) :
  forall (pingAttempts apiAttempts : Z) (apiOK : bool),
    maxRetries - pingAttempts <= Z.of_nat fuel ->
    0 <= apiAttempts ->
    hoare I (internet_loop w fuel pingAttempts apiAttempts apiOK)
          (fun _ m' => I m') (fun _ => False).
Proof.
  induction fuel as [|fuel IH]; intros p a ok Hfuel Ha m Hm.
  - cbn. destruct (Z.ltb_spec p maxRetries); [lia|]. cbn. auto.
  - cbn [internet_loop].
    destruct ((p <? maxRetries) && negb (internetOK m)); [|cbn; auto].
    revert m Hm. fold (hoare I (internet_body w (internet_loop w fuel) p a ok)
      (fun _ m' => I m') (fun _ => False)).
    unfold internet_body.
    apply hoare_bind with (Q' := fun _ => I); [apply runs_modify; auto|].
    intros _. apply hoare_bind with (Q' := fun _ => I); [apply pingHost_runs|].
    intros g. apply hoare_bind with (Q' := fun _ => I).
    { destruct g; [apply runs_ret|apply pingHost_runs]. }
    intros [|].
    + apply hoare_bind with (Q' := fun _ => I); [apply runs_modify; auto|].
      intros _.
      apply hoare_bind with (Q' := fun res m' => I m' /\ a <= fst res).
      { apply api_loop_runs. unfold loop_fuel, maxRetries. cbn. lia. }
      intros res m [Hm Hres]. apply IH; [lia|lia|exact Hm].
    + apply hoare_bind with (Q' := fun _ => I);
        [apply runs_when, delay_runs|].
      intros _. apply IH; [lia|exact Ha].
Qed.

Lemma probe_phase_runs (w : World) : runs I (probe_phase w).
Proof.
  unfold probe_phase. apply hoare_bind with (Q' := fun _ => I).
  - apply internet_loop_runs; [unfold loop_fuel, maxRetries; cbn; lia|lia].
  - intros res. apply runs_ret.
Qed.

Lemma report_phase_runs (apiOK : bool) : runs I (report_phase apiOK).
Proof.
  unfold report_phase.
  apply runs_bind; [apply runs_get|]. intros ok.
  apply runs_bind; [apply digitalWrite_runs|]. intros _.
  apply runs_bind; [apply digitalWrite_runs|]. intros _.
  apply runs_bind.
  { destruct (ok && apiOK); [|destruct (negb ok)];
      [apply runs_bind; [apply blinkPattern_runs|intros _; apply runs_modify; auto]
      |apply blinkPattern_runs|apply blinkPattern_runs]. }
  intros _. apply runs_bind; [apply runs_when, runs_modify; auto|]. intros _.
  apply runs_bind; [apply rtcUserMemoryWrite_runs|]. intros _.
  apply runs_modify. auto.
Qed.

Lemma performInternetCheck_runs (w : World) : runs I (performInternetCheck w).
Proof.
  unfold performInternetCheck.
  apply runs_bind; [apply blinkD4_runs|]. intros _.
  apply runs_bind; [apply probe_phase_runs|]. intros apiOK.
  apply report_phase_runs.
Qed.

Ltac run_step :=
  lazymatch goal with
  | |- runs _ (bind _ _) => apply runs_bind; [|intros ?]
  | |- runs _ (saveString _ _ _) => apply saveString_runs
  | |- runs _ handleResetSettings => apply handleResetSettings_runs
  | |- runs _ (blinkPattern _ _ _) => apply blinkPattern_runs
  | |- runs _ (digitalWrite _ _) => apply digitalWrite_runs
  | |- runs _ (delay _) => apply delay_runs
  | |- runs _ (get _) => apply runs_get
  | |- runs _ (ret _) => apply runs_ret
  | |- runs _ (when _ _) => apply runs_when
  | |- runs _ (modify _) => apply runs_modify; solve [auto]
  end.

Lemma setup_settings_runs : runs I setup_settings.
Proof. unfold setup_settings, EEPROM_begin. repeat run_step. Qed.

Lemma connectToSavedWiFi_runs (env : BootEnv) : runs I (connectToSavedWiFi env).
Proof. unfold connectToSavedWiFi. repeat run_step. Qed.

(** The reset button of lines 1166-1173, when it is not held through
    the debounce. *)
Lemma button_released_runs (b : bool) :
  runs I (when b (delay 500 ;; when false (handleResetSettings ;; ESP_restart))).
Proof.
  apply runs_when. apply runs_bind; [apply delay_runs|intros _].
  apply runs_ret.
Qed.

Lemma configMode_keeps (env : BootEnv) : keeps I (configMode env).
Proof.
  assert (Hfail : forall count on off,
             keeps I (blinkPattern count on off ;; delay 1000 ;;
                      @ESP_restart unit)).
  { intros. apply keeps_bind; [apply runs_keeps, blinkPattern_runs|intros _].
    apply keeps_bind; [apply runs_keeps, delay_runs|intros _].
    apply restart_keeps. }
  unfold configMode.
  apply keeps_bind; [apply runs_keeps, runs_modify; auto|intros _].
  apply keeps_bind; [apply runs_keeps, delay_runs|intros _].
  apply keeps_bind; [apply keeps_when, Hfail|intros _].
  apply keeps_bind; [apply keeps_when, Hfail|intros _].
  apply keeps_bind; [apply keeps_when, Hfail|intros _].
  apply runs_keeps, delay_runs.
Qed.

End Frame.

(** ** The health-check cycle *)

Lemma hoare_conj {A : Type} (P P' : Machine -> Prop) (c : M A)
  (Q Q' : A -> Machine -> Prop) (R R' : Machine -> Prop) :
  hoare P c Q R -> hoare P' c Q' R' ->
  hoare (fun m => P m /\ P' m) c (fun a m => Q a m /\ Q' a m)
        (fun m => R m /\ R' m).
Proof.
  intros H H' m [Hm Hm']. specialize (H m Hm). specialize (H' m Hm').
  destruct (c m); auto.
Qed.

Ltac frame := intros; cbn in *; auto.

(** The local [apiOK] can only be true once the global flag is. *)
Lemma internet_loop_flags (w : World) (fuel : nat) :
  forall (pingAttempts apiAttempts : Z) (apiOK : bool),
    maxRetries - pingAttempts <= Z.of_nat fuel ->
    0 <= apiAttempts ->
    hoare (fun m => apiOK = true -> internetOK m = true)
          (internet_loop w fuel pingAttempts apiAttempts apiOK)
          (fun res m' => snd res = true -> internetOK m' = true)
          (fun _ => False).
Proof.
  induction fuel as [|fuel IH]; intros p a ok Hfuel Ha m Hm.
  - cbn. destruct (Z.ltb_spec p maxRetries); [lia|]. cbn. auto.
  - cbn [internet_loop].
    destruct ((p <? maxRetries) && negb (internetOK m)); [|cbn; auto].
    set (J := fun m : Machine => ok = true -> internetOK m = true) in *.
    revert m Hm.
    fold (hoare J (internet_body w (internet_loop w fuel) p a ok)
      (fun res m' => snd res = true -> internetOK m' = true) (fun _ => False)).
    unfold internet_body.
    apply hoare_bind with (Q' := fun _ => J);
      [apply runs_modify; subst J; frame|].
    intros _. apply hoare_bind with (Q' := fun _ => J);
      [apply pingHost_runs; subst J; frame|].
    intros g. apply hoare_bind with (Q' := fun _ => J).
    { destruct g; [apply runs_ret|apply pingHost_runs; subst J; frame]. }
    intros [|].
    + apply hoare_bind with (Q' := fun _ m => internetOK m = true).
      { apply hoare_modify. frame. }
      intros _.
      apply hoare_bind
        with (Q' := fun res m' => internetOK m' = true /\ a <= fst res).
      { apply (api_loop_runs (fun m => internetOK m = true)); try (frame; fail).
        unfold loop_fuel, maxRetries. cbn. lia. }
      intros res m [Hm Hres]. apply IH; [lia|lia|auto].
    + apply hoare_bind with (Q' := fun _ => J);
        [apply runs_when, delay_runs; subst J; frame|].
      intros _. apply IH; [lia|exact Ha].
Qed.

Lemma probe_phase_flags (w : World) :
  hoare (fun _ => True) (probe_phase w)
        (fun apiOK m' => apiOK = true -> internetOK m' = true)
        (fun _ => False).
Proof.
  unfold probe_phase.
  apply hoare_bind
    with (Q' := fun res m' => snd res = true -> internetOK m' = true).
  - eapply hoare_weaken;
      [apply (internet_loop_flags w loop_fuel 0 0 false)| | |];
      try (unfold loop_fuel, maxRetries; cbn; lia); auto.
  - intros res. apply hoare_ret. auto.
Qed.

(** Once the global flag is set the loops are not entered at all. *)
Lemma probe_phase_stale (w : World) (m : Machine) :
  internetOK m = true -> probe_phase w m = Ret false m.
Proof.
  intros H. unfold probe_phase, bind, loop_fuel, maxRetries.
  change (Z.to_nat 3) with 3%nat. cbn [internet_loop].
  rewrite H. reflexivity.
Qed.

Arguments u32_incr : simpl never.

(** Lines 231-252 are straight-line code in the two flags. *)
Lemma report_phase_spec (apiOK : bool) (m : Machine) :
  exists m',
    report_phase apiOK m = Ret tt m' /\
    internetOK m' = internetOK m /\
    levelD8 m' = (if internetOK m then HIGH else LOW) /\
    levelD7 m' = (if internetOK m then LOW else HIGH) /\
    rtcData m' = bump (internetOK m) apiOK (rtcData m) /\
    rtcMem m' = Some (rtcData m') /\
    clock m' = clock m /\
    trace m' =
      (trace m
       ++ [ev_digitalWrite pinD8 (if internetOK m then HIGH else LOW);
           ev_digitalWrite pinD7 (if internetOK m then LOW else HIGH)]
       ++ feedback (internetOK m) apiOK
       ++ [ev_rtcWrite (rtcData m'); ev_finalStatus (internetOK m) apiOK])%list.
Proof.
  destruct m as [s p a ok [b i u] n e f r l4 l7 l8 c tr].
  destruct ok, apiOK; cbn; eexists; (split; [reflexivity|]); cbn;
    repeat split; rewrite <- ?app_assoc; reflexivity.
Qed.

(** ** Counting the attempts of a cycle *)

Lemma pingHost_answer (w : World) (host : string) (m : Machine) :
  pingHost w host m
  = Ret (ping_answer w (clock m) host)
        (advance (emit (ev_pingHost host (ping_answer w (clock m) host)) m)).
Proof. reflexivity. Qed.

Lemma httpGETRequest_answer (w : World) (url : string) (m : Machine) :
  httpGETRequest w url m
  = Ret (http_answer w (clock m) url)
        (advance (emit (ev_httpGET url (http_answer w (clock m) url)) m)).
Proof. reflexivity. Qed.

Lemma attempts_made_emit (e : Event) (m : Machine) :
  attempts_made (emit e m)
  = (attempts_made m + (if is_internetAttempt e then 1 else 0))%nat.
Proof.
  unfold attempts_made, internet_attempts. cbn [trace emit].
  rewrite List.filter_app, length_app. cbn.
  destruct (is_internetAttempt e); reflexivity.
Qed.

Lemma pings_ok_emit (e : Event) (m : Machine) :
  pings_ok (emit e m)
  = (pings_ok m + (if is_successful_ping e then 1 else 0))%nat.
Proof.
  unfold pings_ok, successful_pings. cbn [trace emit].
  rewrite List.filter_app, length_app. cbn.
  destruct (is_successful_ping e); reflexivity.
Qed.

(** The inner loop makes no internet attempt and no ping, and leaves the
    global flag alone. *)
Lemma api_loop_effect (w : World) (fuel : nat) :
  forall (a : Z) (ok : bool) (m : Machine),
    maxRetries - a <= Z.of_nat fuel ->
    exists res m',
      api_loop w fuel a ok m = Ret res m' /\
      a <= fst res /\
      internetOK m' = internetOK m /\
      attempts_made m' = attempts_made m /\
      pings_ok m' = pings_ok m.
Proof.
  induction fuel as [|fuel IH]; intros a ok m Hfuel; cbn [api_loop].
  - destruct (Z.ltb_spec a maxRetries); [lia|]. cbn.
    exists (a, ok), m. repeat split; cbn; lia.
  - destruct ((a <? maxRetries) && negb ok);
      [|exists (a, ok), m; repeat split; cbn; lia].
    unfold api_body, bind, modify, get. rewrite httpGETRequest_answer.
    set (m1 := advance (emit (ev_httpGET _ _) (emit (ev_apiAttempt (a + 1)) m))).
    assert (H1 : internetOK m1 = internetOK m /\
                 attempts_made m1 = attempts_made m /\
                 pings_ok m1 = pings_ok m).
    { subst m1. repeat split.
      - change (attempts_made (advance ?x)) with (attempts_made x).
        rewrite !attempts_made_emit. cbn [is_internetAttempt]. lia.
      - change (pings_ok (advance ?x)) with (pings_ok x).
        rewrite !pings_ok_emit. cbn [is_successful_ping]. lia. }
    destruct H1 as (Hi & Ha & Hp).
    destruct (http_answer w (clock (emit (ev_apiAttempt (a + 1)) m)) _).
    + destruct (IH (a + 1) true m1) as (res & m' & E & Hres & Hi' & Ha' & Hp');
        [lia|].
      exists res, m'. rewrite E. repeat split; try congruence. lia.
    + unfold when, delay, modify, ret.
      destruct (a + 1 <? maxRetries).
      * destruct (IH (a + 1) ok (emit (ev_delay retryDelay) m1))
          as (res & m' & E & Hres & Hi' & Ha' & Hp'); [lia|].
        exists res, m'. rewrite E.
        rewrite attempts_made_emit in Ha'. rewrite pings_ok_emit in Hp'.
        cbn [is_internetAttempt is_successful_ping] in Ha', Hp'.
        change (internetOK (emit (ev_delay retryDelay) m1))
          with (internetOK m1) in Hi'.
        repeat split; try congruence; lia.
      * destruct (IH (a + 1) ok m1) as (res & m' & E & Hres & Hi' & Ha' & Hp');
          [lia|].
        exists res, m'. rewrite E. repeat split; try congruence. lia.
Qed.

(** The loop is left without a further round. *)
Ltac loop_exit :=
  match goal with
  | |- exists res m', Ret ?r ?m = Ret res m' /\ _ =>
      exists r, m; cbn [fst snd]; repeat split;
      try lia; auto; try congruence;
      try (intros; split; intros; (congruence || lia));
      try (right; lia); try (left; assumption)
  end.

(** The outer loop, by the value of the global flag on entry. *)
Lemma internet_loop_effect (w : World) (fuel : nat) :
  forall (p a : Z) (ok : bool) (m : Machine),
    maxRetries - p <= Z.of_nat fuel -> 0 <= a -> p <= maxRetries ->
    exists res m',
      internet_loop w fuel p a ok m = Ret res m' /\
      p <= fst (fst res) <= maxRetries /\
      Z.of_nat (attempts_made m') = Z.of_nat (attempts_made m) + (fst (fst res) - p) /\
      (pings_ok m <= pings_ok m')%nat /\
      (internetOK m = true -> res = (p, a, ok) /\ m' = m) /\
      (internetOK m = false -> p < maxRetries -> p + 1 <= fst (fst res)) /\
      (internetOK m = false ->
       (internetOK m' = true <-> (pings_ok m < pings_ok m')%nat)) /\
      (internetOK m' = true \/ fst (fst res) = maxRetries).
Proof.
  induction fuel as [|fuel IH]; intros p a ok m Hfuel Ha Hp; cbn [internet_loop].
  - destruct (Z.ltb_spec p maxRetries); [lia|]. cbn [andb]. loop_exit.
  - destruct (Z.ltb_spec p maxRetries) as [Hlt|Hge];
      [destruct (internetOK m) eqn:Hflag|]; cbn [andb negb].
    + loop_exit.
    + unfold internet_body, bind, modify. rewrite pingHost_answer.
      set (m1 := emit (ev_internetAttempt (p + 1)) m).
      assert (Hm1 : attempts_made m1 = (attempts_made m + 1)%nat /\
                    pings_ok m1 = pings_ok m).
      { subst m1. rewrite attempts_made_emit, pings_ok_emit.
        cbn [is_internetAttempt is_successful_ping]. lia. }
      destruct Hm1 as (A1 & P1).
      (* what a successful attempt leads to, whichever host answered *)
      assert (Hsuccess : forall m2,
                 attempts_made m2 = attempts_made m1 ->
                 pings_ok m2 = (pings_ok m1 + 1)%nat ->
                 exists res m',
                   (res0 <- api_loop w loop_fuel a ok ;;
                    internet_loop w fuel (p + 1) (fst res0) (snd res0))
                     (set_internetOK true m2) = Ret res m' /\
                   fst (fst res) = p + 1 /\
                   attempts_made m' = attempts_made m1 /\
                   pings_ok m' = (pings_ok m1 + 1)%nat /\
                   internetOK m' = true).
      { intros m2 A2 P2.
        destruct (api_loop_effect w loop_fuel a ok (set_internetOK true m2))
          as (res0 & m3 & E3 & Hres0 & Hi3 & A3 & P3);
          [unfold loop_fuel, maxRetries; cbn; lia|].
        destruct (IH (p + 1) (fst res0) (snd res0) m3)
          as (res & m' & E & _ & _ & _ & Hstale & _); [lia|lia|lia|].
        destruct (Hstale Hi3) as [-> ->].
        exists (p + 1, fst res0, snd res0), m3. unfold bind. rewrite E3, E.
        change (attempts_made (set_internetOK true m2))
          with (attempts_made m2) in A3.
        change (pings_ok (set_internetOK true m2)) with (pings_ok m2) in P3.
        change (internetOK (set_internetOK true m2)) with true in Hi3.
        cbn [fst snd]. repeat split; congruence. }
      destruct (ping_answer w (clock m1) "www.google.com") eqn:G.
      * cbn [ret]. cbv beta iota.
        destruct (Hsuccess (advance (emit (ev_pingHost "www.google.com" true) m1)))
          as (res & m' & E & Hres & A' & P' & Hi').
        { change (attempts_made (advance ?x)) with (attempts_made x).
          rewrite attempts_made_emit. cbn [is_internetAttempt]. lia. }
        { change (pings_ok (advance ?x)) with (pings_ok x).
          rewrite pings_ok_emit. cbn [is_successful_ping]. lia. }
        exists res, m'. split; [exact E|].
        rewrite Hres, A', P', A1, P1, Hi'.
        repeat split; try lia; auto; try discriminate.
      * rewrite pingHost_answer.
        set (m2 := advance (emit (ev_pingHost "www.google.com" false) m1)).
        assert (Hm2 : attempts_made m2 = attempts_made m1 /\
                      pings_ok m2 = pings_ok m1 /\
                      internetOK m2 = false).
        { subst m2. repeat split; [| |exact Hflag].
          - change (attempts_made (advance ?x)) with (attempts_made x).
            rewrite attempts_made_emit. cbn [is_internetAttempt]. lia.
          - change (pings_ok (advance ?x)) with (pings_ok x).
            rewrite pings_ok_emit. cbn [is_successful_ping]. lia. }
        destruct Hm2 as (A2 & P2 & I2).
        destruct (ping_answer w (clock m2) "www.yahoo.com") eqn:Y.
        -- destruct (Hsuccess (advance (emit (ev_pingHost "www.yahoo.com" true) m2)))
             as (res & m' & E & Hres & A' & P' & Hi').
           { change (attempts_made (advance ?x)) with (attempts_made x).
             rewrite attempts_made_emit. cbn [is_internetAttempt]. lia. }
           { change (pings_ok (advance ?x)) with (pings_ok x).
             rewrite pings_ok_emit. cbn [is_successful_ping]. lia. }
           exists res, m'. split; [exact E|].
           rewrite Hres, A', P', A1, P1, Hi'.
           repeat split; try lia; auto; try discriminate.
        -- set (m3 := advance (emit (ev_pingHost "www.yahoo.com" false) m2)).
           assert (Hm3 : attempts_made m3 = attempts_made m1 /\
                         pings_ok m3 = pings_ok m1 /\
                         internetOK m3 = false).
           { subst m3. repeat split; [| |exact I2].
             - change (attempts_made (advance ?x)) with (attempts_made x).
               rewrite attempts_made_emit. cbn [is_internetAttempt]. lia.
             - change (pings_ok (advance ?x)) with (pings_ok x).
               rewrite pings_ok_emit. cbn [is_successful_ping]. lia. }
           destruct Hm3 as (A3 & P3 & I3).
           unfold when, delay, modify, ret. cbv beta iota.
           set (m4 := if p + 1 <? maxRetries
                      then emit (ev_delay retryDelay) m3 else m3).
           assert (Hm4 : attempts_made m4 = attempts_made m1 /\
                         pings_ok m4 = pings_ok m1 /\
                         internetOK m4 = false).
           { subst m4. destruct (p + 1 <? maxRetries); [|auto].
             rewrite attempts_made_emit, pings_ok_emit.
             cbn [is_internetAttempt is_successful_ping].
             repeat split; [lia|lia|exact I3]. }
           destruct Hm4 as (A4 & P4 & I4).
           destruct (IH (p + 1) a ok m4)
             as (res & m' & E & Hres & A' & P' & _ & Hmin & Hiff & Hend);
             [lia|lia|lia|].
           exists res, m'. split.
           { subst m4. destruct (p + 1 <? maxRetries); exact E. }
           rewrite A4 in A'. rewrite P4 in P', Hiff. rewrite A1 in A'.
           rewrite P1 in P', Hiff.
           repeat split; try lia; auto; try discriminate.
           ++ apply (Hiff I4).
           ++ apply (Hiff I4).
    + loop_exit.
Qed.

Lemma internet_attempts_app (evs evs' : list Event) :
  internet_attempts (evs ++ evs')
  = (internet_attempts evs + internet_attempts evs')%nat.
Proof. unfold internet_attempts. rewrite List.filter_app, length_app. reflexivity. Qed.

Lemma successful_pings_app (evs evs' : list Event) :
  successful_pings (evs ++ evs')
  = (successful_pings evs + successful_pings evs')%nat.
Proof. unfold successful_pings. rewrite List.filter_app, length_app. reflexivity. Qed.

(** The report makes no attempt and no ping. *)
Lemma report_events_quiet (internet api : bool) (d : UptimeData) :
  let evs :=
    ([ev_digitalWrite pinD8 (if internet then HIGH else LOW);
      ev_digitalWrite pinD7 (if internet then LOW else HIGH)]
     ++ feedback internet api
     ++ [ev_rtcWrite d; ev_finalStatus internet api])%list in
  internet_attempts evs = 0%nat /\ successful_pings evs = 0%nat.
Proof. destruct internet, api; split; reflexivity. Qed.

(** A cycle entered with the global flag clear: the sub-loop makes one,
    two or three attempts, and the flag ends up set exactly when one of
    the pings of this cycle was answered. *)
Lemma fresh_cycle (w : World) (m : Machine) :
  internetOK m = false ->
  exists m',
    performInternetCheck w m = Ret tt m' /\
    (1 <= internet_attempts (events_since m m') <= 3)%nat /\
    (internetOK m' = true <-> (0 < successful_pings (events_since m m'))%nat).
Proof.
  intros Hflag.
  assert (E0 : blinkD4 m
               = Ret tt (emit (ev_digitalWrite pinD4 LOW)
                           (set_level pinD4 LOW
                              (emit (ev_delay 100)
                                 (emit (ev_digitalWrite pinD4 HIGH)
                                    (set_level pinD4 HIGH m))))))
    by reflexivity.
  set (m0 := emit (ev_digitalWrite pinD4 LOW) _) in E0.
  assert (T0 : trace m0 = (trace m ++ short_blink)%list).
  { subst m0. cbn [trace emit set_level]. rewrite <- !app_assoc. reflexivity. }
  assert (F0 : internetOK m0 = false) by exact Hflag.
  destruct (internet_loop_effect w loop_fuel 0 0 false m0)
    as (res & m1 & E1 & Hres & A1 & P1 & _ & Hmin & Hiff & _);
    [unfold loop_fuel, maxRetries; cbn; lia|lia|unfold maxRetries; lia|].
  specialize (Hmin F0 ltac:(unfold maxRetries; lia)). specialize (Hiff F0).
  destruct (runs_result (fun x => exists evs, trace x = (trace m0 ++ evs)%list)
              (probe_phase w) m0) as (apiOK & m1' & E1' & evs & T1).
  { apply probe_phase_runs.
    - intros e x [l Hl]. exists (l ++ [e])%list. cbn [trace emit].
      rewrite Hl, app_assoc. reflexivity.
    - auto.
    - auto. }
  { exists []. rewrite app_nil_r. reflexivity. }
  assert (E1'' : probe_phase w m0 = Ret (snd res) m1)
    by (unfold probe_phase, bind; rewrite E1; reflexivity).
  rewrite E1'' in E1'. injection E1' as <- <-.
  destruct (report_phase_spec (snd res) m1)
    as (m' & E2 & Hok & _ & _ & _ & _ & _ & T2).
  destruct (report_events_quiet (internetOK m1) (snd res) (rtcData m'))
    as (Q1 & Q2).
  exists m'. split.
  { unfold performInternetCheck, bind. rewrite E0, E1'', E2. reflexivity. }
  assert (Ev : events_since m m'
               = (short_blink ++ evs
                  ++ [ev_digitalWrite pinD8 (if internetOK m1 then HIGH else LOW);
                      ev_digitalWrite pinD7 (if internetOK m1 then LOW else HIGH)]
                  ++ feedback (internetOK m1) (snd res)
                  ++ [ev_rtcWrite (rtcData m');
                      ev_finalStatus (internetOK m1) (snd res)])%list).
  { unfold events_since. rewrite T2, T1, T0, <- !app_assoc.
    apply drop_app_length. }
  rewrite Ev.
  rewrite (internet_attempts_app short_blink), (internet_attempts_app evs).
  rewrite (successful_pings_app short_blink), (successful_pings_app evs).
  cbv zeta in Q1, Q2. rewrite Q1, Q2.
  unfold attempts_made, pings_ok in A1, P1, Hiff.
  rewrite T1, T0, (internet_attempts_app (trace m ++ short_blink)),
    (internet_attempts_app (trace m)) in A1.
  rewrite T1, T0, (successful_pings_app (trace m ++ short_blink)),
    (successful_pings_app (trace m)) in P1, Hiff.
  change (internet_attempts short_blink) with 0%nat in *.
  change (successful_pings short_blink) with 0%nat in *.
  rewrite Hok. unfold maxRetries in *. split; [lia|].
  rewrite Hiff. lia.
Qed.

(** One whole cycle, in terms of the flags it ends with. *)
Lemma performInternetCheck_spec (w : World) (m : Machine) :
  exists (apiOK : bool) (m' : Machine),
    performInternetCheck w m = Ret tt m' /\
    (apiOK = true -> internetOK m' = true) /\
    (internetOK m = true -> internetOK m' = true) /\
    rtcData m' = bump (internetOK m') apiOK (rtcData m) /\
    rtcMem m' = Some (rtcData m') /\
    levelD8 m' = (if internetOK m' then HIGH else LOW) /\
    levelD7 m' = (if internetOK m' then LOW else HIGH) /\
    last (trace m') = Some (ev_finalStatus (internetOK m') apiOK).
Proof.
  set (I := fun x : Machine =>
              rtcData x = rtcData m /\
              (internetOK m = true -> internetOK x = true)).
  assert (HI : I m) by (subst I; cbn; auto).
  destruct (runs_result I blinkD4 m) as (u & m0 & E0 & H0);
    [apply blinkD4_runs; subst I; frame|exact HI|].
  pose proof (hoare_conj _ _ _ _ _ _ _
                (probe_phase_runs I ltac:(subst I; frame)
                   ltac:(subst I; frame) ltac:(subst I; frame; tauto) w)
                (probe_phase_flags w) m0 (conj H0 Logic.I)) as H1.
  destruct (probe_phase w m0) as [apiOK m1| |] eqn:E1;
    [|destruct H1 as [[] _]|destruct H1].
  destruct H1 as [[Hd Hmono] Hflag].
  destruct (report_phase_spec apiOK m1)
    as (m' & E2 & Hok & H8 & H7 & Hrtc & Hmem & _ & Htr).
  exists apiOK, m'. unfold performInternetCheck, bind.
  rewrite E0, E1, E2, Hok, Hrtc, Hd.
  repeat split; auto.
  - rewrite <- Hd, <- Hrtc. exact Hmem.
  - rewrite Htr, !app_assoc.
    change [ev_rtcWrite (rtcData m'); ev_finalStatus (internetOK m1) apiOK]
      with ([ev_rtcWrite (rtcData m')]
            ++ [ev_finalStatus (internetOK m1) apiOK])%list.
    rewrite app_assoc. apply last_snoc.
Qed.

(** A cycle entered with the global flag already set asks the world
    nothing and reports "internet up, API down". *)
Lemma stale_cycle (w : World) (m : Machine) :
  internetOK m = true ->
  exists m',
    performInternetCheck w m = Ret tt m' /\
    clock m' = clock m /\
    internetOK m' = true /\
    levelD8 m' = HIGH /\ levelD7 m' = LOW /\
    rtcData m' = bump true false (rtcData m) /\
    events_since m m' =
      (short_blink
       ++ [ev_digitalWrite pinD8 HIGH; ev_digitalWrite pinD7 LOW]
       ++ long_blink
       ++ [ev_rtcWrite (rtcData m'); ev_finalStatus true false])%list.
Proof.
  intros H.
  assert (E0 : blinkD4 m
               = Ret tt (emit (ev_digitalWrite pinD4 LOW)
                           (set_level pinD4 LOW
                              (emit (ev_delay 100)
                                 (emit (ev_digitalWrite pinD4 HIGH)
                                    (set_level pinD4 HIGH m))))))
    by reflexivity.
  set (m0 := emit (ev_digitalWrite pinD4 LOW) _) in E0.
  assert (H0 : internetOK m0 = true) by exact H.
  destruct (report_phase_spec false m0)
    as (m' & E2 & Hok & H8 & H7 & Hrtc & Hmem & Hclk & Htr).
  exists m'. unfold performInternetCheck, bind.
  rewrite E0, (probe_phase_stale w m0 H0), E2.
  rewrite H0 in *. repeat split; auto.
  unfold events_since. rewrite Htr. subst m0. cbn [trace emit set_level].
  rewrite <- !app_assoc. rewrite drop_app_length. reflexivity.
Qed.

(** ** Claims about the health-check cycle *)

(** C2. At the end of every cycle the local flag [apiOK], as the final
    status line reports it, is true only if the flag [internetOK] is
    true: the cycle always returns, and it never ends with [apiOK] true
    and [internetOK] false. *)
Theorem api_flag_implies_internet_flag (w : World) (m : Machine) :
  exists (apiOK : bool) (m' : Machine),
    performInternetCheck w m = Ret tt m' /\
    last (trace m') = Some (ev_finalStatus (internetOK m') apiOK) /\
    (apiOK = true -> internetOK m' = true) /\
    ~ (apiOK = true /\ internetOK m' = false).
Proof.
  destruct (performInternetCheck_spec w m)
    as (apiOK & m' & E & Hflag & _ & _ & _ & _ & _ & Hlast).
  exists apiOK, m'. repeat split; auto.
  intros [Ha Hi]. rewrite (Hflag Ha) in Hi. discriminate Hi.
Qed.

(** From time [n] on the world of the scenario lets no probe through. *)
Lemma world_down_after (n t : nat) (host : string) :
  (n <= t)%nat -> ping_answer (world_up_until n) t host = false.
Proof.
  intros Ht. unfold ping_answer, world_up_until.
  cbn [WiFi_hostByName client_connect client_available].
  assert (E : (t <? n)%nat = false) by (apply Nat.ltb_ge; exact Ht).
  rewrite E. reflexivity.
Qed.

(** What the first boot leaves behind in the two scenarios. *)
Lemma after_first_cycle_boot :
  setup env_station (world_up_until 2) (boot_machine erased_flash None)
  = Ret Station after_first_cycle.
Proof. vm_compute. reflexivity. Qed.

Lemma after_first_cycle_up_boot :
  setup env_station world_up (boot_machine erased_flash None)
  = Ret Station after_first_cycle_up.
Proof. vm_compute. reflexivity. Qed.

(** An iteration of [loop] in which only the health check is due is
    that check followed by the GET of line 1200. *)
Lemma loop_runs_check (w : World) (t : Tick) (m : Machine) :
  loop w (mkLoopEnv false t true true) m
  = (performInternetCheck w ;;
     ok <- get internetOK ;;
     when ok (url <- get apiURL ;; sendGetRequest w url)) m.
Proof. reflexivity. Qed.

(** The spec's scenario of three failed attempts, from a clear flag:
    three attempts, a delay of [retryDelay] after the first and the
    second, internet-down driven high, three short blinks. *)
Example cycle_with_internet_down :
  exists m',
    performInternetCheck (world_up_until 0) (boot_machine erased_flash None)
    = Ret tt m' /\
    trace m' =
      (short_blink
       ++ [ev_internetAttempt 1;
           ev_pingHost "www.google.com" false; ev_pingHost "www.yahoo.com" false;
           ev_delay retryDelay;
           ev_internetAttempt 2;
           ev_pingHost "www.google.com" false; ev_pingHost "www.yahoo.com" false;
           ev_delay retryDelay;
           ev_internetAttempt 3;
           ev_pingHost "www.google.com" false; ev_pingHost "www.yahoo.com" false]
       ++ [ev_digitalWrite pinD8 LOW; ev_digitalWrite pinD7 HIGH]
       ++ three_short_blinks
       ++ [ev_rtcWrite (mkUptime 0 0 0); ev_finalStatus false false])%list.
Proof. eexists. split; vm_compute; reflexivity. Qed.

(** The same from a clear flag when the second host answers at the
    first attempt and the API at its second: no further attempt, two
    short blinks, both counters up by one. *)
Example cycle_with_late_api :
  let w := mkWorld (fun _ host => String.eqb host "www.yahoo.com")
                   (fun _ _ => true) (fun _ _ => true) (fun _ => true)
                   (fun _ _ => true) (fun t _ => if (t <? 3)%nat then -1 else 200) in
  exists m',
    performInternetCheck w (boot_machine erased_flash None) = Ret tt m' /\
    trace m' =
      (short_blink
       ++ [ev_internetAttempt 1;
           ev_pingHost "www.google.com" false; ev_pingHost "www.yahoo.com" true;
           ev_apiAttempt 1; ev_httpGET EmptyString false; ev_delay retryDelay;
           ev_apiAttempt 2; ev_httpGET EmptyString true]
       ++ [ev_digitalWrite pinD8 HIGH; ev_digitalWrite pinD7 LOW]
       ++ two_short_blinks
       ++ [ev_rtcWrite (mkUptime 0 1 1); ev_finalStatus true true])%list.
Proof. intros w. eexists. split; vm_compute; reflexivity. Qed.

(** C1, at the input where the code departs from it.  The device boots,
    its first cycle finds the internet at the first attempt, and the
    world goes down.  The next cycle makes no probe at all: the global
    flag is still set and the sub-loop is not entered. *)
Theorem second_cycle_makes_no_internet_attempt :
  internetOK after_first_cycle = true /\
  exists m',
    performInternetCheck (world_up_until 2) after_first_cycle = Ret tt m' /\
    internet_attempts (events_since after_first_cycle m') = 0%nat /\
    List.filter is_pingHost (events_since after_first_cycle m') = [] /\
    clock m' = clock after_first_cycle /\
    exists m'',
      loop (world_up_until 2) (mkLoopEnv false (mkTick true (-60)) true true)
           after_first_cycle = Ret tt m'' /\
      internet_attempts (events_since after_first_cycle m'') = 0%nat.
Proof.
  split; [vm_compute; reflexivity|].
  eexists. split; [vm_compute; reflexivity|].
  split; [vm_compute; reflexivity|].
  split; [vm_compute; reflexivity|].
  split; [vm_compute; reflexivity|].
  eexists. split; vm_compute; reflexivity.
Qed.

(** C5, at the input where the code departs from it.  In the cycle
    after the world went down no probe succeeds (none is made, and the
    world would answer none), yet [internetUp] goes from 1 to 2; with the
    world still up, the API is never asked again and [apiSuccess] stays
    at 1. *)
Theorem second_cycle_counts_without_probing :
  (forall t host, (2 <= t)%nat -> ping_answer (world_up_until 2) t host = false) /\
  clock after_first_cycle = 2%nat /\
  internetUp (rtcData after_first_cycle) = 1 /\
  apiSuccess (rtcData after_first_cycle_up) = 1 /\
  (exists m',
     performInternetCheck (world_up_until 2) after_first_cycle = Ret tt m' /\
     List.filter is_successful_ping (events_since after_first_cycle m') = [] /\
     internetUp (rtcData m') = 2 /\
     rtcMem m' = Some (rtcData m')) /\
  (exists m',
     performInternetCheck world_up after_first_cycle_up = Ret tt m' /\
     List.filter is_httpGET (events_since after_first_cycle_up m') = [] /\
     apiSuccess (rtcData m') = 1).
Proof.
  split.
  { intros t host Ht. apply world_down_after. exact Ht. }
  split; [vm_compute; reflexivity|].
  split; [vm_compute; reflexivity|].
  split; [vm_compute; reflexivity|].
  split; eexists; (split; [vm_compute; reflexivity|]);
    repeat split; vm_compute; reflexivity.
Qed.

(** C8, at the input where the code departs from it.  In the cycle
    after the world went down both indicator pins are written, but with
    the flag of the earlier cycle: internet-up stays high and
    internet-down stays low although nothing is reachable. *)
Theorem second_cycle_keeps_internet_up_indicator :
  (forall t host, (2 <= t)%nat -> ping_answer (world_up_until 2) t host = false) /\
  clock after_first_cycle = 2%nat /\
  exists m',
    performInternetCheck (world_up_until 2) after_first_cycle = Ret tt m' /\
    List.filter is_successful_ping (events_since after_first_cycle m') = [] /\
    In (ev_digitalWrite pinD8 HIGH) (events_since after_first_cycle m') /\
    In (ev_digitalWrite pinD7 LOW) (events_since after_first_cycle m') /\
    levelD8 m' = HIGH /\ levelD7 m' = LOW.
Proof.
  split.
  { intros t host Ht. apply world_down_after. exact Ht. }
  split; [vm_compute; reflexivity|].
  eexists. split; [vm_compute; reflexivity|].
  repeat split; vm_compute; auto 10.
Qed.

(** C9, at the input where the code departs from it.  After the first
    successful cycle every cycle ends with one long blink: with the
    world down (three short blinks are due) and with internet and API
    both reachable (two short blinks are due). *)
Theorem second_cycle_blinks_long :
  (exists m',
     performInternetCheck (world_up_until 2) after_first_cycle = Ret tt m' /\
     events_since after_first_cycle m' =
       (short_blink
        ++ [ev_digitalWrite pinD8 HIGH; ev_digitalWrite pinD7 LOW]
        ++ long_blink
        ++ [ev_rtcWrite (mkUptime 1 2 1); ev_finalStatus true false])%list) /\
  (exists m',
     performInternetCheck world_up after_first_cycle_up = Ret tt m' /\
     events_since after_first_cycle_up m' =
       (short_blink
        ++ [ev_digitalWrite pinD8 HIGH; ev_digitalWrite pinD7 LOW]
        ++ long_blink
        ++ [ev_rtcWrite (mkUptime 1 2 1); ev_finalStatus true false])%list).
Proof.
  split; eexists; (split; [vm_compute; reflexivity|]); vm_compute; reflexivity.
Qed.

(** ** Link supervisor *)

(** One tick with the link up and a weak signal, streak not yet full. *)
Lemma weak_tick_counts (t : Tick) (m : Machine) :
  weak t -> rssiFailCount m + 1 < 6 ->
  checkWiFiHealth t m = Ret tt (set_rssiFailCount (rssiFailCount m + 1) m).
Proof.
  intros [Hup Hrssi] Hn. unfold checkWiFiHealth, bind, when.
  rewrite Hup. cbn [negb ret].
  destruct (Z.ltb_spec (tick_RSSI t) (-90)) as [_|]; [|lia].
  cbn. destruct (Z.leb_spec 6 (rssiFailCount m + 1)); [lia|reflexivity].
Qed.

(** One tick with the link up and a weak signal that fills the streak. *)
Lemma weak_tick_reconnects (t : Tick) (m : Machine) :
  weak t -> 6 <= rssiFailCount m + 1 ->
  exists m',
    checkWiFiHealth t m = Ret tt m' /\
    rssiFailCount m' = 0 /\
    trace m' = (trace m ++ reconnect_action (ssid m) (password m))%list /\
    ssid m' = ssid m /\ password m' = password m.
Proof.
  intros [Hup Hrssi] Hn. unfold checkWiFiHealth, bind, when.
  rewrite Hup. cbn [negb ret].
  destruct (Z.ltb_spec (tick_RSSI t) (-90)) as [_|]; [|lia].
  cbn. destruct (Z.leb_spec 6 (rssiFailCount m + 1)); [|lia].
  eexists. split; [reflexivity|]. cbn.
  rewrite <- !app_assoc. repeat split; reflexivity.
Qed.

(** One tick with the link up and the signal at or above -90 dBm. *)
Lemma strong_tick_resets (t : Tick) (m : Machine) :
  tick_connected t = true -> -90 <= tick_RSSI t ->
  checkWiFiHealth t m = Ret tt (set_rssiFailCount 0 m).
Proof.
  intros Hup Hrssi. unfold checkWiFiHealth, bind, when.
  rewrite Hup. cbn [negb ret].
  destruct (Z.ltb_spec (tick_RSSI t) (-90)); [lia|]. reflexivity.
Qed.

(** A run of weak ticks that does not fill the streak only counts. *)
Lemma weak_run_counts (ts : list Tick) :
  forall m,
    Forall weak ts -> 0 <= rssiFailCount m ->
    rssiFailCount m + Z.of_nat (length ts) < 6 ->
    exists m',
      supervise ts m = Ret tt m' /\
      rssiFailCount m' = rssiFailCount m + Z.of_nat (length ts) /\
      trace m' = trace m /\ ssid m' = ssid m /\ password m' = password m.
Proof.
  induction ts as [|t ts IH]; intros m Hweak Hc Hlen.
  - exists m. cbn. repeat split; auto. lia.
  - inversion Hweak as [|t' ts' Ht Hts]; subst.
    cbn [length] in Hlen.
    destruct (IH (set_rssiFailCount (rssiFailCount m + 1) m))
      as (m' & E & Hn & Htr & Hs & Hp); [exact Hts|cbn; lia|cbn; lia|].
    exists m'. cbn [supervise]. unfold bind.
    rewrite (weak_tick_counts t m Ht) by lia. rewrite E.
    cbn in Hn, Htr, Hs, Hp. cbn [length]. repeat split; auto. lia.
Qed.

(** Between ticks the streak counter stays between 0 and 5, whatever the
    ticks are. *)
Lemma checkWiFiHealth_range (t : Tick) :
  hoare (fun m => 0 <= rssiFailCount m <= 5) (checkWiFiHealth t)
        (fun _ m => 0 <= rssiFailCount m <= 5) (fun _ => True).
Proof.
  intros m Hm. unfold checkWiFiHealth, bind, when.
  destruct (tick_connected t); cbn [negb]; [|exact Logic.I].
  cbn [ret]. cbv beta iota.
  unfold modify, get.
  destruct (Z.ltb_spec (tick_RSSI t) (-90)); cbv beta iota;
    cbn [rssiFailCount set_rssiFailCount].
  - destruct (Z.leb_spec 6 (rssiFailCount m + 1)); cbn; lia.
  - cbn. lia.
Qed.

Lemma supervise_range (ts : list Tick) :
  hoare (fun m => 0 <= rssiFailCount m <= 5) (supervise ts)
        (fun _ m => 0 <= rssiFailCount m <= 5) (fun _ => True).
Proof.
  induction ts as [|t ts IH]; cbn [supervise].
  - apply hoare_ret. auto.
  - eapply hoare_bind; [apply checkWiFiHealth_range|]. intros []. exact IH.
Qed.

(** A sequence of ticks is run after another by running it from where
    the first one ended. *)
Lemma supervise_app (ts1 ts2 : list Tick) (m m1 : Machine) :
  supervise ts1 m = Ret tt m1 ->
  supervise (ts1 ++ ts2) m = supervise ts2 m1.
Proof.
  revert m. induction ts1 as [|t ts1 IH]; intros m E.
  - cbn in E. injection E as <-. reflexivity.
  - cbn [supervise app] in *. unfold bind in *.
    destruct (checkWiFiHealth t m) as [[] m0| |]; try discriminate.
    apply IH. exact E.
Qed.

Lemma succ_mod_6 (c : nat) :
  (S c mod 6 = if c mod 6 =? 5 then 0 else S (c mod 6))%nat.
Proof.
  pose proof (Nat.div_mod_eq c 6) as Hc.
  pose proof (Nat.mod_upper_bound c 6 ltac:(lia)) as Hlt.
  destruct (Nat.eqb_spec (c mod 6) 5) as [H5|H5]; symmetry.
  - apply (Nat.mod_unique (S c) 6 (S (c / 6)) 0); lia.
  - apply (Nat.mod_unique (S c) 6 (c / 6) (S (c mod 6))); lia.
Qed.

(** Every sequence of ticks that find the link up: the counter is the
    length of the current run of weak readings modulo 6, and the radio
    has been restarted once at every sixth reading of a run. *)
Lemma supervise_follows_runs (ts : list Tick) :
  forall (c : nat) (m : Machine),
    Forall (fun t => tick_connected t = true) ts ->
    rssiFailCount m = Z.of_nat (c mod 6) ->
    exists m',
      supervise ts m = Ret tt m' /\
      rssiFailCount m' = Z.of_nat (weak_run c ts mod 6) /\
      trace m'
      = (trace m ++ concat (repeat (reconnect_action (ssid m) (password m))
                                   (sixth_readings c ts)))%list /\
      ssid m' = ssid m /\ password m' = password m.
Proof.
  induction ts as [|t ts IH]; intros c m Hup Hc.
  - exists m. cbn. rewrite app_nil_r. repeat split; auto.
  - inversion Hup as [|t' ts' Ht Hts]; subst.
    pose proof (succ_mod_6 c) as Hs.
    pose proof (Nat.mod_upper_bound c 6 ltac:(lia)) as Hlt.
    cbn [supervise weak_run sixth_readings]. unfold bind, is_weak.
    destruct (Z.ltb_spec (tick_RSSI t) (-90)) as [Hw|Hg].
    + destruct (Nat.eqb_spec (c mod 6) 5) as [H5|H5].
      * destruct (weak_tick_reconnects t m (conj Ht Hw))
          as (m1 & E1 & C1 & T1 & S1 & P1); [lia|].
        destruct (IH (S c) m1 Hts) as (m' & E & C & T & S' & P');
          [rewrite Hs, C1; reflexivity|].
        exists m'. rewrite E1, Hs. cbn [Nat.eqb Nat.add].
        split; [exact E|]. split; [exact C|].
        split; [|split; congruence].
        rewrite T, T1, S1, P1. cbn [repeat concat].
        rewrite <- !app_assoc. reflexivity.
      * rewrite (weak_tick_counts t m (conj Ht Hw)) by lia.
        destruct (IH (S c) (set_rssiFailCount (rssiFailCount m + 1) m) Hts)
          as (m' & E & C & T & S' & P');
          [rewrite Hs; cbn [rssiFailCount set_rssiFailCount]; lia|].
        exists m'. rewrite Hs. cbn [Nat.eqb Nat.add].
        split; [exact E|]. split; [exact C|].
        split; [exact T|split; assumption].
    + rewrite (strong_tick_resets t m Ht Hg).
      destruct (IH 0%nat (set_rssiFailCount 0 m) Hts)
        as (m' & E & C & T & S' & P'); [reflexivity|].
      exists m'. split; [exact E|]. split; [exact C|].
      split; [exact T|split; assumption].
Qed.

(** Six weak ticks from a streak of 0. *)
Lemma six_weak_ticks (ts : list Tick) (m : Machine) :
  Forall weak ts -> length ts = 6%nat -> rssiFailCount m = 0 ->
  exists m',
    supervise ts m = Ret tt m' /\
    trace m' = (trace m ++ reconnect_action (ssid m) (password m))%list /\
    rssiFailCount m' = 0.
Proof.
  intros Hweak Hlen H0.
  destruct (exists_last (l := ts)) as (ts5 & t6 & ->);
    [intros ->; discriminate Hlen|].
  rewrite length_app in Hlen. cbn in Hlen.
  apply Forall_app in Hweak as [H5 H6]. inversion H6 as [|? ? Ht6 _]; subst.
  destruct (weak_run_counts ts5 m H5) as (m5 & E5 & Hn & Htr & Hs & Hp);
    [lia|lia|].
  destruct (weak_tick_reconnects t6 m5 Ht6) as (m' & E6 & Hn' & Htr' & _);
    [lia|].
  exists m'. rewrite (supervise_app ts5 [t6] m m5 E5).
  cbn [supervise]. unfold bind. rewrite E6.
  repeat split; auto.
  rewrite Htr', Htr, Hs, Hp. reflexivity.
Qed.

(** C7. For every sequence of supervisor ticks that find the link up,
    from any state of the streak counter the supervisor can be in (0 to
    5; 0 at boot), the supervisor returns; the counter is then the
    length of the current run of consecutive readings below -90 dBm,
    modulo 6, and the only events are one disconnect/reconnect action
    for every sixth reading of such a run.  After any such sequence: a
    tick with the signal at or above -90 dBm sets the counter to 0,
    whatever it was, and emits nothing; and when the counter is 0, a run
    of 5 or fewer weak ticks emits nothing and leaves the counter at its
    length, while a run of 6 emits exactly one disconnect/reconnect
    action and leaves the counter at 0. *)
Theorem signal_streak (pre run : list Tick) (good : Tick) (m : Machine) :
  Forall (fun t => tick_connected t = true) pre ->
  0 <= rssiFailCount m <= 5 ->
  tick_connected good = true -> -90 <= tick_RSSI good ->
  Forall weak run ->
  exists m0,
    supervise pre m = Ret tt m0 /\
    rssiFailCount m0
    = Z.of_nat (weak_run (Z.to_nat (rssiFailCount m)) pre mod 6) /\
    trace m0
    = (trace m
       ++ concat (repeat (reconnect_action (ssid m) (password m))
                         (sixth_readings (Z.to_nat (rssiFailCount m)) pre)))%list /\
    (exists m1,
       supervise (pre ++ [good]) m = Ret tt m1 /\
       trace m1 = trace m0 /\ rssiFailCount m1 = 0) /\
    (rssiFailCount m0 = 0 -> (length run <= 5)%nat ->
     exists m',
       supervise (pre ++ run) m = Ret tt m' /\
       trace m' = trace m0 /\
       rssiFailCount m' = Z.of_nat (length run)) /\
    (rssiFailCount m0 = 0 -> length run = 6%nat ->
     exists m',
       supervise (pre ++ run) m = Ret tt m' /\
       trace m' = (trace m0 ++ reconnect_action (ssid m) (password m))%list /\
       rssiFailCount m' = 0).
Proof.
  intros Hup Hc Hgup Hgood Hweak.
  destruct (supervise_follows_runs pre (Z.to_nat (rssiFailCount m)) m Hup)
    as (m0 & E0 & C0 & T0 & S0 & P0).
  { rewrite Nat.mod_small by lia. lia. }
  exists m0. split; [exact E0|]. split; [exact C0|]. split; [exact T0|].
  split; [|split].
  - exists (set_rssiFailCount 0 m0).
    rewrite (supervise_app pre [good] m m0 E0).
    cbn [supervise]. unfold bind.
    rewrite (strong_tick_resets good m0 Hgup Hgood).
    repeat split; reflexivity.
  - intros Hz Hlen.
    destruct (weak_run_counts run m0 Hweak) as (m' & E & Hn & Htr & _);
      [lia|lia|].
    exists m'. rewrite (supervise_app pre run m m0 E0).
    repeat split; auto. lia.
  - intros Hz Hlen.
    destruct (six_weak_ticks run m0 Hweak Hlen Hz) as (m' & E & Htr & Hn).
    exists m'. rewrite (supervise_app pre run m m0 E0).
    rewrite <- S0, <- P0. repeat split; auto.
Qed.

Lemma signal_streak_witness :
  let bad := mkTick true (-95) in
  let good := mkTick true (-90) in
  let m := boot_machine erased_flash None in
  (exists m0,
     supervise [bad; bad; bad] m = Ret tt m0 /\ rssiFailCount m0 = 3) /\
  (exists m1,
     supervise [bad; bad; bad; good] m = Ret tt m1 /\
     trace m1 = [] /\ rssiFailCount m1 = 0) /\
  (exists m',
     supervise ([bad; bad; bad; good] ++ repeat bad 5) m = Ret tt m' /\
     trace m' = [] /\ rssiFailCount m' = 5) /\
  (exists m',
     supervise ([bad; bad; bad; good] ++ repeat bad 6) m = Ret tt m' /\
     trace m' = reconnect_action EmptyString EmptyString /\
     rssiFailCount m' = 0).
Proof.
  intros bad good m.
  assert (Hw : weak bad) by (split; [reflexivity|cbn; lia]).
  assert (Hw5 : Forall weak (repeat bad 5))
    by (cbn; repeat (constructor; [exact Hw|]); constructor).
  assert (Hw6 : Forall weak (repeat bad 6))
    by (cbn; repeat (constructor; [exact Hw|]); constructor).
  assert (Hr : 0 <= rssiFailCount m <= 5) by (cbn; lia).
  assert (Hg : -90 <= tick_RSSI good) by (cbn; lia).
  destruct (signal_streak [bad; bad; bad] (repeat bad 5) good m
              ltac:(repeat constructor) Hr eq_refl Hg Hw5)
    as (m0 & E0 & C0 & T0 & (m1 & E1 & T1 & C1) & _).
  destruct (signal_streak [bad; bad; bad; good] (repeat bad 5) good m
              ltac:(repeat constructor) Hr eq_refl Hg Hw5)
    as (n0 & F0 & D0 & U0 & _ & H5 & _).
  destruct (signal_streak [bad; bad; bad; good] (repeat bad 6) good m
              ltac:(repeat constructor) Hr eq_refl Hg Hw6)
    as (n0' & F0' & D0' & U0' & _ & _ & H6).
  split; [exists m0; split; [exact E0|exact C0]|].
  split; [exists m1; split; [exact E1|split; [rewrite T1; exact T0|exact C1]]|].
  split.
  - destruct (H5 D0 ltac:(cbn; lia)) as (m' & E & T & C).
    exists m'. split; [exact E|]. split; [rewrite T; exact U0|exact C].
  - destruct (H6 D0' eq_refl) as (m' & E & T & C).
    exists m'. split; [exact E|]. split; [rewrite T, U0'; reflexivity|exact C].
Defined.

(** ** Configuration submission *)



(** ** Claims about the settings store *)

Lemma loadString_empty (addr n : nat) (m : Machine) :
  is_terminator (EEPROM_read (eeprom m) addr) = true ->
  loadString addr (S n) m = EmptyString.
Proof.
  intros H. unfold loadString. cbn [loadString_loop].
  rewrite Nat.add_0_r, H. reflexivity.
Qed.

Lemma saveString_unfold (str : string) (addr len : nat) (m : Machine) :
  saveString str addr len m
  = Ret tt (emit ev_eepromCommit
              (set_flash (saveString_loop str addr 0 len (eeprom m))
                 (set_eeprom (saveString_loop str addr 0 len (eeprom m)) m))).
Proof. reflexivity. Qed.

(** The three writes of a configuration, read back. *)
Lemma save_settings_spec (s p a : string) (m : Machine) :
  length (eeprom m) = EEPROM_SIZE ->
  exists m',
    save_settings s p a m = Ret tt m' /\
    stored_settings m' =
      (until_terminator (truncated 32 s), until_terminator (truncated 64 p),
       until_terminator (truncated 128 a)) /\
    flash m' = eeprom m' /\
    length (eeprom m') = EEPROM_SIZE /\
    (ssid m', password m', apiURL m') = (ssid m, password m, apiURL m).
Proof.
  intros Hlen. eexists. split; [reflexivity|].
  unfold stored_settings, loadString.
  cbn [eeprom flash ssid password apiURL set_eeprom set_flash emit].
  unfold EEPROM_SSID, EEPROM_PASSWORD, EEPROM_API_URL, EEPROM_SIZE in *.
  repeat split.
  - f_equal; [f_equal|].
    + rewrite !load_after_save_other by lia. apply load_after_save. lia.
    + rewrite load_after_save_other by lia. apply load_after_save.
      rewrite saveString_loop_length. lia.
    + apply load_after_save. rewrite !saveString_loop_length. lia.
  - rewrite !saveString_loop_length. exact Hlen.
Qed.

(** A boot that finds the name slot empty stores the first-boot triple. *)
Lemma setup_settings_empty (fl : list ascii) (rtc : option UptimeData) :
  is_terminator (EEPROM_read fl EEPROM_SSID) = true ->
  exists m0,
    eeprom m0 = fl /\
    setup_settings (boot_machine fl rtc)
    = save_settings firstboot_ssid firstboot_password firstboot_apiURL
        (set_config firstboot_ssid firstboot_password firstboot_apiURL m0).
Proof.
  intros H.
  set (mb := set_eeprom fl (boot_machine fl rtc)).
  assert (E : loadString EEPROM_SSID 32 mb = EmptyString)
    by (apply (loadString_empty EEPROM_SSID 31 mb); exact H).
  exists (set_config EmptyString (loadString EEPROM_PASSWORD 64 mb)
            (loadString EEPROM_API_URL 128 mb) mb).
  split; [reflexivity|].
  cbv beta iota delta [setup_settings bind get modify EEPROM_begin].
  change (set_eeprom (flash (boot_machine fl rtc)) (boot_machine fl rtc))
    with mb.
  rewrite E. cbn [ssid set_config String.length Nat.eqb when].
  unfold save_settings, bind.
  rewrite (saveString_unfold firstboot_ssid). cbv beta iota.
  cbn [password apiURL emit set_flash set_eeprom set_config].
  rewrite (saveString_unfold firstboot_password). cbv beta iota.
  cbn [password apiURL emit set_flash set_eeprom set_config].
  reflexivity.
Qed.

(** For fields without 0 and 255 bytes the read gives the truncation. *)
Lemma save_then_load_fields (s p a : string) (m : Machine) :
  length (eeprom m) = EEPROM_SIZE ->
  plain s = true -> plain p = true -> plain a = true ->
  exists m',
    save_settings s p a m = Ret tt m' /\
    stored_settings m' = (truncated 32 s, truncated 64 p, truncated 128 a) /\
    flash m' = eeprom m'.
Proof.
  intros Hlen Hs Hp Ha.
  destruct (save_settings_spec s p a m Hlen) as (m' & E & Hst & Hfl & _).
  rewrite !until_terminator_plain in Hst by (apply plain_truncated; assumption).
  exists m'. repeat split; auto.
Qed.

(** C6, as amended.  For settings none of whose bytes is 0 or 255, the
    three writes followed by the three reads give each field cut to the
    width of its slot (32, 64, 128), committed to flash; fields within
    those widths come back unchanged. *)
Theorem save_then_load (s p a : string) (m : Machine) :
  length (eeprom m) = EEPROM_SIZE ->
  plain s = true -> plain p = true -> plain a = true ->
  exists m',
    save_settings s p a m = Ret tt m' /\
    stored_settings m' = (truncated 32 s, truncated 64 p, truncated 128 a) /\
    flash m' = eeprom m' /\
    ((String.length s <= 32)%nat -> (String.length p <= 64)%nat ->
     (String.length a <= 128)%nat -> stored_settings m' = (s, p, a)).
Proof.
  intros Hlen Hs Hp Ha.
  destruct (save_then_load_fields s p a m Hlen Hs Hp Ha) as (m' & E & Hst & Hfl).
  exists m'. repeat split; auto.
  intros Ls Lp La. rewrite Hst, !truncated_short by assumption. reflexivity.
Qed.

Lemma save_then_load_witness :
  let m := set_eeprom erased_flash (boot_machine erased_flash None) in
  exists m',
    save_settings "home" "secret" "http://example.org/" m = Ret tt m' /\
    stored_settings m' = ("home", "secret", "http://example.org/").
Proof.
  intros m.
  destruct (save_then_load "home" "secret" "http://example.org/" m
              eq_refl eq_refl eq_refl eq_refl) as (m' & E & _ & _ & H).
  exists m'. split; [exact E|].
  apply H; cbn; lia.
Defined.

(** C6 as stated fails: a network name within its 32 bytes that
    contains the byte 255 comes back cut at that byte. *)
Lemma byte_255_cuts_stored_name :
  let s := String "a" (String (ascii_of_nat 255) "b") in
  let m := set_eeprom erased_flash (boot_machine erased_flash None) in
  (String.length s <= 32)%nat /\
  exists m',
    save_settings s "secret" "http://example.org/" m = Ret tt m' /\
    stored_settings m' = ("a", "secret", "http://example.org/") /\
    stored_settings m'
    <> (truncated 32 s, truncated 64 "secret", truncated 128 "http://example.org/").
Proof.
  intros s m. split; [cbn; lia|].
  eexists. split; [vm_compute; reflexivity|].
  split; [vm_compute; reflexivity|].
  vm_compute. intros H. discriminate H.
Qed.

(** C3, as amended.  The sketch holds two different triples.  The
    factory reset writes ("myssid", "mypassword",
    "http://login.npu.ac.th/login?123456"), and reading the store back
    after it gives exactly that triple; a boot that finds the stored
    network name empty writes the first-boot triple of lines 1152-1154
    instead, and keeps it as the configuration in use. *)
Theorem factory_reset_round_trip (m : Machine) (fl : list ascii)
  (rtc : option UptimeData) :
  length (eeprom m) = EEPROM_SIZE ->
  length fl = EEPROM_SIZE ->
  is_terminator (EEPROM_read fl EEPROM_SSID) = true ->
  (exists m',
     handleResetSettings m = Ret tt m' /\
     stored_settings m'
     = ("myssid", "mypassword", "http://login.npu.ac.th/login?123456") /\
     flash m' = eeprom m') /\
  (exists m',
     setup_settings (boot_machine fl rtc) = Ret tt m' /\
     stored_settings m' = (firstboot_ssid, firstboot_password, firstboot_apiURL) /\
     (ssid m', password m', apiURL m')
     = (firstboot_ssid, firstboot_password, firstboot_apiURL) /\
     flash m' = eeprom m') /\
  (firstboot_ssid, firstboot_password, firstboot_apiURL)
  <> ("myssid", "mypassword", "http://login.npu.ac.th/login?123456").
Proof.
  intros Hlen Hfl Hempty. repeat split.
  - destruct (save_settings_spec "myssid" "mypassword"
                "http://login.npu.ac.th/login?123456" m Hlen)
      as (m' & E & Hst & Hflash & _).
    exists m'. repeat split; [exact E|exact Hst|exact Hflash].
  - destruct (setup_settings_empty fl rtc Hempty) as (m0 & E0 & Eq).
    destruct (save_settings_spec firstboot_ssid firstboot_password
                firstboot_apiURL
                (set_config firstboot_ssid firstboot_password firstboot_apiURL m0))
      as (m' & E & Hst & Hflash & _ & Hcfg); [cbn; rewrite E0; exact Hfl|].
    exists m'. rewrite Eq. repeat split; [exact E|exact Hst|exact Hcfg|exact Hflash].
  - intros H. discriminate H.
Qed.

Lemma factory_reset_round_trip_witness :
  exists m',
    handleResetSettings (set_eeprom erased_flash (boot_machine erased_flash None))
    = Ret tt m' /\
    stored_settings m'
    = ("myssid", "mypassword", "http://login.npu.ac.th/login?123456").
Proof.
  destruct (factory_reset_round_trip
              (set_eeprom erased_flash (boot_machine erased_flash None))
              erased_flash None eq_refl eq_refl eq_refl)
    as ((m' & E & Hst & _) & _ & _).
  exists m'. split; [exact E|exact Hst].
Defined.

(** C3 as stated fails: the triple stored at a first boot and the
    triple stored by the factory reset are not the same. *)
Lemma first_boot_and_reset_triples_differ :
  let m := set_eeprom erased_flash (boot_machine erased_flash None) in
  exists m1 m2,
    setup_settings (boot_machine erased_flash None) = Ret tt m1 /\
    handleResetSettings m = Ret tt m2 /\
    stored_settings m1
    = ("redmi4xx", "komkritc",
       "http://login.npu.ac.th/login?dst=http://www.msftconnecttest.com/redirect&popup=true&username=3449900299486&password=komkritc1975") /\
    stored_settings m2
    = ("myssid", "mypassword", "http://login.npu.ac.th/login?123456") /\
    stored_settings m1 <> stored_settings m2.
Proof.
  intros m. eexists. eexists.
  split; [vm_compute; reflexivity|].
  split; [vm_compute; reflexivity|].
  split; [vm_compute; reflexivity|].
  split; [vm_compute; reflexivity|].
  vm_compute. intros H. discriminate H.
Qed.

(** What [loadString] reads depends on the EEPROM buffer only. *)
Lemma stored_settings_ext (m m' : Machine) :
  eeprom m = eeprom m' -> stored_settings m = stored_settings m'.
Proof.
  intros H. unfold stored_settings, loadString. rewrite H. reflexivity.
Qed.

(** The body of the /save handlers is the three writes, then the rest. *)
Lemma handler_stores (s p a : string) (k : M unit) (m : Machine) :
  (modify (set_config s p a) ;;
   s' <- get ssid ;; saveString s' EEPROM_SSID 32 ;;
   p' <- get password ;; saveString p' EEPROM_PASSWORD 64 ;;
   a' <- get apiURL ;; saveString a' EEPROM_API_URL 128 ;;
   k) m
  = match save_settings s p a (set_config s p a m) with
    | Ret _ m' => k m'
    | Reboot m' => Reboot m'
    | OutOfFuel => OutOfFuel
    end.
Proof.
  unfold save_settings, bind, modify, get. cbv beta iota.
  cbn [ssid password apiURL set_config].
  rewrite (saveString_unfold s). cbv beta iota.
  cbn [ssid password apiURL emit set_flash set_eeprom set_config].
  rewrite (saveString_unfold p). cbv beta iota.
  cbn [ssid password apiURL emit set_flash set_eeprom set_config].
  rewrite (saveString_unfold a). cbv beta iota.
  reflexivity.
Qed.

(** ** Claims about the boot *)

(** [normalSetup] takes the counters from RTC memory, or zeroes them if
    it cannot be read, adds one boot and writes them back. *)
Lemma normalSetup_spec (m : Machine) :
  exists m',
    normalSetup m = Ret tt m' /\
    rtcData m' =
      mkUptime (u32_incr (bootCount (default uptime_zero (rtcMem m))))
               (internetUp (default uptime_zero (rtcMem m)))
               (apiSuccess (default uptime_zero (rtcMem m))) /\
    rtcMem m' = Some (rtcData m') /\
    internetOK m' = internetOK m.
Proof.
  destruct m as [s p a ok d n e f [[b i u]|] l4 l7 l8 c tr];
    eexists; (split; [reflexivity|]); cbn; repeat split; reflexivity.
Qed.

Lemma connectToSavedWiFi_unfold (env : BootEnv) (m : Machine) :
  connectToSavedWiFi env m
  = Ret (station_connects env) (emit (ev_wifiBegin (ssid m) (password m)) m).
Proof. reflexivity. Qed.

(** C4, as amended.  A boot whose station connection succeeds (button
    not held) ends in Station mode with [bootCount] incremented exactly
    once, as a [uint32_t], from the stored value, or from zero when RTC
    memory is unreadable, in which case the other two counters start
    from zero as well; the counters are written back.  A boot that ends
    in the configuration portal, or in a restart (factory reset by the
    button, or a portal that fails to start), leaves RTC memory as it
    found it. *)
Theorem boot_count_per_station_boot (env : BootEnv) (w : World)
  (fl : list ascii) (rtc : option UptimeData) :
  let r := setup env w (boot_machine fl rtc) in
  let d0 := default uptime_zero rtc in
  if button_low_first env && button_low_second env then
    exists m', r = Reboot m' /\ rtcMem m' = rtc
  else if station_connects env then
    exists (apiOK : bool) (m' : Machine),
      r = Ret Station m' /\
      bootCount (rtcData m') = u32_incr (bootCount d0) /\
      rtcData m' =
        bump (internetOK m') apiOK
             (mkUptime (u32_incr (bootCount d0)) (internetUp d0) (apiSuccess d0)) /\
      rtcMem m' = Some (rtcData m')
  else
    exists m',
      (r = Ret ConfigurationPortal m' \/ r = Reboot m') /\ rtcMem m' = rtc.
Proof.
  intros r d0.
  set (I := fun x : Machine => rtcMem x = rtc).
  assert (HI : I (boot_machine fl rtc)) by reflexivity.
  destruct (runs_result I setup_settings (boot_machine fl rtc))
    as ([] & m1 & E1 & H1);
    [apply setup_settings_runs; subst I; frame|exact HI|].
  assert (Er : r =
    (when (button_low_first env)
       (delay 500 ;;
        when (button_low_second env) (handleResetSettings ;; ESP_restart)) ;;
     connected <- connectToSavedWiFi env ;;
     if connected then (normalSetup ;; performInternetCheck w ;; ret Station)
     else (configMode env ;; ret ConfigurationPortal)) m1).
  { subst r. unfold setup. unfold bind at 1. rewrite E1. reflexivity. }
  clearbody r. subst r.
  (* the machine in which the connection attempt has been made *)
  assert (Hstation : forall m2, I m2 -> station_connects env = true ->
            exists (apiOK : bool) (m' : Machine),
              (connected <- connectToSavedWiFi env ;;
               if connected
               then (normalSetup ;; performInternetCheck w ;; ret Station)
               else (configMode env ;; ret ConfigurationPortal)) m2
              = Ret Station m' /\
              bootCount (rtcData m') = u32_incr (bootCount d0) /\
              rtcData m' =
                bump (internetOK m') apiOK
                     (mkUptime (u32_incr (bootCount d0)) (internetUp d0)
                               (apiSuccess d0)) /\
              rtcMem m' = Some (rtcData m')).
  { intros m2 H2 C.
    destruct (normalSetup_spec (emit (ev_wifiBegin (ssid m2) (password m2)) m2))
      as (m3 & E3 & Hd3 & _).
    destruct (performInternetCheck_spec w m3)
      as (apiOK & m' & E4 & _ & _ & Hd & Hmem & _).
    exists apiOK, m'.
    assert (Hrtc : rtcMem (emit (ev_wifiBegin (ssid m2) (password m2)) m2) = rtc)
      by exact H2.
    rewrite Hrtc in Hd3. rewrite Hd3 in Hd.
    split; [|split; [rewrite Hd; reflexivity|split; [exact Hd|exact Hmem]]].
    unfold bind. rewrite connectToSavedWiFi_unfold, C. cbv beta iota.
    rewrite E3, E4. reflexivity. }
  assert (Hportal : forall m2, I m2 -> station_connects env = false ->
            exists m',
              ((connected <- connectToSavedWiFi env ;;
                if connected
                then (normalSetup ;; performInternetCheck w ;; ret Station)
                else (configMode env ;; ret ConfigurationPortal)) m2
               = Ret ConfigurationPortal m' \/
               (connected <- connectToSavedWiFi env ;;
                if connected
                then (normalSetup ;; performInternetCheck w ;; ret Station)
                else (configMode env ;; ret ConfigurationPortal)) m2
               = Reboot m') /\ rtcMem m' = rtc).
  { intros m2 H2 C.
    pose proof (configMode_keeps I ltac:(subst I; frame) ltac:(subst I; frame)
                  env (emit (ev_wifiBegin (ssid m2) (password m2)) m2) H2) as H3.
    destruct (configMode env _) as [[] m'|m'|] eqn:E3; [| |destruct H3];
      exists m'; (split; [|exact H3]); [left|right];
      unfold bind; rewrite connectToSavedWiFi_unfold, C; cbv beta iota;
      rewrite E3; reflexivity. }
  destruct (button_low_first env) eqn:B1;
    [destruct (button_low_second env) eqn:B2|]; cbn [andb].
  - (* the button is held through the debounce *)
    destruct (runs_result I handleResetSettings (emit (ev_delay 500) m1))
      as ([] & m2 & E2 & H2);
      [apply handleResetSettings_runs; subst I; frame|exact H1|].
    exists (emit ev_restart m2). split; [|exact H2].
    unfold bind, when, delay, modify. rewrite E2. reflexivity.
  - (* the button is released during the debounce *)
    destruct (station_connects env) eqn:C.
    + apply (Hstation (emit (ev_delay 500) m1) H1 eq_refl).
    + apply (Hportal (emit (ev_delay 500) m1) H1 eq_refl).
  - (* the button is not pressed *)
    destruct (station_connects env) eqn:C.
    + apply (Hstation m1 H1 eq_refl).
    + apply (Hportal m1 H1 eq_refl).
Qed.

(** C4 as stated fails: a boot that ends in the configuration portal
    does not touch the counters; the stored [bootCount] is still 7. *)
Lemma portal_boot_leaves_bootCount :
  exists m',
    setup env_portal world_up (boot_machine erased_flash (Some (mkUptime 7 3 2)))
    = Ret ConfigurationPortal m' /\
    rtcMem m' = Some (mkUptime 7 3 2) /\
    List.filter (fun e => match e with ev_rtcWrite _ => true | _ => false end)
                (trace m') = [].
Proof.
  eexists. split; [vm_compute; reflexivity|].
  split; vm_compute; reflexivity.
Qed.

(** * Further properties *)

(** ** The health-check cycle: what it asks, in which order, how long *)

Lemma api_loop_unfold (w : World) (fuel : nat) (a : Z) (ok : bool) (m : Machine) :
  api_loop w fuel a ok m
  = if (a <? maxRetries) && negb ok then
      match fuel with
      | O => OutOfFuel
      | S fuel' => api_body w (api_loop w fuel') a ok m
      end
    else Ret (a, ok) m.
Proof. destruct fuel; reflexivity. Qed.

Lemma internet_loop_unfold (w : World) (fuel : nat) (p a : Z) (ok : bool)
  (m : Machine) :
  internet_loop w fuel p a ok m
  = if (p <? maxRetries) && negb (internetOK m) then
      match fuel with
      | O => OutOfFuel
      | S fuel' => internet_body w (internet_loop w fuel') p a ok m
      end
    else Ret (p, a, ok) m.
Proof. destruct fuel; reflexivity. Qed.

(** With the flag set the outer loop is left at once. *)
Lemma internet_loop_exit (w : World) (fuel : nat) (p a : Z) (ok : bool)
  (m : Machine) :
  internetOK m = true -> internet_loop w fuel p a ok m = Ret (p, a, ok) m.
Proof.
  intros H. rewrite internet_loop_unfold, H, andb_false_r. reflexivity.
Qed.

(** One round of the inner loop, by the answer of the world. *)
Lemma api_body_run (w : World) (k : Z -> bool -> M (Z * bool)) (a : Z)
  (ok : bool) (m : Machine) :
  api_body w k a ok m
  = let m1 := emit (ev_apiAttempt (a + 1)) m in
    if http_answer w (clock m) (apiURL m) then
      k (a + 1) true (advance (emit (ev_httpGET (apiURL m) true) m1))
    else
      let m2 := advance (emit (ev_httpGET (apiURL m) false) m1) in
      k (a + 1) ok
        (if a + 1 <? maxRetries then emit (ev_delay retryDelay) m2 else m2).
Proof.
  unfold api_body, bind, modify, get. rewrite httpGETRequest_answer.
  cbv zeta. cbn [clock apiURL emit].
  destruct (http_answer w _ _); [reflexivity|].
  unfold when, delay, modify, ret. destruct (a + 1 <? maxRetries); reflexivity.
Qed.

(** One round of the outer loop, by the answers of the world. *)
Lemma internet_body_run (w : World) (k : Z -> Z -> bool -> M (Z * Z * bool))
  (p a : Z) (ok : bool) (m : Machine) :
  internet_body w k p a ok m
  = let m1 := emit (ev_internetAttempt (p + 1)) m in
    let found (m2 : Machine) :=
      match api_loop w loop_fuel a ok (set_internetOK true m2) with
      | Ret res m' => k (p + 1) (fst res) (snd res) m'
      | Reboot m' => Reboot m'
      | OutOfFuel => OutOfFuel
      end in
    if ping_answer w (clock m) "www.google.com" then
      found (advance (emit (ev_pingHost "www.google.com" true) m1))
    else
      let m2 := advance (emit (ev_pingHost "www.google.com" false) m1) in
      if ping_answer w (S (clock m)) "www.yahoo.com" then
        found (advance (emit (ev_pingHost "www.yahoo.com" true) m2))
      else
        let m3 := advance (emit (ev_pingHost "www.yahoo.com" false) m2) in
        k (p + 1) a ok
          (if p + 1 <? maxRetries then emit (ev_delay retryDelay) m3 else m3).
Proof.
  unfold internet_body, bind, modify. rewrite pingHost_answer. cbv zeta.
  cbn [clock emit advance].
  destruct (ping_answer w _ "www.google.com"); [reflexivity|].
  rewrite pingHost_answer. cbn [clock emit advance].
  destruct (ping_answer w _ "www.yahoo.com"); [reflexivity|].
  unfold when, delay, modify, ret. destruct (p + 1 <? maxRetries); reflexivity.
Qed.

(** What the inner loop adds to the trace. *)
Lemma api_loop_trace (w : World) (fuel : nat) :
  forall (a : Z) (ok : bool) (m : Machine),
    maxRetries - a <= Z.of_nat fuel ->
    exists res m' evs,
      api_loop w fuel a ok m = Ret res m' /\
      trace m' = (trace m ++ evs)%list /\
      internetOK m' = internetOK m /\
      internet_attempts evs = 0%nat /\
      pings evs = 0%nat /\
      Z.of_nat (api_requests evs) <= Z.max 0 (3 - a) /\
      total_delay evs <= 5000 * Z.max 0 (2 - a) /\
      probes_in_order true evs = true.
Proof.
  induction fuel as [|fuel IH]; intros a ok m Hfuel;
    rewrite api_loop_unfold.
  - destruct (Z.ltb_spec a maxRetries); [lia|]. cbn [andb].
    exists (a, ok), m, []. rewrite app_nil_r. cbn. repeat split; lia || reflexivity.
  - destruct ((a <? maxRetries) && negb ok) eqn:C.
    2:{ exists (a, ok), m, []. rewrite app_nil_r. cbn.
        repeat split; lia || reflexivity. }
    apply andb_prop in C as [C _]. apply Z.ltb_lt in C.
    rewrite api_body_run. cbv zeta. unfold maxRetries in *.
    destruct (http_answer w (clock m) (apiURL m)).
    + destruct (IH (a + 1) true
                  (advance (emit (ev_httpGET (apiURL m) true)
                              (emit (ev_apiAttempt (a + 1)) m))))
        as (res & m' & evs & E & T & Hi & A & P & G & D & O); [lia|].
      exists res, m',
        (ev_apiAttempt (a + 1) :: ev_httpGET (apiURL m) true :: evs).
      split; [exact E|]. split.
      { rewrite T. cbn [trace emit advance]. rewrite <- !app_assoc. reflexivity. }
      split; [exact Hi|].
      unfold internet_attempts, pings, api_requests, total_delay in *.
      cbn [List.filter is_internetAttempt is_pingHost is_httpGET length
           total_delay fold_right probes_in_order andb].
      repeat split; try assumption; lia.
    + set (m2 := advance (emit (ev_httpGET (apiURL m) false)
                            (emit (ev_apiAttempt (a + 1)) m))).
      destruct (Z.ltb_spec (a + 1) 3) as [Hlt|Hge].
      * destruct (IH (a + 1) ok (emit (ev_delay retryDelay) m2))
          as (res & m' & evs & E & T & Hi & A & P & G & D & O); [lia|].
        exists res, m',
          (ev_apiAttempt (a + 1) :: ev_httpGET (apiURL m) false
           :: ev_delay retryDelay :: evs).
        split; [exact E|]. split.
        { rewrite T. subst m2. cbn [trace emit advance].
          rewrite <- !app_assoc. reflexivity. }
        split; [exact Hi|].
        unfold internet_attempts, pings, api_requests, total_delay, retryDelay in *.
        cbn [List.filter is_internetAttempt is_pingHost is_httpGET length
             total_delay fold_right probes_in_order andb].
        repeat split; try assumption; lia.
      * destruct (IH (a + 1) ok m2)
          as (res & m' & evs & E & T & Hi & A & P & G & D & O); [lia|].
        exists res, m',
          (ev_apiAttempt (a + 1) :: ev_httpGET (apiURL m) false :: evs).
        split; [exact E|]. split.
        { rewrite T. subst m2. cbn [trace emit advance].
          rewrite <- !app_assoc. reflexivity. }
        split; [exact Hi|].
        unfold internet_attempts, pings, api_requests, total_delay in *.
        cbn [List.filter is_internetAttempt is_pingHost is_httpGET length
             total_delay fold_right probes_in_order andb].
        repeat split; try assumption; lia.
Qed.

Ltac count_events :=
  unfold internet_attempts, pings, api_requests, total_delay, retryDelay in *;
  cbn [List.filter is_internetAttempt is_pingHost is_httpGET length
       fold_right probes_in_order andb negb];
  repeat split; try assumption; try lia.

(** What the outer loop adds to the trace. *)
Lemma internet_loop_trace (w : World) (fuel : nat) :
  forall (p a : Z) (ok : bool) (m : Machine),
    maxRetries - p <= Z.of_nat fuel -> 0 <= a -> 0 <= p ->
    exists res m' evs,
      internet_loop w fuel p a ok m = Ret res m' /\
      trace m' = (trace m ++ evs)%list /\
      Z.of_nat (internet_attempts evs) <= Z.max 0 (3 - p) /\
      Z.of_nat (pings evs) <= 2 * Z.max 0 (3 - p) /\
      Z.of_nat (api_requests evs) <= 3 /\
      total_delay evs <= 5000 * Z.max 0 (2 - p) + 10000 /\
      probes_in_order (internetOK m) evs = true.
Proof.
  induction fuel as [|fuel IH]; intros p a ok m Hfuel Ha Hp;
    rewrite internet_loop_unfold.
  - destruct (Z.ltb_spec p maxRetries); [lia|]. cbn [andb].
    exists (p, a, ok), m, []. rewrite app_nil_r. cbn.
    repeat split; lia || reflexivity.
  - destruct ((p <? maxRetries) && negb (internetOK m)) eqn:C.
    2:{ exists (p, a, ok), m, []. rewrite app_nil_r. cbn.
        repeat split; lia || reflexivity. }
    apply andb_prop in C as [C Hflag]. apply Z.ltb_lt in C.
    apply negb_true_iff in Hflag. rewrite Hflag.
    rewrite internet_body_run. cbv zeta. unfold maxRetries in *.
    (* a successful attempt, whichever host answered *)
    assert (Hfound : forall m2 pre,
               trace m2 = (trace m ++ pre)%list ->
               exists res m' evs,
                 match api_loop w loop_fuel a ok (set_internetOK true m2) with
                 | Ret res0 m'0 =>
                     internet_loop w fuel (p + 1) (fst res0) (snd res0) m'0
                 | Reboot m'0 => Reboot m'0
                 | OutOfFuel => OutOfFuel
                 end = Ret res m' /\
                 trace m' = (trace m ++ pre ++ evs)%list /\
                 internet_attempts evs = 0%nat /\
                 pings evs = 0%nat /\
                 Z.of_nat (api_requests evs) <= 3 /\
                 total_delay evs <= 10000 /\
                 probes_in_order true evs = true).
    { intros m2 pre T2.
      destruct (api_loop_trace w loop_fuel a ok (set_internetOK true m2))
        as (res0 & m3 & evs & E3 & T3 & Hi3 & A3 & P3 & G3 & D3 & O3);
        [unfold loop_fuel, maxRetries; cbn; lia|].
      exists (p + 1, fst res0, snd res0), m3, evs.
      rewrite E3, (internet_loop_exit w fuel _ _ _ m3 Hi3).
      split; [reflexivity|]. split.
      { rewrite T3. cbn [trace set_internetOK]. rewrite T2, <- app_assoc.
        reflexivity. }
      repeat split; try assumption; lia. }
    destruct (ping_answer w (clock m) "www.google.com").
    + destruct (Hfound (advance (emit (ev_pingHost "www.google.com" true)
                                   (emit (ev_internetAttempt (p + 1)) m)))
                       [ev_internetAttempt (p + 1);
                        ev_pingHost "www.google.com" true])
        as (res & m' & evs & E & T & A & P & G & D & O).
      { cbn [trace emit advance]. rewrite <- !app_assoc. reflexivity. }
      exists res, m',
        (ev_internetAttempt (p + 1) :: ev_pingHost "www.google.com" true :: evs).
      split; [exact E|]. split; [exact T|]. count_events.
    + destruct (ping_answer w (S (clock m)) "www.yahoo.com").
      * destruct (Hfound
                    (advance (emit (ev_pingHost "www.yahoo.com" true)
                       (advance (emit (ev_pingHost "www.google.com" false)
                          (emit (ev_internetAttempt (p + 1)) m)))))
                    [ev_internetAttempt (p + 1);
                     ev_pingHost "www.google.com" false;
                     ev_pingHost "www.yahoo.com" true])
          as (res & m' & evs & E & T & A & P & G & D & O).
        { cbn [trace emit advance]. rewrite <- !app_assoc. reflexivity. }
        exists res, m',
          (ev_internetAttempt (p + 1) :: ev_pingHost "www.google.com" false
           :: ev_pingHost "www.yahoo.com" true :: evs).
        split; [exact E|]. split; [exact T|]. count_events.
      * set (m3 := advance (emit (ev_pingHost "www.yahoo.com" false)
                     (advance (emit (ev_pingHost "www.google.com" false)
                        (emit (ev_internetAttempt (p + 1)) m))))).
        assert (T3 : trace m3
                     = (trace m ++ [ev_internetAttempt (p + 1);
                                    ev_pingHost "www.google.com" false;
                                    ev_pingHost "www.yahoo.com" false])%list).
        { subst m3. cbn [trace emit advance]. rewrite <- !app_assoc.
          reflexivity. }
        assert (F3 : internetOK m3 = false) by exact Hflag.
        destruct (Z.ltb_spec (p + 1) 3) as [Hlt|Hge].
        -- destruct (IH (p + 1) a ok (emit (ev_delay retryDelay) m3))
             as (res & m' & evs & E & T & A & P & G & D & O); [lia|lia|lia|].
           change (internetOK (emit (ev_delay retryDelay) m3))
             with (internetOK m3) in O. rewrite F3 in O.
           exists res, m',
             (ev_internetAttempt (p + 1) :: ev_pingHost "www.google.com" false
              :: ev_pingHost "www.yahoo.com" false :: ev_delay retryDelay
              :: evs).
           split; [exact E|]. split.
           { rewrite T. cbn [trace emit]. rewrite T3, <- !app_assoc.
             reflexivity. }
           count_events.
        -- destruct (IH (p + 1) a ok m3)
             as (res & m' & evs & E & T & A & P & G & D & O); [lia|lia|lia|].
           rewrite F3 in O.
           exists res, m',
             (ev_internetAttempt (p + 1) :: ev_pingHost "www.google.com" false
              :: ev_pingHost "www.yahoo.com" false :: evs).
           split; [exact E|]. split.
           { rewrite T, T3, <- !app_assoc. reflexivity. }
           count_events.
Qed.

Lemma pings_app (evs evs' : list Event) :
  pings (evs ++ evs') = (pings evs + pings evs')%nat.
Proof. unfold pings. rewrite List.filter_app, length_app. reflexivity. Qed.

Lemma api_requests_app (evs evs' : list Event) :
  api_requests (evs ++ evs') = (api_requests evs + api_requests evs')%nat.
Proof. unfold api_requests. rewrite List.filter_app, length_app. reflexivity. Qed.

Lemma total_delay_app (evs evs' : list Event) :
  total_delay (evs ++ evs') = total_delay evs + total_delay evs'.
Proof.
  unfold total_delay. induction evs as [|e evs IH]; cbn; [reflexivity|].
  destruct e; rewrite ?IH; lia.
Qed.

(** Events that are no probes do not disturb the order of the probes. *)
Lemma probes_in_order_app_quiet (evs evs' : list Event) :
  (forall r, probes_in_order r evs' = true) ->
  forall r, probes_in_order r (evs ++ evs') = probes_in_order r evs.
Proof.
  intros Hq. induction evs as [|e evs IH]; intros r; cbn; [apply Hq|].
  destruct e; rewrite ?IH; reflexivity.
Qed.

(** The report of lines 231-252 makes no probe and blinks for at most
    half a second. *)
Lemma report_events_budget (internet api : bool) (d : UptimeData) :
  let evs :=
    ([ev_digitalWrite pinD8 (if internet then HIGH else LOW);
      ev_digitalWrite pinD7 (if internet then LOW else HIGH)]
     ++ feedback internet api
     ++ [ev_rtcWrite d; ev_finalStatus internet api])%list in
  internet_attempts evs = 0%nat /\ pings evs = 0%nat /\
  api_requests evs = 0%nat /\ total_delay evs <= 500 /\
  forall r, probes_in_order r evs = true.
Proof.
  destruct internet, api; cbn; repeat split; try lia; intros r; reflexivity.
Qed.

(** X1. Every health-check cycle returns, and between its start and its
    end it makes at most 3 internet attempts, at most 6 calls of
    [pingHost] and at most 3 of [httpGETRequest], and spends at most
    20600 ms in the delays of lines 195-253 and of the blink patterns
    (the wait for an answer inside [pingHost] is not counted); it asks
    for the API only once the flag is set, at entry or by an answered
    ping of this cycle, and makes no internet attempt and no ping while
    the flag is set. *)
Theorem cycle_probe_budget (w : World) (m : Machine) :
  exists m',
    performInternetCheck w m = Ret tt m' /\
    (internet_attempts (events_since m m') <= 3)%nat /\
    (pings (events_since m m') <= 6)%nat /\
    (api_requests (events_since m m') <= 3)%nat /\
    total_delay (events_since m m') <= 20600 /\
    probes_in_order (internetOK m) (events_since m m') = true.
Proof.
  assert (E0 : blinkD4 m
               = Ret tt (emit (ev_digitalWrite pinD4 LOW)
                           (set_level pinD4 LOW
                              (emit (ev_delay 100)
                                 (emit (ev_digitalWrite pinD4 HIGH)
                                    (set_level pinD4 HIGH m))))))
    by reflexivity.
  set (m0 := emit (ev_digitalWrite pinD4 LOW) _) in E0.
  assert (T0 : trace m0 = (trace m ++ short_blink)%list).
  { subst m0. cbn [trace emit set_level]. rewrite <- !app_assoc. reflexivity. }
  destruct (internet_loop_trace w loop_fuel 0 0 false m0)
    as (res & m1 & evs & E1 & T1 & A1 & P1 & G1 & D1 & O1);
    [unfold loop_fuel, maxRetries; cbn; lia|lia|lia|].
  change (internetOK m0) with (internetOK m) in O1.
  destruct (report_phase_spec (snd res) m1)
    as (m' & E2 & _ & _ & _ & _ & _ & _ & T2).
  destruct (report_events_budget (internetOK m1) (snd res) (rtcData m'))
    as (RA & RP & RG & RD & RO).
  cbv zeta in RA, RP, RG, RD, RO.
  exists m'. split.
  { unfold performInternetCheck, probe_phase, bind. rewrite E0, E1. exact E2. }
  assert (Ev : events_since m m'
               = (short_blink ++ evs
                  ++ [ev_digitalWrite pinD8 (if internetOK m1 then HIGH else LOW);
                      ev_digitalWrite pinD7 (if internetOK m1 then LOW else HIGH)]
                  ++ feedback (internetOK m1) (snd res)
                  ++ [ev_rtcWrite (rtcData m');
                      ev_finalStatus (internetOK m1) (snd res)])%list).
  { unfold events_since. rewrite T2, T1, T0, <- !app_assoc.
    apply drop_app_length. }
  rewrite Ev.
  rewrite (internet_attempts_app short_blink), (internet_attempts_app evs), RA.
  rewrite (pings_app short_blink), (pings_app evs), RP.
  rewrite (api_requests_app short_blink), (api_requests_app evs), RG.
  rewrite (total_delay_app short_blink), (total_delay_app evs).
  change (internet_attempts short_blink) with 0%nat.
  change (pings short_blink) with 0%nat.
  change (api_requests short_blink) with 0%nat.
  change (total_delay short_blink) with 100.
  repeat split; try lia.
  change (probes_in_order (internetOK m) (short_blink ++ ?l))
    with (probes_in_order (internetOK m) l).
  rewrite probes_in_order_app_quiet by exact RO. exact O1.
Qed.

(** The settings and the supervisor's counter, as a cycle must leave
    them. *)
Lemma cycle_frame (w : World) (m : Machine) :
  exists m',
    performInternetCheck w m = Ret tt m' /\
    ssid m' = ssid m /\ password m' = password m /\ apiURL m' = apiURL m /\
    eeprom m' = eeprom m /\ flash m' = flash m /\
    rssiFailCount m' = rssiFailCount m /\
    bootCount (rtcData m') = bootCount (rtcData m).
Proof.
  destruct (runs_result
              (fun x => ssid x = ssid m /\ password x = password m /\
                        apiURL x = apiURL m /\ eeprom x = eeprom m /\
                        flash x = flash m /\
                        rssiFailCount x = rssiFailCount m /\
                        bootCount (rtcData x) = bootCount (rtcData m))
              (performInternetCheck w) m) as ([] & m' & E & H).
  - apply performInternetCheck_runs; frame.
  - repeat split; reflexivity.
  - exists m'. split; [exact E|exact H].
Qed.

(** X2. A cycle changes neither the configuration strings nor the
    EEPROM buffer nor flash nor the streak counter of the link
    supervisor nor [bootCount]; it always returns. *)
Theorem cycle_leaves_settings_alone (w : World) (m : Machine) :
  exists m',
    performInternetCheck w m = Ret tt m' /\
    (ssid m', password m', apiURL m') = (ssid m, password m, apiURL m) /\
    stored_settings m' = stored_settings m /\
    eeprom m' = eeprom m /\ flash m' = flash m /\
    rssiFailCount m' = rssiFailCount m /\
    bootCount (rtcData m') = bootCount (rtcData m).
Proof.
  destruct (cycle_frame w m) as (m' & E & Hs & Hp & Ha & He & Hf & Hn & Hb).
  exists m'. rewrite Hs, Hp, Ha. repeat split; auto.
  apply stored_settings_ext. exact He.
Qed.

(** X3. Every cycle ends with the report of lines 231-252: it writes
    D8 and D7 with complementary levels taken from the flag, blinks the
    pattern of the two flags, writes the counters to RTC memory and logs
    the flags, in this order and as the last events of the cycle; at the
    end the two pins hold complementary levels, the counters are those
    of before with [internetUp] incremented if the flag is set and
    [apiSuccess] if both are, and RTC memory holds them. *)
Theorem cycle_ends_with_report (w : World) (m : Machine) :
  exists (apiOK : bool) (before : list Event) (m' : Machine),
    performInternetCheck w m = Ret tt m' /\
    events_since m m'
    = (before ++ report_events (internetOK m') apiOK (rtcData m'))%list /\
    levelD8 m' = (if internetOK m' then HIGH else LOW) /\
    levelD7 m' = (if internetOK m' then LOW else HIGH) /\
    levelD8 m' <> levelD7 m' /\
    rtcData m' = bump (internetOK m') apiOK (rtcData m) /\
    rtcMem m' = Some (rtcData m').
Proof.
  set (I := fun x : Machine =>
              rtcData x = rtcData m /\
              exists evs, trace x = (trace m ++ evs)%list).
  assert (Hemit : forall e x, I x -> I (emit e x)).
  { intros e x [Hd [l Hl]]. split; [exact Hd|].
    exists (l ++ [e])%list. cbn [trace emit]. rewrite Hl, app_assoc.
    reflexivity. }
  destruct (runs_result I blinkD4 m) as ([] & m0 & E0 & H0).
  { apply blinkD4_runs; [exact Hemit|subst I; frame]. }
  { split; [reflexivity|]. exists []. rewrite app_nil_r. reflexivity. }
  destruct (runs_result I (probe_phase w) m0) as (apiOK & m1 & E1 & Hd & l & Hl).
  { apply probe_phase_runs; [exact Hemit|subst I; frame|subst I; frame]. }
  { exact H0. }
  destruct (report_phase_spec apiOK m1)
    as (m' & E2 & Hok & H8 & H7 & Hrtc & Hmem & _ & Htr).
  exists apiOK, l, m'.
  split; [unfold performInternetCheck, bind; rewrite E0, E1; exact E2|].
  rewrite Hok. split.
  { unfold events_since, report_events. rewrite Htr, Hl, <- !app_assoc.
    apply drop_app_length. }
  rewrite H8, H7, Hrtc, Hd. repeat split; auto.
  - destruct (internetOK m1); discriminate.
  - rewrite <- Hd, <- Hrtc. exact Hmem.
Qed.

(** A cycle only appends to the trace. *)
Lemma cycle_appends_to_trace (w : World) (m m' : Machine) :
  performInternetCheck w m = Ret tt m' ->
  exists l, trace m' = (trace m ++ l)%list.
Proof.
  intros E.
  destruct (runs_result (fun x => exists evs, trace x = (trace m ++ evs)%list)
              (performInternetCheck w) m) as ([] & m1 & E1 & H).
  - apply performInternetCheck_runs; try (frame; fail).
    intros e x [l Hl]. exists (l ++ [e])%list. cbn [trace emit].
    rewrite Hl, app_assoc. reflexivity.
  - exists []. rewrite app_nil_r. reflexivity.
  - rewrite E in E1. injection E1 as <-. exact H.
Qed.

(** X4. Once the flag [internetOK] is set it stays set: however many
    cycles follow, none of them asks the world anything, each leaves D8
    high and D7 low, each adds one to [internetUp] and none to
    [apiSuccess]. *)
Theorem flag_once_set_stays_set (w : World) (n : nat) (m : Machine) :
  internetOK m = true ->
  exists m',
    cycles w n m = Ret tt m' /\
    internetOK m' = true /\
    clock m' = clock m /\
    pings (events_since m m') = 0%nat /\
    api_requests (events_since m m') = 0%nat /\
    internetUp (rtcData m') = Nat.iter n u32_incr (internetUp (rtcData m)) /\
    apiSuccess (rtcData m') = apiSuccess (rtcData m) /\
    ((0 < n)%nat -> levelD8 m' = HIGH /\ levelD7 m' = LOW).
Proof.
  intros Hflag.
  assert (Hgen : forall n m0 evs,
             internetOK m0 = true ->
             trace m0 = (trace m ++ evs)%list ->
             exists m' evs',
               cycles w n m0 = Ret tt m' /\
               internetOK m' = true /\ clock m' = clock m0 /\
               trace m' = (trace m0 ++ evs')%list /\
               pings evs' = 0%nat /\ api_requests evs' = 0%nat /\
               internetUp (rtcData m')
               = Nat.iter n u32_incr (internetUp (rtcData m0)) /\
               apiSuccess (rtcData m') = apiSuccess (rtcData m0) /\
               ((0 < n)%nat -> levelD8 m' = HIGH /\ levelD7 m' = LOW)).
  { clear n. induction n as [|n IH]; intros m0 evs H0 T0.
    - exists m0, []. rewrite app_nil_r. cbn. repeat split; auto; lia.
    - destruct (stale_cycle w m0 H0)
        as (m1 & E1 & C1 & F1 & L8 & L7 & D1 & Ev1).
      assert (T1 : exists l, trace m1 = (trace m0 ++ l)%list /\
                             pings l = 0%nat /\ api_requests l = 0%nat).
      { destruct (cycle_appends_to_trace w m0 m1 E1) as (l & Hl).
        exists l. split; [exact Hl|].
        unfold events_since in Ev1. rewrite Hl, drop_app_length in Ev1.
        rewrite Ev1. split; reflexivity. }
      destruct T1 as (l1 & T1 & P1 & G1).
      destruct (IH m1 (evs ++ l1)%list F1) as
        (m' & l2 & E & F & C & T & P & G & U & A & L).
      { rewrite T1, T0, app_assoc. reflexivity. }
      exists m', (l1 ++ l2)%list. cbn [cycles]. unfold bind. rewrite E1.
      split; [exact E|]. split; [exact F|]. split; [congruence|].
      split; [rewrite T, T1, app_assoc; reflexivity|].
      split; [rewrite pings_app; lia|].
      split; [rewrite api_requests_app; lia|].
      split.
      { rewrite U, D1. cbn [internetUp bump]. symmetry.
        apply Nat.iter_succ_r. }
      split; [rewrite A, D1; reflexivity|].
      intros _. destruct n as [|n'].
      + cbn in E. injection E as <-. auto.
      + apply L. lia. }
  destruct (Hgen n m [] Hflag) as (m' & evs' & E & F & C & T & P & G & U & A & L).
  { rewrite app_nil_r. reflexivity. }
  exists m'. unfold events_since. rewrite T, drop_app_length.
  repeat split; auto; apply L; assumption.
Qed.

Lemma flag_once_set_stays_set_witness :
  exists m',
    cycles (world_up_until 2) 5 after_first_cycle = Ret tt m' /\
    internetOK m' = true /\ clock m' = clock after_first_cycle.
Proof.
  destruct (flag_once_set_stays_set (world_up_until 2) 5 after_first_cycle
              eq_refl) as (m' & E & F & C & _).
  exists m'. repeat split; assumption.
Defined.

(** ** Fresh cycles, by what the world answers *)

(** The machine after an attempt in which neither host answers. *)
Lemma failed_round (w : World) (fuel : nat) (p a : Z) (ok : bool) (m : Machine) :
  p < 3 -> internetOK m = false ->
  ping_answer w (clock m) "www.google.com" = false ->
  ping_answer w (S (clock m)) "www.yahoo.com" = false ->
  internet_loop w (S fuel) p a ok m
  = internet_loop w fuel (p + 1) a ok
      (let m3 := advance (emit (ev_pingHost "www.yahoo.com" false)
                   (advance (emit (ev_pingHost "www.google.com" false)
                      (emit (ev_internetAttempt (p + 1)) m)))) in
       if p + 1 <? 3 then emit (ev_delay retryDelay) m3 else m3).
Proof.
  intros Hp Hflag Hg Hy. rewrite internet_loop_unfold, Hflag.
  destruct (Z.ltb_spec p maxRetries) as [_|H]; [|unfold maxRetries in H; lia].
  cbn [andb negb]. rewrite internet_body_run. cbv zeta. rewrite Hg, Hy.
  reflexivity.
Qed.

(** The loops when the first host answers and the API answers at once. *)
Lemma found_at_once (w : World) (fuel : nat) (m : Machine) :
  internetOK m = false ->
  ping_answer w (clock m) "www.google.com" = true ->
  http_answer w (S (clock m)) (apiURL m) = true ->
  internet_loop w (S fuel) 0 0 false m
  = Ret (1, 1, true)
        (advance (emit (ev_httpGET (apiURL m) true)
           (emit (ev_apiAttempt 1)
              (set_internetOK true
                 (advance (emit (ev_pingHost "www.google.com" true)
                    (emit (ev_internetAttempt 1) m))))))).
Proof.
  intros Hflag Hg Ha. rewrite internet_loop_unfold, Hflag.
  change ((0 <? maxRetries) && negb false) with true. cbv iota.
  rewrite internet_body_run. cbv zeta. rewrite Hg.
  change loop_fuel with 3%nat. rewrite api_loop_unfold.
  change ((0 <? maxRetries) && negb false) with true. cbv iota.
  rewrite api_body_run. cbv zeta. cbn [clock apiURL set_internetOK advance emit].
  rewrite Ha. rewrite api_loop_unfold.
  change ((0 + 1 <? maxRetries) && negb true) with false. cbv iota.
  cbn [fst snd]. rewrite internet_loop_exit by reflexivity. reflexivity.
Qed.

(** X5. Any HTTP status counts as a reachable API.  In a cycle entered
    with the flag clear, if the first host answers the ping and the GET
    to the configured URL returns a positive status code, whatever it
    is, the cycle makes one attempt, one ping and one request, drives
    internet-up high, blinks twice and increments both counters. *)
Theorem any_http_status_counts (w : World) (m : Machine) :
  internetOK m = false ->
  ping_answer w (clock m) "www.google.com" = true ->
  WiFi_connected w (S (clock m)) = true ->
  http_begin w (S (clock m)) (apiURL m) = true ->
  0 < http_GET w (S (clock m)) (apiURL m) ->
  exists m',
    performInternetCheck w m = Ret tt m' /\
    events_since m m'
    = (short_blink
       ++ [ev_internetAttempt 1; ev_pingHost "www.google.com" true;
           ev_apiAttempt 1; ev_httpGET (apiURL m) true]
       ++ report_events true true (rtcData m'))%list /\
    internetOK m' = true /\ levelD8 m' = HIGH /\ levelD7 m' = LOW /\
    rtcData m' = mkUptime (bootCount (rtcData m))
                          (u32_incr (internetUp (rtcData m)))
                          (u32_incr (apiSuccess (rtcData m))).
Proof.
  intros Hflag Hg Hc Hb Hcode.
  assert (Ha : http_answer w (S (clock m)) (apiURL m) = true).
  { unfold http_answer. rewrite Hc, Hb. cbn. apply Z.ltb_lt. exact Hcode. }
  assert (E0 : blinkD4 m
               = Ret tt (emit (ev_digitalWrite pinD4 LOW)
                           (set_level pinD4 LOW
                              (emit (ev_delay 100)
                                 (emit (ev_digitalWrite pinD4 HIGH)
                                    (set_level pinD4 HIGH m))))))
    by reflexivity.
  set (m0 := emit (ev_digitalWrite pinD4 LOW) _) in E0.
  pose proof (found_at_once w 2 m0 Hflag Hg Ha) as E1.
  set (m1 := advance (emit (ev_httpGET (apiURL m0) true) _)) in E1.
  destruct (report_phase_spec true m1)
    as (m' & E2 & Hok & H8 & H7 & Hrtc & _ & _ & Htr).
  change (internetOK m1) with true in *.
  exists m'. split.
  { unfold performInternetCheck, probe_phase, bind.
    change loop_fuel with 3%nat. rewrite E0, E1. exact E2. }
  split.
  { unfold events_since, report_events. rewrite Htr. subst m1 m0.
    cbn [trace emit advance set_level set_internetOK apiURL].
    rewrite <- !app_assoc. apply drop_app_length. }
  repeat split; auto.
Qed.

Lemma any_http_status_counts_witness :
  let w := mkWorld (fun _ _ => true) (fun _ _ => true) (fun _ _ => true)
                   (fun _ => true) (fun _ _ => true) (fun _ _ => 500) in
  exists m',
    performInternetCheck w (boot_machine erased_flash None) = Ret tt m' /\
    rtcData m' = mkUptime 0 1 1 /\ levelD8 m' = HIGH.
Proof.
  intros w.
  destruct (any_http_status_counts w (boot_machine erased_flash None)
              eq_refl eq_refl eq_refl eq_refl ltac:(cbn; lia))
    as (m' & E & _ & _ & H8 & _ & Hd).
  exists m'. repeat split; assumption.
Defined.

(** X6. With the flag clear and no host answering the six pings, the
    cycle makes exactly three attempts with a delay of [retryDelay]
    after the first and after the second only, asks nothing of the API,
    drives internet-down high and internet-up low, blinks three times
    and leaves the counters as they were. *)
Theorem unreachable_internet_cycle (w : World) (m : Machine) :
  internetOK m = false ->
  (forall t host, (clock m <= t < clock m + 6)%nat ->
                  ping_answer w t host = false) ->
  exists m',
    performInternetCheck w m = Ret tt m' /\
    events_since m m'
    = (short_blink
       ++ [ev_internetAttempt 1;
           ev_pingHost "www.google.com" false; ev_pingHost "www.yahoo.com" false;
           ev_delay retryDelay;
           ev_internetAttempt 2;
           ev_pingHost "www.google.com" false; ev_pingHost "www.yahoo.com" false;
           ev_delay retryDelay;
           ev_internetAttempt 3;
           ev_pingHost "www.google.com" false; ev_pingHost "www.yahoo.com" false]
       ++ report_events false false (rtcData m'))%list /\
    internetOK m' = false /\ levelD8 m' = LOW /\ levelD7 m' = HIGH /\
    (bootCount (rtcData m'), internetUp (rtcData m'), apiSuccess (rtcData m'))
    = (bootCount (rtcData m), internetUp (rtcData m), apiSuccess (rtcData m)) /\
    rtcMem m' = Some (rtcData m').
Proof.
  intros Hflag Hdown.
  assert (E0 : blinkD4 m
               = Ret tt (emit (ev_digitalWrite pinD4 LOW)
                           (set_level pinD4 LOW
                              (emit (ev_delay 100)
                                 (emit (ev_digitalWrite pinD4 HIGH)
                                    (set_level pinD4 HIGH m))))))
    by reflexivity.
  set (m0 := emit (ev_digitalWrite pinD4 LOW) _) in E0.
  assert (C0 : clock m0 = clock m) by reflexivity.
  pose proof (failed_round w 2 0 0 false m0 ltac:(lia) Hflag) as R1.
  rewrite C0 in R1.
  specialize (R1 (Hdown (clock m) "www.google.com" ltac:(lia))
                 (Hdown (S (clock m)) "www.yahoo.com" ltac:(lia))).
  cbv zeta in R1. change (0 + 1 <? 3) with true in R1. cbv iota in R1.
  set (m1 := emit (ev_delay retryDelay) _) in R1.
  assert (C1 : clock m1 = S (S (clock m))) by reflexivity.
  pose proof (failed_round w 1 (0 + 1) 0 false m1 ltac:(lia) Hflag) as R2.
  rewrite C1 in R2.
  specialize (R2 (Hdown (S (S (clock m))) "www.google.com" ltac:(lia))
                 (Hdown (S (S (S (clock m)))) "www.yahoo.com" ltac:(lia))).
  cbv zeta in R2. change (0 + 1 + 1 <? 3) with true in R2. cbv iota in R2.
  set (m2 := emit (ev_delay retryDelay) _) in R2.
  assert (C2 : clock m2 = S (S (S (S (clock m))))) by reflexivity.
  pose proof (failed_round w 0 (0 + 1 + 1) 0 false m2 ltac:(lia) Hflag) as R3.
  rewrite C2 in R3.
  specialize (R3 (Hdown (S (S (S (S (clock m))))) "www.google.com" ltac:(lia))
                 (Hdown (S (S (S (S (S (clock m)))))) "www.yahoo.com"
                        ltac:(lia))).
  cbv zeta in R3. change (0 + 1 + 1 + 1 <? 3) with false in R3. cbv iota in R3.
  set (m3 := advance (emit (ev_pingHost "www.yahoo.com" false) _)) in R3.
  rewrite (internet_loop_unfold w 0) in R3.
  change ((0 + 1 + 1 + 1 <? maxRetries) && negb (internetOK m3)) with false in R3.
  cbv iota in R3.
  destruct (report_phase_spec false m3)
    as (m' & E2 & Hok & H8 & H7 & Hrtc & Hmem & _ & Htr).
  change (internetOK m3) with (internetOK m) in *. rewrite Hflag in *.
  exists m'. split.
  { unfold performInternetCheck, probe_phase, bind.
    change loop_fuel with 3%nat. rewrite E0, R1, R2, R3. exact E2. }
  split.
  { unfold events_since, report_events. rewrite Htr. subst m3 m2 m1 m0.
    cbn [trace emit advance set_level].
    rewrite <- !app_assoc. apply drop_app_length. }
  repeat split; auto.
  rewrite Hrtc. reflexivity.
Qed.

Lemma unreachable_internet_cycle_witness :
  exists m',
    performInternetCheck (world_up_until 0) (boot_machine erased_flash None)
    = Ret tt m' /\
    levelD7 m' = HIGH /\ internetOK m' = false.
Proof.
  destruct (unreachable_internet_cycle (world_up_until 0)
              (boot_machine erased_flash None) eq_refl
              (fun t host _ => world_down_after 0 t host (Nat.le_0_l t)))
    as (m' & E & _ & F & _ & H7 & _).
  exists m'. repeat split; assumption.
Defined.

(** X7. In a cycle entered with the flag clear the flag ends up set
    exactly when a ping of this cycle was answered; internet-up is then
    high and [internetUp] incremented, and otherwise internet-down is
    high and [internetUp] unchanged. *)
Theorem fresh_cycle_reports_probes (w : World) (m : Machine) :
  internetOK m = false ->
  exists m',
    performInternetCheck w m = Ret tt m' /\
    (1 <= internet_attempts (events_since m m') <= 3)%nat /\
    ((0 < successful_pings (events_since m m'))%nat ->
     internetOK m' = true /\ levelD8 m' = HIGH /\ levelD7 m' = LOW /\
     internetUp (rtcData m') = u32_incr (internetUp (rtcData m))) /\
    (successful_pings (events_since m m') = 0%nat ->
     internetOK m' = false /\ levelD8 m' = LOW /\ levelD7 m' = HIGH /\
     internetUp (rtcData m') = internetUp (rtcData m) /\
     apiSuccess (rtcData m') = apiSuccess (rtcData m)).
Proof.
  intros Hflag.
  destruct (fresh_cycle w m Hflag) as (m' & E & Hatt & Hiff).
  destruct (performInternetCheck_spec w m)
    as (apiOK & m'' & E' & _ & _ & Hd & _ & H8 & H7 & _).
  rewrite E in E'. injection E' as <-.
  exists m'. split; [exact E|]. split; [exact Hatt|].
  rewrite H8, H7, Hd. split.
  - intros Hs. apply Hiff in Hs. rewrite Hs. cbn. auto.
  - intros Hs. destruct (internetOK m') eqn:F.
    + pose proof (proj1 Hiff eq_refl). lia.
    + cbn. auto.
Qed.

Lemma fresh_cycle_reports_probes_witness :
  exists m',
    performInternetCheck world_up (boot_machine erased_flash None) = Ret tt m' /\
    (1 <= internet_attempts (events_since (boot_machine erased_flash None) m')
     <= 3)%nat.
Proof.
  destruct (fresh_cycle_reports_probes world_up
              (boot_machine erased_flash None) eq_refl)
    as (m' & E & H & _).
  exists m'. split; assumption.
Defined.

(** ** The settings store, cell by cell *)

Lemma loadString_loop_bounded (data : list ascii) (addr n i : nat) :
  (String.length (loadString_loop data addr i n) <= n)%nat /\
  plain (loadString_loop data addr i n) = true.
Proof.
  revert i. induction n as [|n IH]; intros i; cbn [loadString_loop].
  - split; [cbn; lia|reflexivity].
  - destruct (is_terminator (EEPROM_read data (addr + i))) eqn:C.
    + split; [cbn; lia|reflexivity].
    + destruct (IH (S i)) as [Hl Hp]. cbn [String.length plain].
      rewrite C, Hp. split; [lia|reflexivity].
Qed.

(** X8. Whatever the EEPROM holds, [loadString] returns at most [len]
    characters, none of which is the byte 0 or the byte 255; on a buffer
    whose slot starts with such a byte (erased or zeroed storage) it
    returns the empty string. *)
Theorem loaded_string_is_clean (addr len : nat) (m : Machine) :
  (String.length (loadString addr len m) <= len)%nat /\
  plain (loadString addr len m) = true /\
  (is_terminator (EEPROM_read (eeprom m) addr) = true ->
   loadString addr len m = EmptyString).
Proof.
  unfold loadString.
  destruct (loadString_loop_bounded (eeprom m) addr len 0) as [Hl Hp].
  repeat split; [exact Hl|exact Hp|].
  intros H. destruct len as [|len]; [reflexivity|].
  cbn [loadString_loop]. rewrite Nat.add_0_r, H. reflexivity.
Qed.

Lemma loaded_string_is_clean_witness :
  loadString EEPROM_SSID 32 (set_eeprom erased_flash (boot_machine erased_flash None))
  = EmptyString.
Proof.
  exact (proj2 (proj2 (loaded_string_is_clean EEPROM_SSID 32
                         (set_eeprom erased_flash (boot_machine erased_flash None))))
           eq_refl).
Defined.

(** X9. [saveString] writes its slot and nothing else: cell [addr+k] of
    the slot holds the [k]-th character of the string, or 0 from the end
    of the string on (what an earlier, longer value left there is
    wiped); every cell outside the slot keeps its value; the buffer
    keeps its length and is committed to flash. *)
Theorem saveString_cells (str : string) (addr len : nat) (m : Machine) :
  (addr + len <= length (eeprom m))%nat ->
  exists m',
    saveString str addr len m = Ret tt m' /\
    (forall k, (k < len)%nat ->
       EEPROM_read (eeprom m') (addr + k) = String_at str k) /\
    (forall k, (String.length str <= k < len)%nat ->
       EEPROM_read (eeprom m') (addr + k) = zero) /\
    (forall j, (j < addr \/ addr + len <= j)%nat ->
       EEPROM_read (eeprom m') j = EEPROM_read (eeprom m) j) /\
    length (eeprom m') = length (eeprom m) /\
    flash m' = eeprom m'.
Proof.
  intros Hlen. eexists. split; [apply saveString_unfold|].
  cbn [eeprom flash emit set_flash set_eeprom].
  assert (Hin : forall k, (k < len)%nat ->
            EEPROM_read (saveString_loop str addr 0 len (eeprom m)) (addr + k)
            = String_at str k).
  { intros k Hk.
    pose proof (saveString_loop_inside str addr len 0 k (eeprom m) Hk) as H.
    rewrite !Nat.add_0_r in H. apply H. exact Hlen. }
  repeat split.
  - exact Hin.
  - intros k [Hk1 Hk2]. rewrite Hin by exact Hk2.
    apply String_at_past_end. exact Hk1.
  - intros j Hj. apply saveString_loop_outside. lia.
  - apply saveString_loop_length.
Qed.

Lemma saveString_cells_witness :
  exists m',
    saveString "abc" EEPROM_PASSWORD 64
      (set_eeprom erased_flash (boot_machine erased_flash None)) = Ret tt m' /\
    EEPROM_read (eeprom m') (EEPROM_PASSWORD + 3) = zero /\
    EEPROM_read (eeprom m') 0 = ascii_of_nat 255.
Proof.
  destruct (saveString_cells "abc" EEPROM_PASSWORD 64
              (set_eeprom erased_flash (boot_machine erased_flash None))
              ltac:(cbn; lia))
    as (m' & E & _ & Hpad & Hout & _).
  exists m'. split; [exact E|]. split.
  - apply Hpad. cbn. lia.
  - rewrite Hout by (unfold EEPROM_PASSWORD; lia). reflexivity.
Defined.

(** X10. Reading a slot back after [saveString] wrote it gives the
    string cut to the width of the slot and then cut at its first byte 0
    or 255, for every string and every slot inside the buffer; reading
    a slot that does not overlap the written one gives what it gave
    before. *)
Theorem slot_read_back (str : string) (addr len addr' len' : nat) (m : Machine) :
  (addr + len <= length (eeprom m))%nat ->
  (addr' + len' <= addr \/ addr + len <= addr')%nat ->
  exists m',
    saveString str addr len m = Ret tt m' /\
    loadString addr len m' = until_terminator (truncated len str) /\
    loadString addr' len' m' = loadString addr' len' m.
Proof.
  intros Hlen Hdisj. eexists. split; [apply saveString_unfold|].
  unfold loadString. cbn [eeprom emit set_flash set_eeprom].
  split; [apply load_after_save; exact Hlen|].
  apply load_after_save_other. exact Hdisj.
Qed.

Lemma slot_read_back_witness :
  exists m',
    saveString "net" EEPROM_SSID 32
      (set_eeprom erased_flash (boot_machine erased_flash None)) = Ret tt m' /\
    loadString EEPROM_SSID 32 m' = "net" /\
    loadString EEPROM_PASSWORD 64 m' = EmptyString.
Proof.
  destruct (slot_read_back "net" EEPROM_SSID 32 EEPROM_PASSWORD 64
              (set_eeprom erased_flash (boot_machine erased_flash None))
              ltac:(cbn; lia)
              ltac:(right; unfold EEPROM_SSID, EEPROM_PASSWORD; lia))
    as (m' & E & H1 & H2).
  exists m'. split; [exact E|]. split; [exact H1|].
  rewrite H2. reflexivity.
Defined.

Lemma stored_fields_clean (m : Machine) :
  plain (loadString EEPROM_SSID 32 m) = true /\
  plain (loadString EEPROM_PASSWORD 64 m) = true /\
  plain (loadString EEPROM_API_URL 128 m) = true /\
  (String.length (loadString EEPROM_SSID 32 m) <= 32)%nat /\
  (String.length (loadString EEPROM_PASSWORD 64 m) <= 64)%nat /\
  (String.length (loadString EEPROM_API_URL 128 m) <= 128)%nat.
Proof.
  unfold loadString.
  destruct (loadString_loop_bounded (eeprom m) EEPROM_SSID 32 0).
  destruct (loadString_loop_bounded (eeprom m) EEPROM_PASSWORD 64 0).
  destruct (loadString_loop_bounded (eeprom m) EEPROM_API_URL 128 0).
  repeat split; assumption.
Qed.

(** X11. Saving the settings that were just read changes nothing that
    can be read: for any content of a 256-byte buffer, writing the three
    loaded fields back and loading again gives the same three fields. *)
Theorem resave_is_identity (m : Machine) :
  length (eeprom m) = EEPROM_SIZE ->
  exists m',
    save_settings (loadString EEPROM_SSID 32 m) (loadString EEPROM_PASSWORD 64 m)
                  (loadString EEPROM_API_URL 128 m) m = Ret tt m' /\
    stored_settings m' = stored_settings m.
Proof.
  intros Hlen.
  destruct (stored_fields_clean m) as (Hs & Hp & Ha & Ls & Lp & La).
  destruct (save_then_load_fields _ _ _ m Hlen Hs Hp Ha) as (m' & E & Hst & _).
  exists m'. split; [exact E|].
  rewrite Hst, !truncated_short by assumption. reflexivity.
Qed.

Lemma resave_is_identity_witness :
  exists m',
    save_settings EmptyString EmptyString EmptyString
      (set_eeprom erased_flash (boot_machine erased_flash None)) = Ret tt m' /\
    stored_settings m' = (EmptyString, EmptyString, EmptyString).
Proof.
  destruct (resave_is_identity
              (set_eeprom erased_flash (boot_machine erased_flash None)) eq_refl)
    as (m' & E & H).
  exists m'. split; [exact E|exact H].
Defined.

(** ** Settings across a restart *)

Lemma loadString_nonempty (addr n : nat) (m : Machine) :
  is_terminator (EEPROM_read (eeprom m) addr) = false ->
  exists c rest, loadString addr (S n) m = String c rest.
Proof.
  intros H. unfold loadString.
  change (loadString_loop (eeprom m) addr 0 (S n))
    with (if is_terminator (EEPROM_read (eeprom m) (addr + 0)) then EmptyString
          else String (EEPROM_read (eeprom m) (addr + 0))
                      (loadString_loop (eeprom m) addr 1 n)).
  rewrite Nat.add_0_r, H. eauto.
Qed.

(** A boot that finds a name in the store takes the three fields as
    they are read. *)
Lemma setup_settings_stored (fl : list ascii) (rtc : option UptimeData) :
  is_terminator (EEPROM_read fl EEPROM_SSID) = false ->
  setup_settings (boot_machine fl rtc)
  = Ret tt (set_config
              (loadString EEPROM_SSID 32 (set_eeprom fl (boot_machine fl rtc)))
              (loadString EEPROM_PASSWORD 64 (set_eeprom fl (boot_machine fl rtc)))
              (loadString EEPROM_API_URL 128 (set_eeprom fl (boot_machine fl rtc)))
              (set_eeprom fl (boot_machine fl rtc))).
Proof.
  intros H.
  set (mb := set_eeprom fl (boot_machine fl rtc)).
  destruct (loadString_nonempty EEPROM_SSID 31 mb H) as (c & rest & E).
  cbv beta iota delta [setup_settings bind get modify EEPROM_begin].
  change (set_eeprom (flash (boot_machine fl rtc)) (boot_machine fl rtc))
    with mb.
  cbn [ssid set_config]. rewrite E. reflexivity.
Qed.

Lemma stored_settings_after_boot (fl : list ascii) (rtc : option UptimeData) :
  is_terminator (EEPROM_read fl EEPROM_SSID) = false ->
  exists m',
    setup_settings (boot_machine fl rtc) = Ret tt m' /\
    (ssid m', password m', apiURL m') = stored_settings m' /\
    eeprom m' = fl /\ flash m' = fl /\ trace m' = [].
Proof.
  intros H. eexists. split; [apply setup_settings_stored; exact H|].
  cbn [ssid password apiURL eeprom flash trace set_config set_eeprom
       boot_machine].
  repeat split.
Qed.



(** X13. The whole path of a submission, in either mode: the handler
    stores the three fields and restarts the device; the next boot reads
    them from flash and, the name not being empty, keeps them (each cut
    to the width of its slot) as the configuration in use. *)
Theorem submitted_settings_in_use (args : Args) (m : Machine)
  (rtc : option UptimeData) :
  let s := server_arg args "ssid" in
  let p := server_arg args "password" in
  let a := server_arg args "api_url" in
  length (eeprom m) = EEPROM_SIZE ->
  server_hasArg args "ssid" = true ->
  plain s = true -> plain p = true -> plain a = true ->
  truncated 32 s <> EmptyString ->
  exists m1 m2,
    configMode_save args m = Reboot m1 /\
    normalSetup_save args m = Reboot m1 /\
    setup_settings (boot_machine (flash m1) rtc) = Ret tt m2 /\
    (ssid m2, password m2, apiURL m2)
    = (truncated 32 s, truncated 64 p, truncated 128 a).
Proof.
  intros s p a Hlen Hhas Hs Hp Ha Hne.
  destruct (save_then_load_fields s p a (set_config s p a m) Hlen Hs Hp Ha)
    as (m3 & E3 & Hst & Hfl).
  assert (Ehandler :
            (modify (set_config s p a) ;;
             s' <- get ssid ;; saveString s' EEPROM_SSID 32 ;;
             p' <- get password ;; saveString p' EEPROM_PASSWORD 64 ;;
             a' <- get apiURL ;; saveString a' EEPROM_API_URL 128 ;;
             server_send 200 "text/html" ;;
             delay 1000 ;;
             @ESP_restart unit) m
            = Reboot (emit ev_restart
                        (emit (ev_delay 1000)
                           (emit (ev_send 200 "text/html") m3)))).
  { rewrite handler_stores, E3. reflexivity. }
  set (m1 := emit ev_restart _) in Ehandler.
  set (mb := set_eeprom (flash m1) (boot_machine (flash m1) rtc)).
  assert (Hmb : stored_settings mb = stored_settings m3).
  { apply stored_settings_ext. subst mb m1. cbn [eeprom set_eeprom flash emit].
    exact Hfl. }
  rewrite Hst in Hmb. unfold stored_settings in Hmb.
  injection Hmb as Hs' Hp' Ha'.
  exists m1, (set_config (truncated 32 s) (truncated 64 p) (truncated 128 a) mb).
  split; [unfold configMode_save; rewrite Hhas; exact Ehandler|].
  split; [unfold normalSetup_save; rewrite Hhas; exact Ehandler|].
  split; [|reflexivity].
  cbv beta iota delta [setup_settings bind get modify EEPROM_begin].
  change (set_eeprom (flash (boot_machine (flash m1) rtc))
                     (boot_machine (flash m1) rtc)) with mb.
  rewrite Hs', Hp', Ha'. cbn [ssid set_config].
  destruct (truncated 32 s) as [|c rest] eqn:Et; [contradiction|].
  reflexivity.
Qed.

Lemma submitted_settings_in_use_witness :
  let args := [("ssid", "home"); ("password", "secret");
               ("api_url", "http://example.org/")] in
  exists m1 m2,
    configMode_save args (set_eeprom erased_flash (boot_machine erased_flash None))
    = Reboot m1 /\
    setup_settings (boot_machine (flash m1) None) = Ret tt m2 /\
    (ssid m2, password m2, apiURL m2)
    = ("home", "secret", "http://example.org/").
Proof.
  intros args.
  destruct (submitted_settings_in_use args
              (set_eeprom erased_flash (boot_machine erased_flash None)) None
              eq_refl eq_refl eq_refl eq_refl eq_refl
              ltac:(discriminate))
    as (m1 & m2 & E1 & _ & E2 & H).
  exists m1, m2. repeat split; assumption.
Defined.

(** The first cell of the name slot after the three writes. *)
Lemma save_settings_first_cell (s p a : string) (m : Machine) :
  length (eeprom m) = EEPROM_SIZE ->
  exists m',
    save_settings s p a m = Ret tt m' /\
    EEPROM_read (eeprom m') EEPROM_SSID = String_at s 0 /\
    flash m' = eeprom m' /\ length (eeprom m') = EEPROM_SIZE /\
    rtcMem m' = rtcMem m /\
    trace m' = (trace m ++ [ev_eepromCommit; ev_eepromCommit; ev_eepromCommit])%list.
Proof.
  intros Hlen. eexists. split; [reflexivity|].
  cbn [eeprom flash rtcMem trace emit set_flash set_eeprom].
  unfold EEPROM_SSID, EEPROM_PASSWORD, EEPROM_API_URL, EEPROM_SIZE in *.
  repeat split.
  - rewrite !saveString_loop_outside by lia.
    apply (saveString_loop_inside s 0 32 0 0 (eeprom m)); lia.
  - rewrite !saveString_loop_length. exact Hlen.
  - rewrite <- !app_assoc. reflexivity.
Qed.

(** X14. A submission whose network name is present but empty is
    stored and restarts the device like any other; the next boot finds
    the name slot empty and puts the first-boot triple in all three
    fields, so the secret and the URL that were submitted with the empty
    name are lost. *)
Theorem empty_name_submission_restores_defaults (args : Args) (m : Machine) :
  length (eeprom m) = EEPROM_SIZE ->
  server_hasArg args "ssid" = true ->
  server_arg args "ssid" = EmptyString ->
  exists m1 m2,
    configMode_save args m = Reboot m1 /\
    normalSetup_save args m = Reboot m1 /\
    setup_settings (restarted m1) = Ret tt m2 /\
    (ssid m2, password m2, apiURL m2)
    = (firstboot_ssid, firstboot_password, firstboot_apiURL) /\
    stored_settings m2
    = (firstboot_ssid, firstboot_password, firstboot_apiURL).
Proof.
  intros Hlen Hhas Hname.
  set (p := server_arg args "password"). set (a := server_arg args "api_url").
  destruct (save_settings_first_cell EmptyString p a
              (set_config EmptyString p a m) Hlen)
    as (m3 & E3 & Hcell & Hfl & Hlen3 & _).
  assert (Ehandler :
            (modify (set_config EmptyString p a) ;;
             s' <- get ssid ;; saveString s' EEPROM_SSID 32 ;;
             p' <- get password ;; saveString p' EEPROM_PASSWORD 64 ;;
             a' <- get apiURL ;; saveString a' EEPROM_API_URL 128 ;;
             server_send 200 "text/html" ;;
             delay 1000 ;;
             @ESP_restart unit) m
            = Reboot (emit ev_restart
                        (emit (ev_delay 1000)
                           (emit (ev_send 200 "text/html") m3)))).
  { rewrite handler_stores, E3. reflexivity. }
  set (m1 := emit ev_restart _) in Ehandler.
  assert (Hempty : is_terminator (EEPROM_read (flash m1) EEPROM_SSID) = true).
  { subst m1. cbn [flash emit]. rewrite Hfl, Hcell. reflexivity. }
  destruct (setup_settings_empty (flash m1) (rtcMem m1) Hempty)
    as (m0 & E0 & Eq).
  destruct (save_settings_spec firstboot_ssid firstboot_password
              firstboot_apiURL
              (set_config firstboot_ssid firstboot_password firstboot_apiURL m0))
    as (m2 & E2 & Hst & _ & _ & Hcfg).
  { cbn [eeprom set_config]. rewrite E0. subst m1. cbn [flash emit].
    rewrite Hfl. exact Hlen3. }
  exists m1, m2.
  split; [unfold configMode_save; rewrite Hhas, Hname; exact Ehandler|].
  split; [unfold normalSetup_save; rewrite Hhas, Hname; exact Ehandler|].
  split; [unfold restarted; rewrite Eq; exact E2|].
  split; [exact Hcfg|exact Hst].
Qed.

Lemma empty_name_submission_restores_defaults_witness :
  let args := [("ssid", EmptyString); ("password", "secret");
               ("api_url", "http://example.org/")] in
  exists m1 m2,
    configMode_save args (set_eeprom erased_flash (boot_machine erased_flash None))
    = Reboot m1 /\
    setup_settings (restarted m1) = Ret tt m2 /\
    password m2 = firstboot_password.
Proof.
  intros args.
  destruct (empty_name_submission_restores_defaults args
              (set_eeprom erased_flash (boot_machine erased_flash None))
              eq_refl eq_refl eq_refl)
    as (m1 & m2 & E1 & _ & E2 & Hcfg & _).
  exists m1, m2. split; [exact E1|]. split; [exact E2|].
  injection Hcfg as _ Hp _. exact Hp.
Defined.

(** X15. The route /reset answers 200 first, then stores the factory
    triple with three commits, waits a second and restarts; the boot
    that follows reads that triple from flash, uses it as its
    configuration and writes nothing more. *)
Theorem reset_route_then_boot (m : Machine) :
  length (eeprom m) = EEPROM_SIZE ->
  exists m1 m2,
    reset_handler m = Reboot m1 /\
    events_since m m1
    = [ev_send 200 "text/html"; ev_eepromCommit; ev_eepromCommit;
       ev_eepromCommit; ev_delay 1000; ev_restart] /\
    rtcMem m1 = rtcMem m /\
    setup_settings (restarted m1) = Ret tt m2 /\
    (ssid m2, password m2, apiURL m2)
    = ("myssid", "mypassword", "http://login.npu.ac.th/login?123456") /\
    flash m2 = flash m1 /\ trace m2 = [].
Proof.
  intros Hlen.
  destruct (save_settings_spec "myssid" "mypassword"
              "http://login.npu.ac.th/login?123456"
              (emit (ev_send 200 "text/html") m) Hlen)
    as (m3 & E3 & Hst & Hfl & _).
  destruct (save_settings_first_cell "myssid" "mypassword"
              "http://login.npu.ac.th/login?123456"
              (emit (ev_send 200 "text/html") m) Hlen)
    as (m3' & E3' & Hcell & _ & _ & Hrtc & Htr).
  rewrite E3 in E3'. injection E3' as <-.
  set (m1 := emit ev_restart (emit (ev_delay 1000) m3)).
  assert (Hname : is_terminator (EEPROM_read (flash m1) EEPROM_SSID) = false).
  { subst m1. cbn [flash emit]. rewrite Hfl, Hcell. reflexivity. }
  destruct (stored_settings_after_boot (flash m1) (rtcMem m1) Hname)
    as (m2 & E2 & Hcfg & He & Hf & Ht).
  exists m1, m2.
  split.
  { unfold reset_handler, server_send, bind, modify.
    change handleResetSettings
      with (save_settings "myssid" "mypassword"
              "http://login.npu.ac.th/login?123456").
    rewrite E3. reflexivity. }
  split.
  { unfold events_since. subst m1. cbn [trace emit]. rewrite Htr.
    cbn [trace emit]. rewrite <- !app_assoc. apply drop_app_length. }
  split; [exact Hrtc|].
  split; [exact E2|].
  split; [|split; [exact Hf|exact Ht]].
  rewrite Hcfg. transitivity (stored_settings m3); [|rewrite Hst; reflexivity].
  apply stored_settings_ext.
  rewrite He. subst m1. cbn [flash emit]. exact Hfl.
Qed.

Lemma reset_route_then_boot_witness :
  exists m1 m2,
    reset_handler (set_eeprom erased_flash (boot_machine erased_flash None))
    = Reboot m1 /\
    setup_settings (restarted m1) = Ret tt m2 /\
    ssid m2 = "myssid".
Proof.
  destruct (reset_route_then_boot
              (set_eeprom erased_flash (boot_machine erased_flash None)) eq_refl)
    as (m1 & m2 & E1 & _ & _ & E2 & Hcfg & _).
  exists m1, m2. split; [exact E1|]. split; [exact E2|].
  injection Hcfg as Hs _ _. exact Hs.
Defined.

(** ** Link supervisor, any sequence of ticks *)

Lemma reconnects_app (l1 l2 : list Event) :
  reconnects (l1 ++ l2) = (reconnects l1 + reconnects l2)%nat.
Proof. unfold reconnects. rewrite List.filter_app, length_app. reflexivity. Qed.

(** One tick that finds the link up. *)
Lemma connected_tick (t : Tick) (m : Machine) :
  tick_connected t = true -> 0 <= rssiFailCount m ->
  exists m' evs,
    checkWiFiHealth t m = Ret tt m' /\
    trace m' = (trace m ++ evs)%list /\
    0 <= rssiFailCount m' /\
    6 * Z.of_nat (reconnects evs) + rssiFailCount m'
    <= rssiFailCount m + (if is_weak t then 1 else 0) /\
    (evs = [] \/ evs = reconnect_action (ssid m) (password m)) /\
    (ssid m', password m', apiURL m') = (ssid m, password m, apiURL m) /\
    eeprom m' = eeprom m /\ flash m' = flash m /\
    rtcData m' = rtcData m /\ rtcMem m' = rtcMem m /\
    internetOK m' = internetOK m.
Proof.
  intros Hup Hc. unfold checkWiFiHealth, bind, when, is_weak.
  rewrite Hup. cbn [negb ret].
  destruct (Z.ltb_spec (tick_RSSI t) (-90)) as [Hw|Hs];
    cbv beta iota; unfold modify, get; cbn [rssiFailCount set_rssiFailCount].
  - destruct (Z.leb_spec 6 (rssiFailCount m + 1)) as [Hfull|Hnot].
    + eexists. exists (reconnect_action (ssid m) (password m)).
      split; [reflexivity|]. cbn.
      rewrite <- !app_assoc. repeat split; auto; lia.
    + eexists. exists []. split; [reflexivity|]. cbn.
      rewrite app_nil_r. repeat split; auto; lia.
  - eexists. exists []. split; [reflexivity|]. cbn.
    rewrite app_nil_r. repeat split; auto; lia.
Qed.

(** A tick that finds the link down restarts the device and does nothing
    else, whatever the signal and the streak. *)
Lemma disconnected_tick (t : Tick) (m : Machine) :
  tick_connected t = false ->
  checkWiFiHealth t m = Reboot (emit ev_restart m).
Proof.
  intros Hdown. unfold checkWiFiHealth, bind, when. rewrite Hdown.
  reflexivity.
Qed.


Lemma supervise_connected (ts : list Tick) :
  forall m,
    Forall (fun t => tick_connected t = true) ts ->
    0 <= rssiFailCount m ->
    exists m' evs,
      supervise ts m = Ret tt m' /\
      trace m' = (trace m ++ evs)%list /\
      0 <= rssiFailCount m' /\
      6 * Z.of_nat (reconnects evs) + rssiFailCount m'
      <= rssiFailCount m + Z.of_nat (weak_readings ts) /\
      (ssid m', password m', apiURL m') = (ssid m, password m, apiURL m) /\
      eeprom m' = eeprom m /\ flash m' = flash m /\
      rtcData m' = rtcData m /\ rtcMem m' = rtcMem m /\
      internetOK m' = internetOK m.
Proof.
  induction ts as [|t ts IH]; intros m Hup Hc.
  - exists m, []. cbn. rewrite app_nil_r. repeat split; auto; lia.
  - inversion Hup as [|t' ts' Ht Hts]; subst.
    destruct (connected_tick t m Ht Hc)
      as (m1 & evs1 & E1 & T1 & C1 & B1 & _ & Hcfg1 & He1 & Hf1 & Hd1 & Hr1 & Hi1).
    destruct (IH m1 Hts C1)
      as (m' & evs & E & T & C & B & Hcfg & He & Hf & Hd & Hr & Hi).
    exists m', (evs1 ++ evs)%list.
    cbn [supervise]. unfold bind. rewrite E1.
    split; [exact E|].
    split; [rewrite T, T1, app_assoc; reflexivity|].
    split; [exact C|].
    split.
    { rewrite reconnects_app. unfold weak_readings in *. cbn [List.filter].
      destruct (is_weak t); cbn [length]; lia. }
    repeat split; congruence.
Qed.

(** X16. While the link stays up, the supervisor restarts the radio at
    most once per six readings below -90 dBm: over any sequence of
    ticks, six times the number of reconnects plus the streak left over
    is at most the streak at the start plus the number of weak readings.
    The supervisor returns on every such sequence and leaves settings,
    store, counters and the internet flag alone. *)
Theorem reconnect_rate_limit (ts : list Tick) (m : Machine) :
  Forall (fun t => tick_connected t = true) ts ->
  0 <= rssiFailCount m ->
  exists m',
    supervise ts m = Ret tt m' /\
    6 * Z.of_nat (reconnects (events_since m m')) + rssiFailCount m'
    <= rssiFailCount m + Z.of_nat (weak_readings ts) /\
    0 <= rssiFailCount m' /\
    (ssid m', password m', apiURL m') = (ssid m, password m, apiURL m) /\
    stored_settings m' = stored_settings m /\ flash m' = flash m /\
    rtcData m' = rtcData m /\ rtcMem m' = rtcMem m /\
    internetOK m' = internetOK m.
Proof.
  intros Hup Hc.
  destruct (supervise_connected ts m Hup Hc)
    as (m' & evs & E & T & C & B & Hcfg & He & Hf & Hd & Hr & Hi).
  exists m'. split; [exact E|].
  split.
  { unfold events_since. rewrite T, drop_app_length. exact B. }
  repeat split; auto.
  apply stored_settings_ext. exact He.
Qed.

Lemma reconnect_rate_limit_witness :
  let ts := (repeat (mkTick true (-95)) 11 ++ [mkTick true (-60)])%list in
  exists m',
    supervise ts (boot_machine erased_flash None) = Ret tt m' /\
    (reconnects (trace m') <= 2)%nat.
Proof.
  intros ts.
  destruct (reconnect_rate_limit ts (boot_machine erased_flash None))
    as (m' & E & B & C & _).
  - unfold ts. repeat constructor.
  - cbn. lia.
  - exists m'. split; [exact E|].
    unfold events_since in B. cbn [trace boot_machine length drop] in B.
    cbn [rssiFailCount boot_machine] in B.
    change (weak_readings ts) with 11%nat in B.
    change (drop 0 (trace m')) with (trace m') in B. lia.
Defined.

(** X17. One reading at or above -90 dBm forgives the streak: up to
    five weak readings, a good one, and up to five weak readings again
    cause no reconnect, and the streak at the end counts the readings
    after the good one only. *)
Theorem good_reading_forgives_streak (ts1 ts2 : list Tick) (t : Tick)
  (m : Machine) :
  Forall weak ts1 -> Forall weak ts2 ->
  (length ts1 <= 5)%nat -> (length ts2 <= 5)%nat ->
  tick_connected t = true -> -90 <= tick_RSSI t ->
  rssiFailCount m = 0 ->
  exists m',
    supervise (ts1 ++ t :: ts2) m = Ret tt m' /\
    trace m' = trace m /\
    rssiFailCount m' = Z.of_nat (length ts2).
Proof.
  intros Hw1 Hw2 Hl1 Hl2 Hup Hgood H0.
  destruct (weak_run_counts ts1 m Hw1) as (m1 & E1 & _ & T1 & _); [lia|lia|].
  destruct (weak_run_counts ts2 (set_rssiFailCount 0 m1) Hw2)
    as (m' & E2 & C2 & T2 & _); [cbn; lia|cbn; lia|].
  exists m'. rewrite (supervise_app ts1 (t :: ts2) m m1 E1).
  cbn [supervise]. unfold bind.
  rewrite (strong_tick_resets t m1 Hup Hgood).
  split; [exact E2|]. split; [rewrite T2; exact T1|].
  rewrite C2. cbn. reflexivity.
Qed.

Lemma good_reading_forgives_streak_witness :
  let bad := mkTick true (-95) in
  exists m',
    supervise (repeat bad 5 ++ mkTick true (-70) :: repeat bad 5)%list
              (boot_machine erased_flash None) = Ret tt m' /\
    trace m' = [] /\ rssiFailCount m' = 5.
Proof.
  intros bad.
  assert (Hw : Forall weak (repeat bad 5)).
  { repeat constructor; cbn; lia. }
  exact (good_reading_forgives_streak (repeat bad 5) (repeat bad 5)
           (mkTick true (-70)) (boot_machine erased_flash None)
           Hw Hw ltac:(cbn; lia) ltac:(cbn; lia) eq_refl
           ltac:(cbn; lia) eq_refl).
Defined.

(** X18. The supervisor restarts the device at the first tick that
    finds the link down, without a disconnect or reconnect of its own
    for that tick, and looks at no later tick; it restarts the device on
    no other occasion. *)
Theorem link_loss_restarts_at_once (ts1 ts2 : list Tick) (t : Tick)
  (m : Machine) :
  Forall (fun t => tick_connected t = true) ts1 ->
  tick_connected t = false ->
  0 <= rssiFailCount m ->
  exists m1,
    supervise ts1 m = Ret tt m1 /\
    supervise (ts1 ++ t :: ts2) m = Reboot (emit ev_restart m1) /\
    flash m1 = flash m /\ rtcMem m1 = rtcMem m.
Proof.
  intros Hup Hdown Hc.
  destruct (supervise_connected ts1 m Hup Hc)
    as (m1 & evs & E & _ & _ & _ & _ & _ & Hf & _ & Hr & _).
  exists m1. split; [exact E|]. split; [|split; assumption].
  rewrite (supervise_app ts1 (t :: ts2) m m1 E).
  cbn [supervise]. unfold bind. rewrite (disconnected_tick t m1 Hdown).
  reflexivity.
Qed.

Lemma link_loss_restarts_at_once_witness :
  supervise [mkTick true (-60); mkTick false (-95); mkTick true (-95)]
            (boot_machine erased_flash None)
  = Reboot (emit ev_restart (boot_machine erased_flash None)).
Proof.
  destruct (link_loss_restarts_at_once [mkTick true (-60)]
              [mkTick true (-95)] (mkTick false (-95))
              (boot_machine erased_flash None))
    as (m1 & E1 & E & _).
  - repeat constructor.
  - reflexivity.
  - cbn. lia.
  - cbn in E1. injection E1 as <-. exact E.
Defined.

(** ** Indicator patterns *)

Lemma total_delay_pulses (n : nat) (on off : Z) :
  total_delay (pulses (S n) on off) = Z.of_nat (S n) * on + Z.of_nat n * off.
Proof.
  induction n as [|n IH].
  - cbn. lia.
  - change (pulses (S (S n)) on off)
      with ([ev_digitalWrite pinD4 HIGH; ev_delay on;
             ev_digitalWrite pinD4 LOW; ev_delay off] ++ pulses (S n) on off)%list.
    rewrite total_delay_app, IH. cbn [total_delay fold_right]. lia.
Qed.

(** The [for] loop of [blinkPattern] from index [i], [n] iterations
    left, where [i + n] is the count. *)
Lemma blinkPattern_loop_trace (count on off : Z) (n : nat) :
  forall (i : Z) (m : Machine),
    i + Z.of_nat n = count ->
    exists m',
      blinkPattern_loop count on off i n m = Ret tt m' /\
      trace m' = (trace m ++ pulses n on off)%list /\
      levelD4 m' = (match n with O => levelD4 m | S _ => LOW end) /\
      levelD7 m' = levelD7 m /\ levelD8 m' = levelD8 m /\
      clock m' = clock m /\ same_memory m m'.
Proof.
  induction n as [|n IH]; intros i m Hi.
  - exists m. cbn. rewrite app_nil_r. unfold same_memory. repeat split.
  - cbn [blinkPattern_loop]. unfold bind, digitalWrite, delay, modify, when.
    destruct (Z.ltb_spec i (count - 1)) as [Hlt|Hge].
    + destruct n as [|n]; [lia|].
      edestruct (IH (i + 1)) as (m' & E & T & L4 & L7 & L8 & C & Hmem);
        [lia| rewrite E].
      eexists. split; [reflexivity|].
      rewrite T, L7, L8, C. cbn [trace emit set_level levelD7 levelD8 clock].
      split.
      { change (pulses (S (S n)) on off)
          with ([ev_digitalWrite pinD4 HIGH; ev_delay on;
                 ev_digitalWrite pinD4 LOW; ev_delay off]
                ++ pulses (S n) on off)%list.
        rewrite <- !app_assoc. reflexivity. }
      split; [exact L4|]. repeat split; apply Hmem.
    + destruct n as [|n]; [|lia].
      eexists. split; [reflexivity|]. cbn.
      rewrite <- !app_assoc. unfold same_memory. repeat split.
Qed.

Lemma blinkPattern_trace (count on off : Z) (m : Machine) :
  exists m',
    blinkPattern count on off m = Ret tt m' /\
    trace m' = (trace m ++ pulses (Z.to_nat count) on off)%list /\
    levelD4 m' = (if 0 <? count then LOW else levelD4 m) /\
    levelD7 m' = levelD7 m /\ levelD8 m' = levelD8 m /\
    clock m' = clock m /\ same_memory m m'.
Proof.
  unfold blinkPattern.
  destruct (Z.ltb_spec 0 count) as [Hpos|Hneg].
  - destruct (blinkPattern_loop_trace count on off (Z.to_nat count) 0 m)
      as (m' & E & T & L4 & R); [lia|].
    exists m'. split; [exact E|]. split; [exact T|]. split; [|exact R].
    rewrite L4. destruct (Z.to_nat count) eqn:En; [lia|reflexivity].
  - replace (Z.to_nat count) with 0%nat by lia.
    exists m. cbn. rewrite app_nil_r. unfold same_memory. repeat split.
Qed.

(** X19. For arguments in the range of a non-negative [int] for the
    two durations (so that the conversion to the [unsigned long] of
    [delay] keeps their value) and of an [int] for the count,
    [blinkPattern count on off] always returns.  For a positive count it
    lights D4 [count] times for [on] ms with [off] ms between two pulses
    and none after the last, leaves D4 low, and takes
    [count * on + (count - 1) * off] ms; for a count of zero or less it
    does nothing at all.  It touches neither the other pins nor anything
    else of the state. *)
Theorem blinkPattern_pulses (count on off : Z) (m : Machine) :
  - INT_MAX - 1 <= count <= INT_MAX ->
  0 <= on <= INT_MAX -> 0 <= off <= INT_MAX ->
  exists m',
    blinkPattern count on off m = Ret tt m' /\
    events_since m m' = pulses (Z.to_nat count) on off /\
    total_delay (events_since m m')
    = (if 0 <? count then count * on + (count - 1) * off else 0) /\
    0 <= total_delay (events_since m m') /\
    (if 0 <? count then levelD4 m' = LOW else m' = m) /\
    levelD7 m' = levelD7 m /\ levelD8 m' = levelD8 m /\
    same_memory m m'.
Proof.
  intros Hcount Hon Hoff.
  destruct (blinkPattern_trace count on off m)
    as (m' & E & T & L4 & L7 & L8 & C & Hmem).
  assert (Ev : events_since m m' = pulses (Z.to_nat count) on off).
  { unfold events_since. rewrite T. apply drop_app_length. }
  assert (Ed : total_delay (events_since m m')
               = (if 0 <? count then count * on + (count - 1) * off else 0)).
  { rewrite Ev. destruct (Z.ltb_spec 0 count) as [Hpos|Hneg].
    - destruct (Z.to_nat count) as [|n] eqn:En; [lia|].
      rewrite total_delay_pulses. lia.
    - replace (Z.to_nat count) with 0%nat by lia. reflexivity. }
  exists m'. split; [exact E|]. split; [exact Ev|]. split; [exact Ed|].
  split.
  { rewrite Ed. destruct (Z.ltb_spec 0 count); nia. }
  split; [|repeat split; try assumption; apply Hmem].
  destruct (Z.ltb_spec 0 count) as [Hpos|Hneg]; [exact L4|].
  unfold blinkPattern in E.
  replace (Z.to_nat count) with 0%nat in E by lia.
  cbn in E. injection E as <-. reflexivity.
Qed.

Lemma blinkPattern_pulses_witness :
  exists m',
    blinkPattern 3 500 500 (boot_machine erased_flash None) = Ret tt m' /\
    trace m' = pulses 3 500 500 /\
    total_delay (trace m') = 2500.
Proof.
  destruct (blinkPattern_pulses 3 500 500 (boot_machine erased_flash None))
    as (m' & E & Ev & Ed & _); try (unfold INT_MAX; lia).
  exists m'. split; [exact E|]. split; [exact Ev|exact Ed].
Defined.

(** ** Boot, portal and main loop *)

(** The first part of [setup] on any flash image of the size of the
    store: it returns, and the only thing it may do besides loading the
    settings is to commit the first-boot triple. *)
Lemma setup_settings_returns (fl : list ascii) (rtc : option UptimeData) :
  length fl = EEPROM_SIZE ->
  exists m1,
    setup_settings (boot_machine fl rtc) = Ret tt m1 /\
    length (eeprom m1) = EEPROM_SIZE /\ flash m1 = eeprom m1 /\
    rtcMem m1 = rtc /\
    Forall (eq ev_eepromCommit) (trace m1).
Proof.
  intros Hlen.
  destruct (is_terminator (EEPROM_read fl EEPROM_SSID)) eqn:H.
  - set (mb := set_eeprom fl (boot_machine fl rtc)).
    assert (E : loadString EEPROM_SSID 32 mb = EmptyString)
      by (apply (loadString_empty EEPROM_SSID 31 mb); exact H).
    destruct (save_settings_first_cell firstboot_ssid firstboot_password
                firstboot_apiURL
                (set_config firstboot_ssid firstboot_password firstboot_apiURL
                   (set_config EmptyString (loadString EEPROM_PASSWORD 64 mb)
                      (loadString EEPROM_API_URL 128 mb) mb)) Hlen)
      as (m1 & E1 & _ & Hfl & Hlen1 & Hrtc & Htr).
    exists m1. split; [|split; [exact Hlen1|split; [exact Hfl|split; [exact Hrtc|]]]].
    + rewrite <- E1.
      cbv beta iota delta [setup_settings bind get modify EEPROM_begin].
      change (set_eeprom (flash (boot_machine fl rtc)) (boot_machine fl rtc))
        with mb.
      rewrite E. cbn [ssid set_config String.length Nat.eqb when].
      unfold save_settings, bind.
      rewrite (saveString_unfold firstboot_ssid). cbv beta iota.
      cbn [password apiURL emit set_flash set_eeprom set_config].
      rewrite (saveString_unfold firstboot_password). cbv beta iota.
      cbn [password apiURL emit set_flash set_eeprom set_config].
      reflexivity.
    + rewrite Htr. cbn. repeat constructor.
  - eexists. split; [apply setup_settings_stored; exact H|].
    cbn. repeat split; auto.
Qed.

Lemma bind_Ret {A B : Type} (c : M A) (k : A -> M B) (m m' : Machine) (a : A) :
  c m = Ret a m' -> (x <- c ;; k x) m = k a m'.
Proof. intros E. unfold bind. rewrite E. reflexivity. Qed.

Lemma bind_Reboot {A B : Type} (c : M A) (k : A -> M B) (m m' : Machine) :
  c m = Reboot m' -> (x <- c ;; k x) m = Reboot m'.
Proof. intros E. unfold bind. rewrite E. reflexivity. Qed.

(** X20. The start of the configuration portal: it disconnects the
    station and waits a second; if the access point cannot be
    configured it blinks 5 times (200 ms), if the access point or the
    DNS server cannot be started it blinks 3 times (500 ms), and in
    these cases it waits a second and restarts the device; otherwise it
    goes on to serve.  In every case it leaves settings, store, counters
    and RTC memory as they were. *)
Theorem configMode_outcome (env : BootEnv) (m : Machine) :
  match portal_failure env with
  | Some blink =>
      exists m',
        configMode env m = Reboot m' /\
        events_since m m'
        = ([ev_wifiDisconnect; ev_delay 1000] ++ blink
           ++ [ev_delay 1000; ev_restart])%list /\
        same_memory m m'
  | None =>
      exists m',
        configMode env m = Ret tt m' /\
        events_since m m' = [ev_wifiDisconnect; ev_delay 1000; ev_delay 100] /\
        same_memory m m'
  end.
Proof.
  set (m0 := emit (ev_delay 1000) (emit ev_wifiDisconnect m)).
  assert (T0 : trace m0 = (trace m ++ [ev_wifiDisconnect; ev_delay 1000])%list).
  { subst m0. cbn [trace emit]. rewrite <- app_assoc. reflexivity. }
  assert (Fail : forall count on off,
             exists m',
               (blinkPattern count on off ;; delay 1000 ;; @ESP_restart unit) m0
               = Reboot m' /\
               events_since m m'
               = ([ev_wifiDisconnect; ev_delay 1000]
                  ++ pulses (Z.to_nat count) on off
                  ++ [ev_delay 1000; ev_restart])%list /\
               same_memory m m').
  { intros count on off.
    destruct (blinkPattern_trace count on off m0)
      as (mb & E & T & _ & _ & _ & _ & Hmem).
    eexists. unfold bind at 1. rewrite E. split; [reflexivity|].
    split.
    - unfold events_since. cbn [trace emit]. rewrite T, T0.
      rewrite <- !app_assoc. apply drop_app_length.
    - exact Hmem. }
  unfold portal_failure, configMode.
  rewrite (bind_Ret (modify (emit ev_wifiDisconnect)) _ m
             (emit ev_wifiDisconnect m) tt eq_refl).
  rewrite (bind_Ret (delay 1000) _ _ m0 tt eq_refl).
  destruct env as [b1 b2 sc c1 c2 c3].
  cbn [softAPConfig_ok softAP_ok dns_start_ok].
  destruct c1; cbn [negb when].
  2:{ destruct (Fail 5 200 200) as (m' & E & R).
      exists m'. split; [apply bind_Reboot; exact E|exact R]. }
  rewrite (bind_Ret (ret tt) _ m0 m0 tt eq_refl).
  destruct c2; cbn [negb when].
  2:{ destruct (Fail 3 500 500) as (m' & E & R).
      exists m'. split; [apply bind_Reboot; exact E|exact R]. }
  rewrite (bind_Ret (ret tt) _ m0 m0 tt eq_refl).
  destruct c3; cbn [negb when].
  2:{ destruct (Fail 3 500 500) as (m' & E & R).
      exists m'. split; [apply bind_Reboot; exact E|exact R]. }
  rewrite (bind_Ret (ret tt) _ m0 m0 tt eq_refl).
  eexists. split; [reflexivity|]. split.
  - unfold events_since. cbn [trace emit]. rewrite T0, <- !app_assoc.
    apply drop_app_length.
  - unfold same_memory. repeat split.
Qed.

(** X21. A boot with the button held through the debounce: whatever
    the store holds, the settings are loaded, the factory triple is
    written over them and the device restarts, before any attempt to
    join a network; besides the commits of a first boot the only events
    are the debounce, the three commits of the reset and the restart.
    RTC memory is left as found, and the boot after it uses the factory
    triple. *)
Theorem held_button_resets_before_wifi (env : BootEnv) (w : World)
  (fl : list ascii) (rtc : option UptimeData) :
  length fl = EEPROM_SIZE ->
  button_low_first env = true -> button_low_second env = true ->
  exists m' m2 loaded,
    setup env w (boot_machine fl rtc) = Reboot m' /\
    trace m'
    = (loaded ++ [ev_delay 500; ev_eepromCommit; ev_eepromCommit;
                  ev_eepromCommit; ev_restart])%list /\
    Forall (eq ev_eepromCommit) loaded /\
    rtcMem m' = rtc /\
    setup_settings (restarted m') = Ret tt m2 /\
    (ssid m2, password m2, apiURL m2)
    = ("myssid", "mypassword", "http://login.npu.ac.th/login?123456").
Proof.
  intros Hlen Hb1 Hb2.
  destruct (setup_settings_returns fl rtc Hlen)
    as (m1 & E1 & Hlen1 & _ & Hrtc1 & Htr1).
  destruct (save_settings_spec "myssid" "mypassword"
              "http://login.npu.ac.th/login?123456"
              (emit (ev_delay 500) m1) Hlen1)
    as (m3 & E3 & Hst & Hfl & _).
  destruct (save_settings_first_cell "myssid" "mypassword"
              "http://login.npu.ac.th/login?123456"
              (emit (ev_delay 500) m1) Hlen1)
    as (m3' & E3' & Hcell & _ & _ & Hrtc & Htr).
  rewrite E3 in E3'. injection E3' as <-.
  set (m' := emit ev_restart m3).
  assert (Hname : is_terminator (EEPROM_read (flash m') EEPROM_SSID) = false).
  { subst m'. cbn [flash emit]. rewrite Hfl, Hcell. reflexivity. }
  destruct (stored_settings_after_boot (flash m') (rtcMem m') Hname)
    as (m2 & E2 & Hcfg & He & _).
  exists m', m2, (trace m1).
  split.
  { unfold setup. unfold bind at 1. rewrite E1.
    unfold bind at 1. rewrite Hb1, Hb2. unfold when.
    unfold bind at 1. unfold delay at 1, modify at 1.
    unfold bind at 1.
    change handleResetSettings
      with (save_settings "myssid" "mypassword"
              "http://login.npu.ac.th/login?123456").
    rewrite E3. reflexivity. }
  split.
  { subst m'. cbn [trace emit]. rewrite Htr. cbn [trace emit].
    rewrite <- !app_assoc. reflexivity. }
  split; [exact Htr1|].
  split; [subst m'; cbn [rtcMem emit]; rewrite Hrtc; exact Hrtc1|].
  split; [exact E2|].
  rewrite Hcfg. transitivity (stored_settings m3); [|rewrite Hst; reflexivity].
  apply stored_settings_ext. rewrite He. subst m'. cbn [flash emit]. exact Hfl.
Qed.

Lemma held_button_resets_before_wifi_witness :
  exists m',
    setup (mkBootEnv true true true true true true) world_up
          (boot_machine (saveString_loop "home" 0 0 32 erased_flash)
                        (Some (mkUptime 7 3 2)))
    = Reboot m' /\
    rtcMem m' = Some (mkUptime 7 3 2).
Proof.
  destruct (held_button_resets_before_wifi
              (mkBootEnv true true true true true true) world_up
              (saveString_loop "home" 0 0 32 erased_flash)
              (Some (mkUptime 7 3 2)))
    as (m' & _ & _ & E & _ & _ & Hrtc & _).
  - rewrite saveString_loop_length. reflexivity.
  - reflexivity.
  - reflexivity.
  - exists m'. split; [exact E|exact Hrtc].
Defined.

(** X22. The counters outlive a restart, the flag does not.  After any
    cycle, a restart followed by [normalSetup] finds the counters the
    cycle wrote: [internetUp] and [apiSuccess] as the cycle left them
    and [bootCount] one more (as a [uint32_t]).  The flag is clear
    again, so the cycle that follows probes the internet at least once,
    whatever the earlier cycle found. *)
Theorem counters_survive_restart (w w' : World) (m : Machine) :
  exists m1 m2 m3,
    performInternetCheck w m = Ret tt m1 /\
    normalSetup (restarted m1) = Ret tt m2 /\
    internetUp (rtcData m2) = internetUp (rtcData m1) /\
    apiSuccess (rtcData m2) = apiSuccess (rtcData m1) /\
    bootCount (rtcData m2) = u32_incr (bootCount (rtcData m)) /\
    internetOK m2 = false /\
    performInternetCheck w' m2 = Ret tt m3 /\
    (1 <= internet_attempts (events_since m2 m3))%nat.
Proof.
  destruct (performInternetCheck_spec w m)
    as (apiOK & m1 & E1 & _ & _ & Hd & Hmem & _).
  destruct (normalSetup_spec (restarted m1)) as (m2 & E2 & Hd2 & _ & Hflag).
  assert (F2 : internetOK m2 = false) by (rewrite Hflag; reflexivity).
  destruct (fresh_cycle w' m2 F2) as (m3 & E3 & Hn & _).
  exists m1, m2, m3.
  unfold restarted in Hd2. cbn [rtcMem boot_machine] in Hd2.
  rewrite Hmem in Hd2. cbn [default] in Hd2.
  rewrite Hd2. cbn [internetUp apiSuccess bootCount].
  repeat split; try assumption; try lia.
  rewrite Hd. reflexivity.
Qed.

(** X23. Lines 1199-1200 of [loop], the statements run when a check
    is due: they run one cycle and then, exactly when the cycle left the
    flag set, send one GET to the API URL that was configured before the
    cycle; whatever that request answers, even a failure to begin it,
    changes neither the flag nor the counters nor RTC memory nor the
    settings nor flash. *)
Theorem cycle_then_get (w : World) (m : Machine) :
  exists m1 m',
    performInternetCheck w m = Ret tt m1 /\
    (performInternetCheck w ;;
     ok <- get internetOK ;;
     when ok (url <- get apiURL ;; sendGetRequest w url)) m = Ret tt m' /\
    events_since m1 m'
    = (if internetOK m1
       then [ev_sendGet (apiURL m) (get_code w (clock m1) (apiURL m))]
       else []) /\
    internetOK m' = internetOK m1 /\
    rtcData m' = rtcData m1 /\ rtcMem m' = rtcMem m1 /\
    (ssid m', password m', apiURL m') = (ssid m, password m, apiURL m) /\
    flash m' = flash m.
Proof.
  destruct (cycle_frame w m) as (m1 & E1 & Hs & Hp & Ha & _ & Hf & _).
  exists m1.
  rewrite (bind_Ret (performInternetCheck w) _ m m1 tt E1).
  unfold bind at 1, get at 1, when.
  destruct (internetOK m1) eqn:F.
  - eexists. split; [exact E1|]. split; [reflexivity|].
    cbn [internetOK rtcData rtcMem ssid password apiURL flash advance emit].
    rewrite Hs, Hp, Ha, Hf. repeat split; auto.
    unfold events_since. cbn [trace advance emit].
    rewrite drop_app_length. reflexivity.
  - exists m1. split; [exact E1|]. split; [reflexivity|].
    rewrite Hs, Hp, Ha, Hf. repeat split; auto.
    unfold events_since. apply drop_all.
Qed.
